(** * benchmark3d: the frame loop, the effect pool and the result classifier

    A shallow embedding of [src/main.js] (the WebGL build of the benchmark).

    What is embedded: the module-level collections ([cubes], [particleSystem],
    [explosionParticles], [lights]), membership in the three.js scene graph,
    the ambient particle buffers, the life and opacity of every explosion,
    the camera shake, the run statistics, the browser's queues of pending
    [requestAnimationFrame] and [setTimeout] callbacks, and the values that
    [finishBenchmark] interpolates into the result box.

    What is not embedded: attributes that only the renderer reads (materials,
    mesh rotations and oscillation, light orbits, the camera path, fog) and
    the vertex buffers of an explosion.  The calls to [Math.random] made for
    them are still counted, so that every embedded draw reads the position
    of the random stream that the program reads.  The colour buffer of the
    ambient field is not a field of the particle system of the model;
    [hslToRgb] and the colours that [createParticleSystem] and
    [updateParticles] compute with it are embedded beside it. *)

From Stdlib Require Import ZArith QArith Qabs Floats SpecFloat Uint63.
From Stdlib Require Import Bool String Arith Lia Lqa List.
Import ListNotations.

Set Implicit Arguments.
Set Warnings "-inexact-float,-abstract-large-number".
Close Scope Q_scope.

(** ** JavaScript numbers

    Every number of the program is an IEEE 754 binary64 value.  The program
    is written once over the interface [JSNumber] and read at two instances:
    [binary64], Rocq's primitive floats, which agree with the engine bit for
    bit, and [exactQ], exact rationals, where the arithmetic laws used in the
    proofs about integration hold (rounding, NaN and the infinities are
    absent there, and division is only meaningful away from zero). *)

Class JSNumber (num : Type) : Type := {
  lit : Q -> num;                 (* a decimal literal n/d, correctly rounded *)
  of_nat : nat -> num;            (* an integer counter read as a number *)
  add : num -> num -> num;
  sub : num -> num -> num;
  mul : num -> num -> num;
  div : num -> num -> num;
  lt : num -> num -> bool;        (* x < y *)
  le : num -> num -> bool;        (* x <= y *)
  Math_abs : num -> num;
  Math_min : num -> num -> num;
  Math_max : num -> num -> num;
  truthy : num -> bool;           (* ToBoolean: false on 0, -0 and NaN *)
  fround : num -> num             (* the rounding of a Float32Array store *)
}.

Definition gt {num} `{JSNumber num} (x y : num) : bool := lt y x.

Declare Scope js_scope.
Delimit Scope js_scope with js.
Infix "+" := add : js_scope.
Infix "-" := sub : js_scope.
Infix "*" := mul : js_scope.
Infix "/" := div : js_scope.
Infix "<?" := lt : js_scope.
Infix "<=?" := le : js_scope.
Infix ">?" := gt (at level 70) : js_scope.

Module Binary64.

Definition of_Z (z : Z) : float :=
  if (z <? 0)%Z
  then PrimFloat.opp (PrimFloat.of_uint63 (Uint63.of_Z (- z)))
  else PrimFloat.of_uint63 (Uint63.of_Z z).

(* Numerator and denominator of the literals of the program are below
   2^53, so both conversions are exact and the quotient is the double
   nearest to n/d, which is what the engine's parser produces. *)
Definition lit (q : Q) : float :=
  PrimFloat.div (of_Z (Qnum q)) (of_Z (Zpos (Qden q))).

(* Math.min and Math.max: NaN if an argument is NaN, and -0 below +0. *)
Definition min (x y : float) : float :=
  if PrimFloat.is_nan x || PrimFloat.is_nan y then PrimFloat.nan
  else if PrimFloat.ltb x y then x
  else if PrimFloat.ltb y x then y
  else if PrimFloat.get_sign x then x else y.

Definition max (x y : float) : float :=
  if PrimFloat.is_nan x || PrimFloat.is_nan y then PrimFloat.nan
  else if PrimFloat.ltb x y then y
  else if PrimFloat.ltb y x then x
  else if PrimFloat.get_sign x then y else x.

Definition truthy (x : float) : bool :=
  negb (PrimFloat.is_nan x || PrimFloat.is_zero x).

(* Math.fround: round to nearest even at 24 bits of precision and the
   exponent range of binary32; the result is again a double. *)
Definition fround (x : float) : float :=
  match Prim2SF x with
  | S754_finite s m e =>
      SF2Prim (binary_normalize 24 128 (if s then Z.neg m else Z.pos m) e s)
  | _ => x
  end.

End Binary64.

#[export] Instance binary64 : JSNumber float := {
  lit := Binary64.lit;
  of_nat n := Binary64.of_Z (Z.of_nat n);
  add := PrimFloat.add;
  sub := PrimFloat.sub;
  mul := PrimFloat.mul;
  div := PrimFloat.div;
  lt := PrimFloat.ltb;
  le := PrimFloat.leb;
  Math_abs := PrimFloat.abs;
  Math_min := Binary64.min;
  Math_max := Binary64.max;
  truthy := Binary64.truthy;
  fround := Binary64.fround
}.

Module ExactQ.

Definition ltb (x y : Q) : bool := negb (Qle_bool y x).
Definition min (x y : Q) : Q := if Qle_bool x y then x else y.
Definition max (x y : Q) : Q := if Qle_bool x y then y else x.

End ExactQ.

#[export] Instance exactQ : JSNumber Q := {
  lit q := q;
  of_nat n := inject_Z (Z.of_nat n);
  add := Qplus;
  sub := Qminus;
  mul := Qmult;
  div := Qdiv;
  lt := ExactQ.ltb;
  le := Qle_bool;
  Math_abs := Qabs;
  Math_min := ExactQ.min;
  Math_max := ExactQ.max;
  truthy x := negb (Qeq_bool x 0);
  fround x := x
}.

(** ** Data model *)

(* The kinds of scene object the program creates; [light.type] is read by
   [clearScene]. *)
Inductive ObjectType := Mesh | Points | AmbientLight | PointLight.

(* A JavaScript object reference: [oid] is the identity that [scene.remove]
   and [Array.prototype.indexOf] compare. *)
Record Object3D := { oid : nat; otype : ObjectType }.

Definition is_ambient (o : Object3D) : bool :=
  match otype o with AmbientLight => true | _ => false end.

(* const qualitySettings = { insane: {...} } *)
Record Settings := {
  s_cubes : nat; s_particles : nat; s_lights : nat;
  s_effects : bool; s_complexity : nat
}.

(* The result of [qualitySettings[quality]]: an own property, a property
   inherited from Object.prototype (a function or object without the fields
   of a tier), or undefined. *)
Inductive Lookup := Own (s : Settings) | Inherited | Undefined.

Definition insane : Settings :=
  {| s_cubes := 2000; s_particles := 20000; s_lights := 25;
     s_effects := true; s_complexity := 4 |}.

Definition Object_prototype : list string :=
  [ "constructor"; "hasOwnProperty"; "isPrototypeOf"; "propertyIsEnumerable";
    "toLocaleString"; "toString"; "valueOf"; "__proto__";
    "__defineGetter__"; "__defineSetter__"; "__lookupGetter__";
    "__lookupSetter__" ]%string.

Definition qualitySettings (quality : string) : Lookup :=
  if String.eqb quality "insane" then Own insane
  else if existsb (String.eqb quality) Object_prototype then Inherited
  else Undefined.

Inductive Performance := BEAST_MODE | HIGH_END | MID_RANGE | BUDGET | TOASTER.
Inductive Emoji := Rocket | HighVoltage | VideoGame | Snail | Fire.

Inductive Error := TypeError.

(* setTimeout callbacks of [startBenchmark]: the outer one, which schedules
   the bursts, and the inner one, which spawns one burst. *)
Inductive Callback := ScriptedSequence | ScriptedSpawn.

Section Program.

Context {num : Type} `{JSNumber num}.

(* Math.random(): the value of the n-th call of the page. *)
Variable Math_random : N -> num.

(* particleSystem.geometry.attributes: flat buffers, three per particle *)
Record ParticleSystem := {
  ps_obj : Object3D;
  positions : list num;
  velocities : list num
}.

(* explosion.userData and explosion.material.opacity *)
Record Explosion := {
  ex_obj : Object3D;
  life : num;
  maxLife : num;
  opacity : num
}.

Record CameraShake := { shake_x : num; shake_y : num; intensity : num }.

(* The values interpolated into resultBox.innerHTML; the template prints
   [rep_avgFPS] and [rep_duration] with toFixed(1), and a field of an
   inherited lookup as "undefined". *)
Record Report := {
  rep_emoji : Emoji;
  rep_avgFPS : num;
  rep_performance : Performance;
  rep_quality : string;
  rep_cubes : option nat;
  rep_particles : option nat;
  rep_lights : option nat;
  rep_duration : num
}.

Record Timer := { due : num; callback : Callback }.

(* Collections and scene graph.  [disposed] logs the objects whose
   geometry and material were disposed of, [nextId] is the identity of the
   next object constructed, [draws] the number of Math.random() calls made
   so far; [shakes] below counts the frames that entered the camera shake
   branch.  These four are bookkeeping of the model, not program state. *)
Record World := {
  cubes : list Object3D;
  particleSystem : option ParticleSystem;
  explosionParticles : list Explosion;
  lights : list Object3D;
  scene_children : list Object3D;
  disposed : list Object3D;
  nextId : nat;
  draws : N
}.

Record Run := {
  frameCount : nat;
  totalTime : num;
  running : bool;
  startTime : num;
  lastTime : option num;          (* animate.lastTime *)
  cameraShake : CameraShake;
  camera_y : num;                 (* camera.position.y *)
  shakes : nat                    (* frames that took the shake branch *)
}.

(* The page: result box, control panel, quality selector and the
   browser's queues of pending callbacks. *)
Record Host := {
  resultBox_visible : bool;
  resultBox_innerHTML : option Report;
  ui_visible : bool;
  qualitySelect_value : string;
  rafQueue : nat;
  timers : list Timer
}.

Record State := { world : World; run : Run; host : Host }.

Inductive Outcome := Ok (st : State) | Uncaught (e : Error) (st : State).

Definition state_of (o : Outcome) : State :=
  match o with Ok st => st | Uncaught _ st => st end.

Definition maxTime : num := lit 30.

(** ** Scene graph *)

(* scene.remove(o): the first child identical to [o] is spliced out. *)
Fixpoint remove_child (o : Object3D) (children : list Object3D) : list Object3D :=
  match children with
  | [] => []
  | c :: rest => if oid c =? oid o then rest else c :: remove_child o rest
  end.

(* scene.add(o), for a freshly constructed [o]. *)
Definition scene_add (o : Object3D) (w : World) : World :=
  {| cubes := cubes w; particleSystem := particleSystem w;
     explosionParticles := explosionParticles w; lights := lights w;
     scene_children := scene_children w ++ [o];
     disposed := disposed w; nextId := nextId w; draws := draws w |}.

Definition scene_remove (o : Object3D) (w : World) : World :=
  {| cubes := cubes w; particleSystem := particleSystem w;
     explosionParticles := explosionParticles w; lights := lights w;
     scene_children := remove_child o (scene_children w);
     disposed := disposed w; nextId := nextId w; draws := draws w |}.

(* o.geometry.dispose(); o.material.dispose() *)
Definition dispose (o : Object3D) (w : World) : World :=
  {| cubes := cubes w; particleSystem := particleSystem w;
     explosionParticles := explosionParticles w; lights := lights w;
     scene_children := scene_children w;
     disposed := disposed w ++ [o]; nextId := nextId w; draws := draws w |}.

(* n calls of Math.random() whose values are not embedded *)
Definition skip_draws (n : N) (w : World) : World :=
  {| cubes := cubes w; particleSystem := particleSystem w;
     explosionParticles := explosionParticles w; lights := lights w;
     scene_children := scene_children w;
     disposed := disposed w; nextId := nextId w; draws := (draws w + n)%N |}.

Definition set_cubes (l : list Object3D) (w : World) : World :=
  {| cubes := l; particleSystem := particleSystem w;
     explosionParticles := explosionParticles w; lights := lights w;
     scene_children := scene_children w;
     disposed := disposed w; nextId := nextId w; draws := draws w |}.

Definition set_particleSystem (p : option ParticleSystem) (w : World) : World :=
  {| cubes := cubes w; particleSystem := p;
     explosionParticles := explosionParticles w; lights := lights w;
     scene_children := scene_children w;
     disposed := disposed w; nextId := nextId w; draws := draws w |}.

Definition set_explosionParticles (l : list Explosion) (w : World) : World :=
  {| cubes := cubes w; particleSystem := particleSystem w;
     explosionParticles := l; lights := lights w;
     scene_children := scene_children w;
     disposed := disposed w; nextId := nextId w; draws := draws w |}.

Definition set_lights (l : list Object3D) (w : World) : World :=
  {| cubes := cubes w; particleSystem := particleSystem w;
     explosionParticles := explosionParticles w; lights := l;
     scene_children := scene_children w;
     disposed := disposed w; nextId := nextId w; draws := draws w |}.

(* new THREE.Mesh / Points / AmbientLight / PointLight *)
Definition construct (t : ObjectType) (w : World) : Object3D * World :=
  ({| oid := nextId w; otype := t |},
   {| cubes := cubes w; particleSystem := particleSystem w;
      explosionParticles := explosionParticles w; lights := lights w;
      scene_children := scene_children w;
      disposed := disposed w; nextId := S (nextId w); draws := draws w |}).

(** ** clearScene *)

Definition clearScene (w : World) : World :=
  (* cubes.forEach(cube => { scene.remove(cube); dispose }); cubes = [] *)
  let w := fold_left (fun w cube => dispose cube (scene_remove cube w)) (cubes w) w in
  let w := set_cubes [] w in
  (* if (particleSystem) { ...; particleSystem = null } *)
  let w := match particleSystem w with
           | Some p => set_particleSystem None (dispose (ps_obj p) (scene_remove (ps_obj p) w))
           | None => w
           end in
  (* explosionParticles.forEach(...); explosionParticles = [] *)
  let w := fold_left (fun w e => dispose (ex_obj e) (scene_remove (ex_obj e) w))
                     (explosionParticles w) w in
  let w := set_explosionParticles [] w in
  (* lights.forEach(light => { if (light.type !== 'AmbientLight') scene.remove(light) }) *)
  let w := fold_left (fun w light => if is_ambient light then w else scene_remove light w)
                     (lights w) w in
  (* lights = lights.filter(light => light.type === 'AmbientLight') *)
  set_lights (filter is_ambient (lights w)) w.

(** ** createParticleSystem *)

(* (Math.random() - 0.5) * spread, stored into a Float32Array *)
Definition centred (spread : Q) (r : num) : num :=
  fround ((r - lit (5 # 10)) * lit spread)%js.

(* The body of the loop: nine draws per particle, three for the position,
   three for the velocity and three for a colour that is not embedded. *)
Fixpoint createBuffers (count : nat) (d : N) : list num * list num :=
  match count with
  | 0 => ([], [])
  | S k =>
      let (ps, vs) := createBuffers k (d + 9)%N in
      (centred 200 (Math_random d) :: centred 200 (Math_random (d + 1)%N)
         :: centred 200 (Math_random (d + 2)%N) :: ps,
       centred 2 (Math_random (d + 3)%N) :: centred 2 (Math_random (d + 4)%N)
         :: centred 2 (Math_random (d + 5)%N) :: vs)
  end.

Definition createParticleSystem (count : nat) (w : World) : ParticleSystem * World :=
  let (ps, vs) := createBuffers count (draws w) in
  let (o, w) := construct Points (skip_draws (9 * N.of_nat count) w) in
  ({| ps_obj := o; positions := ps; velocities := vs |}, w).

(** ** createExplosionEffect *)

Definition particleCount : nat := 200.

(* Four draws per vertex (speed, phi, theta, green); the vertex buffers
   themselves are not embedded.  explosion.userData = { life: 1.0,
   maxLife: 60 }; a PointsMaterial is created with opacity 1. *)
Definition createExplosionEffect (w : World) : World :=
  let (o, w) := construct Points (skip_draws (4 * N.of_nat particleCount) w) in
  let w := scene_add o w in
  set_explosionParticles
    (explosionParticles w ++
       [ {| ex_obj := o; life := lit 1; maxLife := lit 60; opacity := lit 1 |} ]) w.

(** ** setupScene *)

Definition with_world (w : World) (st : State) : State :=
  {| world := w; run := run st; host := host st |}.

Definition with_run (r : Run) (st : State) : State :=
  {| world := world st; run := r; host := host st |}.

Definition with_host (h : Host) (st : State) : State :=
  {| world := world st; run := run st; host := h |}.

(* A field of [qualitySettings[quality]]; undefined on an inherited
   property. *)
Definition field (f : Settings -> nat) (l : Lookup) : option nat :=
  match l with Own s => Some (f s) | _ => None end.

(* The number of turns of [for (let i = 0; i < n; i++)]: [i < undefined]
   is false, and [new Float32Array(undefined * 3)] has length 0. *)
Definition turns (n : option nat) : nat :=
  match n with Some k => k | None => 0 end.

(* One turn of the loop over settings.cubes: thirteen draws (geometry,
   colour, position, rotation, rotation speed, phase, amplitude). *)
Fixpoint addCubes (n : nat) (w : World) : World :=
  match n with
  | 0 => w
  | S k =>
      let (cube, w) := construct Mesh (skip_draws 13 w) in
      let w := scene_add cube w in
      addCubes k (set_cubes (cubes w ++ [cube]) w)
  end.

(* One turn of the loop over settings.lights: five draws (position,
   phase, speed). *)
Fixpoint addLights (n : nat) (w : World) : World :=
  match n with
  | 0 => w
  | S k =>
      let (light, w) := construct PointLight (skip_draws 5 w) in
      let w := scene_add light w in
      addLights k (set_lights (lights w ++ [light]) w)
  end.

Definition set_camera_y (y : num) (r : Run) : Run :=
  {| frameCount := frameCount r; totalTime := totalTime r;
     running := running r; startTime := startTime r;
     lastTime := lastTime r; cameraShake := cameraShake r; camera_y := y;
     shakes := shakes r |}.

(* if (lights.length === 0) { const ambientLight = ...; scene.add(ambientLight);
   lights.push(ambientLight); } *)
Definition ambientLighting (w : World) : World :=
  if (length (lights w) =? 0)%nat
  then let (ambientLight, w) := construct AmbientLight w in
       let w := scene_add ambientLight w in
       set_lights (lights w ++ [ambientLight]) w
  else w.

(* The three loops of setupScene, for the counts of the tier. *)
Definition populate (nCubes nParticles nLights : nat) (w : World) : World :=
  let w := addCubes nCubes w in
  (* particleSystem = createParticleSystem(settings.particles);
     scene.add(particleSystem) *)
  let (p, w) := createParticleSystem nParticles w in
  let w := scene_add (ps_obj p) (set_particleSystem (Some p) w) in
  addLights nLights w.

Definition setupScene (quality : string) (st : State) : Outcome :=
  let w := clearScene (world st) in
  let settings := qualitySettings quality in
  let w := ambientLighting w in
  match settings with
  | Undefined =>
      (* settings.cubes: cannot read properties of undefined *)
      Uncaught TypeError (with_world w st)
  | _ =>
      let w := populate (turns (field s_cubes settings))
                        (turns (field s_particles settings))
                        (turns (field s_lights settings)) w in
      (* camera.position.set(0, 0, 80) *)
      Ok {| world := w; run := set_camera_y (lit 0) (run st); host := host st |}
  end.

(** ** updateParticles *)

Definition wrapRadius : Q := 150.

(* Math.abs(positions[i]) > 150 || Math.abs(positions[i + 1]) > 150 ||
   Math.abs(positions[i + 2]) > 150 *)
Definition outside (x y z : num) : bool :=
  (Math_abs x >? lit wrapRadius)%js
  || (Math_abs y >? lit wrapRadius)%js
  || (Math_abs z >? lit wrapRadius)%js.

Fixpoint updateParticles_loop (deltaTime : num) (ps vs : list num) (d : N)
  : list num * N :=
  match ps, vs with
  | p0 :: p1 :: p2 :: ps', v0 :: v1 :: v2 :: vs' =>
      (* positions[i] += velocities[i] * deltaTime *)
      let q0 := fround (p0 + v0 * deltaTime)%js in
      let q1 := fround (p1 + v1 * deltaTime)%js in
      let q2 := fround (p2 + v2 * deltaTime)%js in
      if outside q0 q1 q2 then
        let (rest, d') := updateParticles_loop deltaTime ps' vs' (d + 3)%N in
        (centred 50 (Math_random d) :: centred 50 (Math_random (d + 1)%N)
           :: centred 50 (Math_random (d + 2)%N) :: rest, d')
      else
        let (rest, d') := updateParticles_loop deltaTime ps' vs' d in
        (q0 :: q1 :: q2 :: rest, d')
  | _, _ => (ps, d)
  end.

Definition updateParticles (deltaTime : num) (w : World) : World :=
  match particleSystem w with
  | None => w                              (* if (!particleSystem) return *)
  | Some p =>
      let result :=
        updateParticles_loop deltaTime (positions p) (velocities p) (draws w) in
      set_particleSystem
        (Some {| ps_obj := ps_obj p; positions := fst result;
                 velocities := velocities p |})
        (skip_draws (snd result - draws w) w)
  end.

(** ** updateExplosions *)

Definition decay : Q := 2 # 100.

(* explosionParticles.splice(i, 1) *)
Definition splice1 {A} (i : nat) (l : list A) : list A :=
  firstn i l ++ skipn (S i) l.

(* l[i] = x, for i < l.length *)
Definition store {A} (i : nat) (x : A) (l : list A) : list A :=
  firstn i l ++ x :: skipn (S i) l.

(* explosion.userData.life -= deltaTime * 0.02, and, for an explosion
   that stays, explosion.material.opacity = explosion.userData.life *)
Definition aged (deltaTime : num) (e : Explosion) : Explosion :=
  let l := (life e - deltaTime * lit decay)%js in
  {| ex_obj := ex_obj e; life := l; maxLife := maxLife e; opacity := l |}.

(* if (explosion.userData.life <= 0), after the decrement *)
Definition expires (deltaTime : num) (e : Explosion) : bool :=
  (life (aged deltaTime e) <=? lit 0)%js.

(* The turns of [for (let i = length - 1; i >= 0; i--)] for the indices
   below [n], from the highest down. *)
Fixpoint updateExplosions_below (n : nat) (deltaTime : num) (w : World) : World :=
  match n with
  | 0 => w
  | S i =>
      match nth_error (explosionParticles w) i with
      | None => updateExplosions_below i deltaTime w
      | Some explosion =>
          if expires deltaTime explosion then
            let w := scene_remove (ex_obj explosion) w in
            let w := dispose (ex_obj explosion) w in
            let w := set_explosionParticles (splice1 i (explosionParticles w)) w in
            updateExplosions_below i deltaTime w
          else
            updateExplosions_below i deltaTime
              (set_explosionParticles
                 (store i (aged deltaTime explosion) (explosionParticles w)) w)
      end
  end.

Definition updateExplosions (deltaTime : num) (w : World) : World :=
  updateExplosions_below (length (explosionParticles w)) deltaTime w.

(** ** finishBenchmark *)

Definition classify (avgFPS : num) : Performance * Emoji :=
  if (avgFPS >? lit 55)%js then (BEAST_MODE, Rocket)
  else if (avgFPS >? lit 40)%js then (HIGH_END, HighVoltage)
  else if (avgFPS >? lit 25)%js then (MID_RANGE, VideoGame)
  else if (avgFPS >? lit 15)%js then (BUDGET, Snail)
  else (TOASTER, Fire).

Definition average (frames : nat) (seconds : num) : num :=
  (of_nat frames / seconds)%js.

Definition report (frames : nat) (seconds : num) (quality : string) : Report :=
  let avgFPS := average frames seconds in
  let settings := qualitySettings quality in
  {| rep_emoji := snd (classify avgFPS);
     rep_avgFPS := avgFPS;
     rep_performance := fst (classify avgFPS);
     rep_quality := quality;
     rep_cubes := field s_cubes settings;
     rep_particles := field s_particles settings;
     rep_lights := field s_lights settings;
     rep_duration := seconds |}.

Definition set_running (b : bool) (r : Run) : Run :=
  {| frameCount := frameCount r; totalTime := totalTime r;
     running := b; startTime := startTime r;
     lastTime := lastTime r; cameraShake := cameraShake r;
     camera_y := camera_y r; shakes := shakes r |}.

Definition show_result (r : Report) (h : Host) : Host :=
  {| resultBox_visible := true; resultBox_innerHTML := Some r;
     ui_visible := ui_visible h; qualitySelect_value := qualitySelect_value h;
     rafQueue := rafQueue h; timers := timers h |}.

Definition finishBenchmark (st : State) : Outcome :=
  let st := with_run (set_running false (run st)) st in
  let quality := qualitySelect_value (host st) in
  match qualitySettings quality with
  | Undefined =>
      (* ${settings.cubes} in the template: the assignment to innerHTML
         is never reached *)
      Uncaught TypeError st
  | _ =>
      Ok (with_host
            (show_result
               (report (frameCount (run st)) (totalTime (run st)) quality)
               (host st)) st)
  end.

(** ** animate *)

Definition explosionChance : Q := 1 # 10000.
Definition maxExplosions : nat := 5.

(* The part of the callback of cubes.forEach that is embedded:
     if (Math.random() < 0.0001 && explosionParticles.length < 5) {
       createExplosionEffect(cube.position);
       cameraShake.intensity = Math.max(cameraShake.intensity, 0.5); } *)
Definition randomExplosion (acc : World * CameraShake) (cube : Object3D)
  : World * CameraShake :=
  let (w, shake) := acc in
  let r := Math_random (draws w) in
  let w := skip_draws 1 w in
  if (r <? lit explosionChance)%js
     && (length (explosionParticles w) <? maxExplosions)%nat
  then (createExplosionEffect w,
        {| shake_x := shake_x shake; shake_y := shake_y shake;
           intensity := Math_max (intensity shake) (lit (5 # 10)) |})
  else (w, shake).

(* if (cameraShake.intensity > 0) { ... } *)
Definition shakeCamera (w : World) (r : Run) : World * Run :=
  let shake := cameraShake r in
  if (intensity shake >? lit 0)%js then
    let x := ((Math_random (draws w) - lit (5 # 10)) * intensity shake)%js in
    let y := ((Math_random (draws w + 1)%N - lit (5 # 10)) * intensity shake)%js in
    (skip_draws 2 w,
     {| frameCount := frameCount r; totalTime := totalTime r;
        running := running r; startTime := startTime r;
        lastTime := lastTime r;
        cameraShake := {| shake_x := x; shake_y := y;
                          intensity := (intensity shake * lit (95 # 100))%js |};
        camera_y := (camera_y r + y)%js;
        shakes := S (shakes r) |})
  else (w, r).

Definition requestAnimationFrame (st : State) : State :=
  with_host
    {| resultBox_visible := resultBox_visible (host st);
       resultBox_innerHTML := resultBox_innerHTML (host st);
       ui_visible := ui_visible (host st);
       qualitySelect_value := qualitySelect_value (host st);
       rafQueue := S (rafQueue (host st)); timers := timers (host st) |} st.

(* animate.lastTime || currentTime *)
Definition previousTime (r : Run) (currentTime : num) : num :=
  match lastTime r with
  | Some t => if truthy t then t else currentTime
  | None => currentTime
  end.

Definition frameInterval : Q := 1667 # 100.

Definition deltaTime_of (r : Run) (currentTime : num) : num :=
  Math_min ((currentTime - previousTime r currentTime) / lit frameInterval)%js (lit 2).

(* [currentTime] is the value of performance.now() read by this call. *)
Definition animate (currentTime : num) (st : State) : Outcome :=
  if negb (running (run st)) then Ok st else
  let deltaTime := deltaTime_of (run st) currentTime in
  let r := run st in
  let (w, shake) := fold_left randomExplosion (cubes (world st))
                              (world st, cameraShake r) in
  let w := updateParticles deltaTime w in
  let w := updateExplosions deltaTime w in
  let r := {| frameCount := frameCount r; totalTime := totalTime r;
              running := running r; startTime := startTime r;
              lastTime := Some currentTime; cameraShake := shake;
              camera_y := camera_y r; shakes := shakes r |} in
  let (w, r) := shakeCamera w r in
  (* frameCount++; totalTime = (currentTime - startTime) / 1000 *)
  let r := {| frameCount := S (frameCount r);
              totalTime := ((currentTime - startTime r) / lit 1000)%js;
              running := running r; startTime := startTime r;
              lastTime := lastTime r; cameraShake := cameraShake r;
              camera_y := camera_y r; shakes := shakes r |} in
  let st := {| world := w; run := r; host := host st |} in
  if (totalTime r <? maxTime)%js && running r
  then Ok (requestAnimationFrame st)
  else finishBenchmark st.

(** ** startBenchmark *)

(* setTimeout(callback, delay), called by a handler that last read the
   clock at [now]: the callback runs no earlier than [now + delay]. *)
Definition setTimeout (c : Callback) (now delay : num) (st : State) : State :=
  with_host
    {| resultBox_visible := resultBox_visible (host st);
       resultBox_innerHTML := resultBox_innerHTML (host st);
       ui_visible := ui_visible (host st);
       qualitySelect_value := qualitySelect_value (host st);
       rafQueue := rafQueue (host st);
       timers := timers (host st) ++ [ {| due := (now + delay)%js; callback := c |} ] |}
    st.

(* [now] is the value of performance.now() that startBenchmark stores in
   startTime, [currentTime] the one read by the call of animate at its
   end. *)
Definition startBenchmark (now currentTime : num) (st : State) : Outcome :=
  let r := run st in
  let r := {| frameCount := 0; totalTime := lit 0; running := true;
              startTime := now; lastTime := lastTime r;
              cameraShake := cameraShake r; camera_y := camera_y r;
              shakes := shakes r |} in
  let h := host st in
  (* resultBox.style.display = "none"; ui.style.display = "none" *)
  let h := {| resultBox_visible := false;
              resultBox_innerHTML := resultBox_innerHTML h;
              ui_visible := false;
              qualitySelect_value := qualitySelect_value h;
              rafQueue := rafQueue h; timers := timers h |} in
  match setupScene (qualitySelect_value h) {| world := world st; run := r; host := h |} with
  | Uncaught e st => Uncaught e st
  | Ok st =>
      let st := setTimeout ScriptedSequence now (lit 2000) st in
      animate currentTime st
  end.

(** ** The callbacks the browser runs *)

Definition set_timers (l : list Timer) (st : State) : State :=
  with_host
    {| resultBox_visible := resultBox_visible (host st);
       resultBox_innerHTML := resultBox_innerHTML (host st);
       ui_visible := ui_visible (host st);
       qualitySelect_value := qualitySelect_value (host st);
       rafQueue := rafQueue (host st); timers := l |} st.

(* The burst of the inner callback: a Vector3 of three draws, then
   createExplosionEffect.  No test of explosionParticles.length here. *)
Definition scriptedSpawn (st : State) : State :=
  if running (run st)
  then with_world (createExplosionEffect (skip_draws 3 (world st))) st
  else st.

(* for (let i = 0; i < 3; i++) setTimeout(..., i * 1000) *)
Definition scriptedSequence (now : num) (st : State) : State :=
  if running (run st)
  then fold_left
         (fun st i => setTimeout ScriptedSpawn now (of_nat i * lit 1000)%js st)
         (seq 0 3) st
  else st.

Definition runCallback (c : Callback) (now : num) (st : State) : State :=
  match c with
  | ScriptedSequence => scriptedSequence now st
  | ScriptedSpawn => scriptedSpawn st
  end.

(* The i-th pending timer runs at time [now], if it is due. *)
Definition timeout (now : num) (i : nat) (st : State) : State :=
  match nth_error (timers (host st)) i with
  | Some t =>
      if (due t <=? now)%js
      then runCallback (callback t) now (set_timers (splice1 i (timers (host st))) st)
      else st
  | None => st
  end.

(* A pending requestAnimationFrame callback runs. *)
Definition animationFrame (now : num) (st : State) : Outcome :=
  match rafQueue (host st) with
  | 0 => Ok st
  | S n =>
      animate now
        (with_host
           {| resultBox_visible := resultBox_visible (host st);
              resultBox_innerHTML := resultBox_innerHTML (host st);
              ui_visible := ui_visible (host st);
              qualitySelect_value := qualitySelect_value (host st);
              rafQueue := n; timers := timers (host st) |} st)
  end.

(* document.addEventListener("keydown", ...) *)
Definition keydown (key : string) (st : State) : Outcome :=
  if String.eqb key "Escape" && running (run st)
  then finishBenchmark st
  else Ok st.

(* The user picks an option of the quality selector. *)
Definition selectQuality (quality : string) (st : State) : State :=
  with_host
    {| resultBox_visible := resultBox_visible (host st);
       resultBox_innerHTML := resultBox_innerHTML (host st);
       ui_visible := ui_visible (host st);
       qualitySelect_value := quality;
       rafQueue := rafQueue (host st); timers := timers (host st) |} st.

Inductive Event :=
| Click (now currentTime : num)      (* startBtn: startBenchmark *)
| AnimationFrame (now : num)
| Timeout (now : num) (i : nat)
| Keydown (key : string)
| Select (quality : string).

Definition step (ev : Event) (st : State) : Outcome :=
  match ev with
  | Click now currentTime => startBenchmark now currentTime st
  | AnimationFrame now => animationFrame now st
  | Timeout now i => Ok (timeout now i st)
  | Keydown key => keydown key st
  | Select quality => Ok (selectQuality quality st)
  end.

(* An exception that no handler catches ends the callback; the page goes
   on from the state the callback left. *)
Definition run_events (evs : list Event) (st : State) : State :=
  fold_left (fun st ev => state_of (step ev st)) evs st.

(* The state once the module has been evaluated, with [quality] the
   option the selector shows. *)
Definition initial (quality : string) : State :=
  {| world := {| cubes := []; particleSystem := None; explosionParticles := [];
                 lights := []; scene_children := []; disposed := [];
                 nextId := 0; draws := 0 |};
     run := {| frameCount := 0; totalTime := lit 0; running := false;
               startTime := lit 0; lastTime := None;
               cameraShake := {| shake_x := lit 0; shake_y := lit 0;
                                 intensity := lit 0 |};
               camera_y := lit 0; shakes := 0 |};
     host := {| resultBox_visible := false; resultBox_innerHTML := None;
                ui_visible := true; qualitySelect_value := quality;
                rafQueue := 0; timers := [] |} |}.

End Program.

Arguments ParticleSystem num : clear implicits.
Arguments Explosion num : clear implicits.
Arguments CameraShake num : clear implicits.
Arguments Report num : clear implicits.
Arguments Timer num : clear implicits.
Arguments World num : clear implicits.
Arguments Run num : clear implicits.
Arguments Host num : clear implicits.
Arguments State num : clear implicits.
Arguments Outcome num : clear implicits.
Arguments Event num : clear implicits.
Arguments Ok {num}.
Arguments Uncaught {num}.

(** ** hslToRgb *)

Section Colour.

Context {num : Type} `{JSNumber num}.

(* Math.random(): the value of the n-th call of the page. *)
Variable Math_random : N -> num.

(* { r, g, b } *)
Record RGB := { rgb_r : num; rgb_g : num; rgb_b : num }.

(* x === y on two numbers: false if either is NaN, true on 0 and -0. *)
Definition strictEquals (x y : num) : bool := (x <=? y)%js && (y <=? x)%js.

(* const hue2rgb = (p, q, t) => { ... } *)
Definition hue2rgb (p q t : num) : num :=
  (* if (t < 0) t += 1; if (t > 1) t -= 1 *)
  let t := if (t <? lit 0)%js then (t + lit 1)%js else t in
  let t := if (t >? lit 1)%js then (t - lit 1)%js else t in
  if (t <? lit 1 / lit 6)%js then (p + (q - p) * lit 6 * t)%js
  else if (t <? lit 1 / lit 2)%js then q
  else if (t <? lit 2 / lit 3)%js then (p + (q - p) * (lit 2 / lit 3 - t) * lit 6)%js
  else p.

Definition hslToRgb (h s l : num) : RGB :=
  if strictEquals s (lit 0) then {| rgb_r := l; rgb_g := l; rgb_b := l |}
  else
    let q := if (l <? lit (5 # 10))%js then (l * (lit 1 + s))%js
             else (l + s - l * s)%js in
    let p := (lit 2 * l - q)%js in
    {| rgb_r := hue2rgb p q (h + lit 1 / lit 3)%js;
       rgb_g := hue2rgb p q h;
       rgb_b := hue2rgb p q (h - lit 1 / lit 3)%js |}.

(* The colour of a particle of createParticleSystem, from the seventh,
   eighth and ninth draw of its turn of the loop:
     const hue = Math.random();
     const saturation = 0.8 + Math.random() * 0.2;
     const lightness = 0.5 + Math.random() * 0.5; *)
Definition particleColour (d : N) : RGB :=
  hslToRgb (Math_random (d + 6)%N)
           (lit (8 # 10) + Math_random (d + 7)%N * lit (2 # 10))%js
           (lit (5 # 10) + Math_random (d + 8)%N * lit (5 # 10))%js.

(* The colors buffer of createParticleSystem, a Float32Array. *)
Fixpoint createColours (count : nat) (d : N) : list num :=
  match count with
  | 0 => []
  | S k =>
      let rgb := particleColour d in
      fround (rgb_r rgb) :: fround (rgb_g rgb) :: fround (rgb_b rgb)
        :: createColours k (d + 9)%N
  end.

(* The colour updateParticles gives every particle: hslToRgb(hue, 0.8, 0.6) *)
Definition rainbow (hue : num) : RGB := hslToRgb hue (lit (8 # 10)) (lit (6 # 10)).

End Colour.

Arguments RGB num : clear implicits.

(** ** The vertices of an explosion *)

Section ExplosionVertices.

Context {num : Type} `{JSNumber num}.

Definition gravity : Q := 5 # 10.

(* The inner loop of updateExplosions over the two vertex buffers of one
   explosion, both Float32Arrays:
     positions[j] += velocities[j] * deltaTime;  (and j + 1, j + 2)
     velocities[j + 1] -= 0.5 * deltaTime; *)
Fixpoint moveVertices (deltaTime : num) (ps vs : list num) : list num * list num :=
  match ps, vs with
  | p0 :: p1 :: p2 :: ps', v0 :: v1 :: v2 :: vs' =>
      let (ps'', vs'') := moveVertices deltaTime ps' vs' in
      (fround (p0 + v0 * deltaTime)%js :: fround (p1 + v1 * deltaTime)%js
         :: fround (p2 + v2 * deltaTime)%js :: ps'',
       v0 :: fround (v1 - lit gravity * deltaTime)%js :: v2 :: vs'')
  | _, _ => (ps, vs)
  end.

(* The loop on [n] successive frames of the same deltaTime. *)
Fixpoint moveVertices_frames (n : nat) (deltaTime : num) (ps vs : list num)
  : list num * list num :=
  match n with
  | 0 => (ps, vs)
  | S k =>
      let (ps', vs') := moveVertices deltaTime ps vs in
      moveVertices_frames k deltaTime ps' vs'
  end.

End ExplosionVertices.

(** ** Vocabulary of the statements *)

(* scene.remove for each object of a list, in turn *)
Definition remove_children (os : list Object3D) (children : list Object3D)
  : list Object3D :=
  fold_left (fun c o => remove_child o c) os children.

(* The [n] objects of type [t] constructed from identity [from] on. *)
Definition fresh (t : ObjectType) (from n : nat) : list Object3D :=
  map (fun i => {| oid := i; otype := t |}) (seq from n).

Section Vocabulary.

Context {num : Type} `{JSNumber num}.

Definition ambientLights (w : World num) : list Object3D :=
  filter is_ambient (lights w).

Definition pointLights (w : World num) : list Object3D :=
  filter (fun o => negb (is_ambient o)) (lights w).

Definition particleObjects (w : World num) : list Object3D :=
  match particleSystem w with Some p => [ps_obj p] | None => [] end.

(* The number of particles of the ambient field. *)
Definition particleFieldSize (w : World num) : nat :=
  match particleSystem w with
  | Some p => length (positions p) / 3
  | None => 0
  end.

(* The objects the collections hold, in the order in which the program
   adds them to the scene. *)
Definition owned (w : World num) : list Object3D :=
  ambientLights w ++ cubes w ++ particleObjects w ++ pointLights w
    ++ map (@ex_obj num) (explosionParticles w).

(* The scene graph holds exactly the objects of the collections, every
   object once, and at most one ambient light, pushed before the point
   lights. *)
Definition scene_ok (w : World num) : Prop :=
  scene_children w = owned w /\
  NoDup (map oid (scene_children w)) /\
  (forall o, In o (scene_children w) -> oid o < nextId w) /\
  lights w = ambientLights w ++ pointLights w /\
  length (ambientLights w) <= 1.

Definition count_type (t : ObjectType) (l : list Object3D) : nat :=
  length (filter (fun o => match otype o, t with
                           | Mesh, Mesh | Points, Points
                           | AmbientLight, AmbientLight
                           | PointLight, PointLight => true
                           | _, _ => false
                           end) l).

(* The three coordinates of particle [k] in a flat buffer. *)
Definition coordinates (zero : num) (k : nat) (buffer : list num) : num * num * num :=
  (nth (3 * k) buffer zero, nth (3 * k + 1) buffer zero, nth (3 * k + 2) buffer zero).

End Vocabulary.

(* Math.random() returning 0 on every call: every draw is below the
   explosion chance. *)
Definition always_zero : N -> float := fun _ => 0%float.

(* Math.random() returning 0.5 on every call: no draw is below the
   explosion chance. *)
Definition always_half : N -> float := fun _ => 0.5%float.

(* The shake intensity k frames after a trigger: 0.5, then times 0.95 per
   frame, in binary64. *)
Fixpoint shake_after (k : nat) : float :=
  match k with
  | 0 => 0.5%float
  | S j => PrimFloat.mul (shake_after j) 0.95%float
  end.

(* The number of frames after which the product no longer changes, and the
   value it keeps: 9 * 2^-1074. *)
Definition shake_plateau : nat := 14453.
Definition shake_floor : float := 0x9p-1074%float.

(* [k] further frames of decay from [x]. *)
Fixpoint decays (k : nat) (x : float) : float :=
  match k with
  | 0 => x
  | S j => decays j (PrimFloat.mul x 0.95%float)
  end.

(* For the first [n] values of the decay from [x]: the value is positive,
   its successor is strictly smaller, and Math.max(value, 0.5) is 0.5. *)
Fixpoint orbit_ok (n : nat) (x : float) : bool :=
  match n with
  | 0 => true
  | S m =>
      PrimFloat.ltb 0 x
      && PrimFloat.ltb (PrimFloat.mul x 0.95%float) x
      && PrimFloat.Leibniz.eqb (Binary64.max x 0.5%float) 0.5%float
      && orbit_ok m (PrimFloat.mul x 0.95%float)
  end.

(* A running page whose shake intensity is [x], with an empty scene. *)
Definition shaking (x : float) : State float :=
  {| world := world (initial "insane");
     run := {| frameCount := 0; totalTime := 0%float; running := true;
               startTime := 0%float; lastTime := None;
               cameraShake := {| shake_x := 0%float; shake_y := 0%float;
                                 intensity := x |};
               camera_y := 0%float; shakes := 0 |};
     host := host (initial "insane") |}.

(* Math.random() returning 1/2 on every call, over exact arithmetic. *)
Definition always_half_exact : N -> Q := fun _ => (1 # 2)%Q.

(* A field of two particles: the first leaves the wrap radius within one
   unit of time. *)
Definition small_field : ParticleSystem Q :=
  {| ps_obj := {| oid := 0; otype := Points |};
     positions := [149 # 1; 0; 0; 10 # 1; 20 # 1; 30 # 1]%Q;
     velocities := [2 # 1; 0; 0; 1 # 1; 1 # 1; 1 # 1]%Q |}.

(* A world of that field and two explosions, the second of which expires
   within one unit of time. *)
Definition small_world : World Q :=
  {| cubes := [];
     particleSystem := Some small_field;
     explosionParticles :=
       [ {| ex_obj := {| oid := 1; otype := Points |};
            life := 1; maxLife := 60; opacity := 1 |};
         {| ex_obj := {| oid := 2; otype := Points |};
            life := 1 # 100; maxLife := 60; opacity := 1 # 100 |} ]%Q;
     lights := [];
     scene_children := [ {| oid := 0; otype := Points |};
                         {| oid := 1; otype := Points |};
                         {| oid := 2; otype := Points |} ];
     disposed := []; nextId := 3; draws := 0 |}.

(* The clock readings of nine frames at about 60 per second after a start
   at 5000 ms. *)
Definition nine_frames : list float :=
  [5017; 5033; 5050; 5067; 5083; 5100; 5117; 5133; 5150]%float.

(* A start at 5000 ms whose first frame reads the same clock value, then
   nine frames. *)
Definition ten_frames_in : State float :=
  run_events always_half
    (Click 5000%float 5000%float :: map (@AnimationFrame float) nine_frames)
    (initial "insane").

(* A first start, on the tier of the table. *)
Definition started : State float :=
  state_of (step always_half (Click 5000%float 5000%float) (initial "insane")).

(* A start in which every draw is below the explosion chance, then two
   slow frames. *)
Definition pool_full : State float :=
  run_events always_zero
    [Click 5000%float 5000%float; AnimationFrame 6000%float; AnimationFrame 7000%float]
    (initial "insane").

(* The buckets of the classifier, from the lowest. *)
Definition rank (p : Performance) : nat :=
  match p with
  | TOASTER => 0 | BUDGET => 1 | MID_RANGE => 2 | HIGH_END => 3 | BEAST_MODE => 4
  end.

(* The clicks on the start button among the events of a run. *)
Definition is_click {num} (ev : Event num) : bool :=
  match ev with Click _ _ => true | _ => false end.

Definition clicks {num} (evs : list (Event num)) : nat :=
  length (filter is_click evs).

(* The bursts a pending timer can still lead to: one for the inner
   callback, three for the outer one, which schedules three inner ones. *)
Definition bursts (c : Callback) : nat :=
  match c with ScriptedSequence => 3 | ScriptedSpawn => 1 end.

Definition armed {num} (l : list (Timer num)) : nat :=
  list_sum (map (fun t => bursts (callback t)) l).

(* updateExplosions on successive frames, for the deltaTime of each. *)
Definition updateExplosions_frames {num} `{JSNumber num}
    (deltaTimes : list num) (w : World num) : World num :=
  fold_left (fun w deltaTime => updateExplosions deltaTime w) deltaTimes w.

(* The buffers of the ambient field are parallel, hold whole particles,
   and every coordinate is within the wrap radius. *)
Definition field_ok (w : World Q) : Prop :=
  match particleSystem w with
  | None => True
  | Some p =>
      length (velocities p) = length (positions p) /\
      (exists n, length (positions p) = 3 * n) /\
      Forall (fun x => (Qabs x <= wrapRadius)%Q) (positions p)
  end.

(* A run on an empty scene that has requested a frame and armed the
   scripted sequence, and the page it leaves when Escape ends it. *)
Definition under_way : State float :=
  requestAnimationFrame (setTimeout ScriptedSequence 5000%float 2000%float
                           (shaking 0.5%float)).

Definition finished : State float := state_of (keydown "Escape" under_way).

(* The events a finished page still receives: the pending frame callback,
   the pending timer, a key press and a change of the selector. *)
Definition stale_events : list (Event float) :=
  [AnimationFrame 5016%float; Timeout 7000%float 0; Keydown "Escape";
   Select "low"; Timeout 8000%float 0].

(* Run statistics with a shake of intensity 1/2, over exact arithmetic. *)
Definition shaken : Run Q :=
  {| frameCount := 0; totalTime := 0%Q; running := true; startTime := 0%Q;
     lastTime := None;
     cameraShake := {| shake_x := 0%Q; shake_y := 0%Q; intensity := (1 # 2)%Q |};
     camera_y := 0%Q; shakes := 0 |}.

(* The changes of the selector among the events of a run. *)
Definition is_select {num} (ev : Event num) : bool :=
  match ev with Select _ => true | _ => false end.

Definition selections {num} (evs : list (Event num)) : nat :=
  length (filter is_select evs).

(** * Properties *)

(** ** Collections under clearScene and setupScene *)

Section Scene.

Context {num : Type} `{JSNumber num}.
Variable Math_random : N -> num.

Lemma fold_left_keeps {A B C} (proj : A -> C) (f : A -> B -> A) (l : list B) (a : A) :
  (forall a b, proj (f a b) = proj a) -> proj (fold_left f l a) = proj a.
Proof.
  intros Hf. revert a. induction l as [|b l IH]; intros a; cbn; [reflexivity|].
  now rewrite IH, Hf.
Qed.

Ltac keeps :=
  repeat first
    [ rewrite (fold_left_keeps (@cubes num))
        by (intros ? ?; repeat destruct (is_ambient _); reflexivity)
    | rewrite (fold_left_keeps (@particleSystem num))
        by (intros ? ?; repeat destruct (is_ambient _); reflexivity)
    | rewrite (fold_left_keeps (@explosionParticles num))
        by (intros ? ?; repeat destruct (is_ambient _); reflexivity)
    | rewrite (fold_left_keeps (@lights num))
        by (intros ? ?; repeat destruct (is_ambient _); reflexivity)
    | rewrite (fold_left_keeps (@nextId num))
        by (intros ? ?; repeat destruct (is_ambient _); reflexivity)
    | rewrite (fold_left_keeps (@draws num))
        by (intros ? ?; repeat destruct (is_ambient _); reflexivity)
    | progress cbn [cubes particleSystem explosionParticles lights nextId draws
                    set_cubes set_particleSystem set_explosionParticles set_lights
                    dispose scene_remove scene_add skip_draws] ].

Lemma clearScene_collections (w : World num) :
  cubes (clearScene w) = [] /\
  particleSystem (clearScene w) = None /\
  explosionParticles (clearScene w) = [] /\
  lights (clearScene w) = filter is_ambient (lights w) /\
  nextId (clearScene w) = nextId w /\
  draws (clearScene w) = draws w.
Proof.
  unfold clearScene.
  destruct (particleSystem (set_cubes [] _)) eqn:E; keeps; repeat split; auto.
  cbn in E. revert E. keeps. auto.
Qed.

End Scene.

(** ** scene.remove *)

Section SceneGraph.

Lemma remove_child_incl (o : Object3D) (c : list Object3D) (x : Object3D) :
  In x (remove_child o c) -> In x c.
Proof.
  induction c as [|a c IH]; cbn; [tauto|].
  destruct (oid a =? oid o); cbn; tauto.
Qed.

Lemma remove_child_NoDup (o : Object3D) (c : list Object3D) :
  NoDup (map oid c) -> NoDup (map oid (remove_child o c)).
Proof.
  induction c as [|a c IH]; cbn; intros Hc; [constructor|].
  inversion Hc as [|? ? Ha Hc']; subst.
  destruct (oid a =? oid o); [exact Hc'|]. cbn. constructor; auto.
  intros Hin. apply Ha. apply in_map_iff in Hin. destruct Hin as (x & Hx & Hin).
  apply in_map_iff. exists x. split; [exact Hx|]. eapply remove_child_incl; eauto.
Qed.


Lemma remove_children_incl (os c : list Object3D) (x : Object3D) :
  In x (remove_children os c) -> In x c.
Proof.
  revert c. induction os as [|o os IH]; intros c; cbn; [tauto|].
  intros Hx. eapply remove_child_incl. apply IH. exact Hx.
Qed.

Lemma remove_children_NoDup (os c : list Object3D) :
  NoDup (map oid c) -> NoDup (map oid (remove_children os c)).
Proof.
  revert c. induction os as [|o os IH]; intros c Hc; cbn; [exact Hc|].
  apply IH. now apply remove_child_NoDup.
Qed.


Lemma NoDup_map_injective {A B} (f : A -> B) (l : list A) (x y : A) :
  NoDup (map f l) -> In x l -> In y l -> f x = f y -> x = y.
Proof.
  induction l as [|a l IH]; cbn; intros Hl Hx Hy Hf; [tauto|].
  inversion Hl as [|? ? Ha Hl']; subst.
  destruct Hx as [-> | Hx], Hy as [-> | Hy]; auto.
  - exfalso. apply Ha. rewrite Hf. now apply in_map.
  - exfalso. apply Ha. rewrite <- Hf. now apply in_map.
Qed.

Lemma remove_child_skip (o : Object3D) (a b : list Object3D) :
  (forall x, In x a -> oid x <> oid o) ->
  remove_child o (a ++ o :: b) = a ++ b.
Proof.
  induction a as [|x a IH]; cbn; intros Ha.
  - now rewrite Nat.eqb_refl.
  - destruct (oid x =? oid o) eqn:E.
    + apply Nat.eqb_eq in E. exfalso. apply (Ha x); auto.
    + f_equal. apply IH. auto.
Qed.

Lemma NoDup_oid_front (o : Object3D) (a b : list Object3D) :
  NoDup (map oid (a ++ o :: b)) -> forall x, In x a -> oid x <> oid o.
Proof.
  rewrite map_app. cbn. intros Hnd x Hx Heq.
  apply NoDup_remove_2 in Hnd. apply Hnd. apply in_or_app. left.
  rewrite <- Heq. now apply in_map.
Qed.

(* Removing the objects of a segment of the children, one by one. *)
Lemma remove_children_segment (l a b : list Object3D) :
  NoDup (map oid (a ++ l ++ b)) -> remove_children l (a ++ l ++ b) = a ++ b.
Proof.
  revert a. induction l as [|o l IH]; intros a Hnd; [reflexivity|].
  cbn [remove_children fold_left app].
  rewrite remove_child_skip by (eapply NoDup_oid_front; exact Hnd).
  apply IH. rewrite <- (remove_child_skip o a (l ++ b))
    by (eapply NoDup_oid_front; exact Hnd).
  now apply remove_child_NoDup.
Qed.

Lemma remove_children_tail (l a : list Object3D) :
  NoDup (map oid (a ++ l)) -> remove_children l (a ++ l) = a.
Proof.
  intros Hnd. pose proof (remove_children_segment l a []) as Hs.
  rewrite !app_nil_r in Hs. auto.
Qed.

Lemma filter_all {A} (f : A -> bool) (l : list A) :
  (forall x, In x l -> f x = true) -> filter f l = l.
Proof.
  induction l as [|a l IH]; cbn; intros Hl; [reflexivity|].
  rewrite (Hl a) by auto. f_equal. auto.
Qed.

Lemma filter_none {A} (f : A -> bool) (l : list A) :
  (forall x, In x l -> f x = false) -> filter f l = [].
Proof.
  induction l as [|a l IH]; cbn; intros Hl; [reflexivity|].
  rewrite (Hl a) by auto. auto.
Qed.

Lemma remove_child_filter (o : Object3D) (c : list Object3D) :
  NoDup (map oid c) ->
  remove_child o c = filter (fun x => negb (oid x =? oid o)) c.
Proof.
  induction c as [|a c IH]; cbn; intros Hc; [reflexivity|].
  inversion Hc as [|? ? Ha Hc']; subst.
  destruct (oid a =? oid o) eqn:E; cbn.
  - symmetry. apply filter_all. intros x Hx. apply negb_true_iff, Nat.eqb_neq.
    apply Nat.eqb_eq in E. intros Hxo. apply Ha. rewrite E, <- Hxo. now apply in_map.
  - f_equal. auto.
Qed.

Lemma filter_filter {A} (f g : A -> bool) (l : list A) :
  filter f (filter g l) = filter (fun x => g x && f x) l.
Proof.
  induction l as [|a l IH]; cbn; [reflexivity|].
  destruct (g a); cbn; [destruct (f a)|]; now rewrite IH.
Qed.

(* On children without repeated identities, removing objects one by one
   keeps the children whose identity is none of theirs. *)
Lemma remove_children_filter (os c : list Object3D) :
  NoDup (map oid c) ->
  remove_children os c
    = filter (fun x => negb (existsb (fun o => oid x =? oid o) os)) c.
Proof.
  revert c. induction os as [|o os IH]; intros c Hc; cbn.
  - symmetry. now apply filter_all.
  - change (fold_left _ os (remove_child o c)) with (remove_children os (remove_child o c)).
    rewrite IH by now apply remove_child_NoDup.
    rewrite remove_child_filter by exact Hc. rewrite filter_filter.
    apply filter_ext. intros x. now rewrite negb_orb.
Qed.

Lemma filter_map_commute {A B} (f : A -> B) (p : B -> bool) (l : list A) :
  filter p (map f l) = map f (filter (fun x => p (f x)) l).
Proof.
  induction l as [|a l IH]; cbn; [reflexivity|].
  destruct (p (f a)); cbn; now rewrite IH.
Qed.

Lemma NoDup_app_disjoint {A} (l1 l2 : list A) (x : A) :
  NoDup (l1 ++ l2) -> In x l1 -> In x l2 -> False.
Proof.
  induction l1 as [|a l1 IH]; cbn; intros Hnd H1 H2; [exact H1|].
  inversion Hnd as [|? ? Ha Hnd']; subst.
  destruct H1 as [-> | H1]; [|auto].
  apply Ha. apply in_or_app. now right.
Qed.

End SceneGraph.

(** ** Populating the scene *)

Section Population.

Context {num : Type} `{JSNumber num}.
Variable Math_random : N -> num.

Lemma dispose_all_children (l : list Object3D) (w : World num) :
  scene_children (fold_left (fun w o => dispose o (scene_remove o w)) l w)
    = remove_children l (scene_children w).
Proof. revert w. induction l as [|o l IH]; intros w; cbn; [reflexivity|]. now rewrite IH. Qed.

Lemma dispose_all_explosions (l : list (Explosion num)) (w : World num) :
  scene_children
    (fold_left (fun w e => dispose (ex_obj e) (scene_remove (ex_obj e) w)) l w)
    = remove_children (map (@ex_obj num) l) (scene_children w).
Proof. revert w. induction l as [|o l IH]; intros w; cbn; [reflexivity|]. now rewrite IH. Qed.

Lemma remove_all_point_lights (l : list Object3D) (w : World num) :
  scene_children
    (fold_left (fun w light => if is_ambient light then w else scene_remove light w) l w)
    = remove_children (filter (fun o => negb (is_ambient o)) l) (scene_children w).
Proof.
  revert w. induction l as [|o l IH]; intros w; cbn; [reflexivity|].
  rewrite IH. destruct (is_ambient o); reflexivity.
Qed.

Lemma clearScene_children (w : World num) :
  scene_children (clearScene w)
    = remove_children (pointLights w)
        (remove_children (map (@ex_obj num) (explosionParticles w))
           (remove_children (particleObjects w)
              (remove_children (cubes w) (scene_children w)))).
Proof.
  unfold clearScene, pointLights, particleObjects.
  cbn [scene_children set_lights].
  rewrite remove_all_point_lights. cbn [scene_children set_explosionParticles lights].
  rewrite dispose_all_explosions.
  rewrite (fold_left_keeps (@lights num)) by reflexivity.
  set (w1 := set_cubes [] _).
  assert (Hp : particleSystem w1 = particleSystem w)
    by (unfold w1; cbn; now rewrite (fold_left_keeps (@particleSystem num))).
  assert (Hl : lights w1 = lights w)
    by (unfold w1; cbn; now rewrite (fold_left_keeps (@lights num))).
  assert (He : explosionParticles w1 = explosionParticles w)
    by (unfold w1; cbn; now rewrite (fold_left_keeps (@explosionParticles num))).
  assert (Hs : scene_children w1 = remove_children (cubes w) (scene_children w))
    by (unfold w1; cbn; apply dispose_all_children).
  clear Hl He Hs.
  rewrite Hp. destruct (particleSystem w); cbn;
    rewrite (fold_left_keeps (@lights num)),
            (fold_left_keeps (@explosionParticles num)),
            dispose_all_children by reflexivity; reflexivity.
Qed.

Lemma ambientLights_ambient (w : World num) (o : Object3D) :
  In o (ambientLights w) -> is_ambient o = true.
Proof. unfold ambientLights. intros Ho. now apply filter_In in Ho. Qed.

(* clearScene on a scene that holds what the collections hold: the
   ambient light is all that is left. *)
Lemma clearScene_ok (w : World num) :
  scene_ok w ->
  scene_children (clearScene w) = ambientLights w /\
  lights (clearScene w) = ambientLights w /\
  scene_ok (clearScene w).
Proof.
  intros (Hc & Hnd & Hid & Hl & Ha).
  destruct (clearScene_collections w) as (Cc & Cp & Ce & Cl & Cn & Cd).
  assert (Hch : scene_children (clearScene w) = ambientLights w).
  { rewrite clearScene_children. rewrite Hc in *. unfold owned in *.
    rewrite (remove_children_segment (cubes w) (ambientLights w) _ Hnd).
    assert (Hnd1 : NoDup (map oid (ambientLights w ++ particleObjects w
               ++ pointLights w ++ map (@ex_obj num) (explosionParticles w)))).
    { rewrite <- (remove_children_segment (cubes w) (ambientLights w) _ Hnd).
      now apply remove_children_NoDup. }
    rewrite (remove_children_segment (particleObjects w) (ambientLights w) _ Hnd1).
    assert (Hnd2 : NoDup (map oid (ambientLights w
               ++ pointLights w ++ map (@ex_obj num) (explosionParticles w)))).
    { rewrite <- (remove_children_segment (particleObjects w) (ambientLights w) _ Hnd1).
      now apply remove_children_NoDup. }
    rewrite app_assoc in Hnd2 |- *.
    rewrite (remove_children_tail _ _ Hnd2).
    apply remove_children_tail.
    rewrite <- (remove_children_tail _ _ Hnd2).
    now apply remove_children_NoDup. }
  split; [exact Hch|]. split; [exact Cl|].
  assert (Haa : ambientLights (clearScene w) = ambientLights w).
  { unfold ambientLights. rewrite Cl. apply filter_all.
    intros x Hx. now apply filter_In in Hx. }
  assert (Hpp : pointLights (clearScene w) = []).
  { unfold pointLights. rewrite Cl. apply filter_none.
    intros x Hx. apply filter_In in Hx. destruct Hx as [_ ->]. reflexivity. }
  unfold scene_ok, owned, particleObjects.
  rewrite Haa, Hpp, Cc, Cp, Ce, Cn, Hch. cbn. rewrite app_nil_r.
  split; [reflexivity|]. split.
  - rewrite <- Hch, clearScene_children. now repeat apply remove_children_NoDup.
  - split; [|split; [exact Cl | exact Ha]].
    intros o Ho. apply Hid. rewrite Hc. unfold owned. apply in_or_app. now left.
Qed.

Lemma fresh_S (t : ObjectType) (from n : nat) :
  fresh t from (S n) = {| oid := from; otype := t |} :: fresh t (S from) n.
Proof. reflexivity. Qed.

Lemma fresh_oid (t : ObjectType) (from n : nat) : map oid (fresh t from n) = seq from n.
Proof.
  unfold fresh. rewrite map_map. cbn. apply map_id.
Qed.

Lemma fresh_length (t : ObjectType) (from n : nat) : length (fresh t from n) = n.
Proof. unfold fresh. now rewrite length_map, length_seq. Qed.

Lemma fresh_type (t : ObjectType) (from n : nat) (o : Object3D) :
  In o (fresh t from n) -> otype o = t.
Proof.
  unfold fresh. intros Ho. apply in_map_iff in Ho. now destruct Ho as (i & <- & _).
Qed.

Lemma addCubes_spec (n : nat) :
  forall w : World num,
    let w' := addCubes n w in
    cubes w' = cubes w ++ fresh Mesh (nextId w) n /\
    scene_children w' = scene_children w ++ fresh Mesh (nextId w) n /\
    nextId w' = nextId w + n /\
    particleSystem w' = particleSystem w /\
    explosionParticles w' = explosionParticles w /\
    lights w' = lights w /\ disposed w' = disposed w.
Proof.
  induction n as [|n IH]; intros w; cbn [addCubes].
  - cbn. rewrite !app_nil_r, Nat.add_0_r. auto 10.
  - cbn [construct].
    match goal with |- context [addCubes n ?w1] =>
      destruct (IH w1) as (Hc & Hs & Hn & Hp & He & Hl & Hd) end.
    rewrite Hc, Hs, Hn, Hp, He, Hl, Hd. cbn. rewrite <- !app_assoc. cbn.
    rewrite Nat.add_succ_r. auto 10.
Qed.

Lemma addLights_spec (n : nat) :
  forall w : World num,
    let w' := addLights n w in
    lights w' = lights w ++ fresh PointLight (nextId w) n /\
    scene_children w' = scene_children w ++ fresh PointLight (nextId w) n /\
    nextId w' = nextId w + n /\
    particleSystem w' = particleSystem w /\
    explosionParticles w' = explosionParticles w /\
    cubes w' = cubes w /\ disposed w' = disposed w.
Proof.
  induction n as [|n IH]; intros w; cbn [addLights].
  - cbn. rewrite !app_nil_r, Nat.add_0_r. auto 10.
  - cbn [construct].
    match goal with |- context [addLights n ?w1] =>
      destruct (IH w1) as (Hc & Hs & Hn & Hp & He & Hl & Hd) end.
    rewrite Hc, Hs, Hn, Hp, He, Hl, Hd. cbn. rewrite <- !app_assoc. cbn.
    rewrite Nat.add_succ_r. auto 10.
Qed.

Lemma createBuffers_length (count : nat) :
  forall d, length (fst (createBuffers Math_random count d)) = 3 * count /\
            length (snd (createBuffers Math_random count d)) = 3 * count.
Proof.
  induction count as [|n IH]; intros d; cbn [createBuffers]; [split; reflexivity|].
  destruct (IH (d + 9)%N) as (Hp & Hv).
  destruct (createBuffers Math_random n (d + 9)%N) as [ps vs].
  cbn in *. rewrite Hp, Hv. split; lia.
Qed.

Lemma createParticleSystem_spec (count : nat) (w : World num) :
  let p := fst (createParticleSystem Math_random count w) in
  let w' := snd (createParticleSystem Math_random count w) in
  ps_obj p = {| oid := nextId w; otype := Points |} /\
  length (positions p) = 3 * count /\
  length (velocities p) = 3 * count /\
  nextId w' = S (nextId w) /\
  cubes w' = cubes w /\ particleSystem w' = particleSystem w /\
  explosionParticles w' = explosionParticles w /\ lights w' = lights w /\
  scene_children w' = scene_children w /\ disposed w' = disposed w.
Proof.
  unfold createParticleSystem.
  destruct (createBuffers_length count (draws w)) as (Hp & Hv).
  destruct (createBuffers Math_random count (draws w)) as [ps vs].
  cbn in *. auto 12.
Qed.

Lemma count_type_app (t : ObjectType) (a b : list Object3D) :
  count_type t (a ++ b) = count_type t a + count_type t b.
Proof. unfold count_type. now rewrite filter_app, length_app. Qed.

Lemma count_type_fresh (t u : ObjectType) (from n : nat) :
  count_type t (fresh u from n)
    = match t, u with
      | Mesh, Mesh | Points, Points | AmbientLight, AmbientLight
      | PointLight, PointLight => n
      | _, _ => 0
      end.
Proof.
  unfold count_type, fresh. revert from.
  induction n as [|n IH]; intros from; [destruct t, u; reflexivity|].
  cbn [seq map filter otype]. specialize (IH (S from)).
  destruct t, u; cbn; auto.
Qed.

Lemma ambientLights_single (l : list Object3D) (a : Object3D) :
  is_ambient a = true ->
  (forall o, In o l -> is_ambient o = false) ->
  filter is_ambient (a :: l) = [a] /\
  filter (fun o => negb (is_ambient o)) (a :: l) = l.
Proof.
  intros Ha Hl. cbn. rewrite Ha. cbn. split.
  - f_equal. now apply filter_none.
  - apply filter_all. intros o Ho. now rewrite (Hl o Ho).
Qed.

Lemma fresh_point_lights_not_ambient (from n : nat) (o : Object3D) :
  In o (fresh PointLight from n) -> is_ambient o = false.
Proof. intros Ho. unfold is_ambient. now rewrite (fresh_type _ _ _ _ Ho). Qed.

(* The stage of the ambient light, after clearScene on a scene that holds
   what the collections hold: one ambient light is the only child and the
   only light. *)
Lemma ambientLighting_ok (w : World num) :
  scene_ok w ->
  let w1 := ambientLighting (clearScene w) in
  scene_ok w1 /\
  exists a, is_ambient a = true /\ scene_children w1 = [a] /\
            lights w1 = [a] /\ oid a < nextId w1 /\ cubes w1 = [] /\
            particleSystem w1 = None /\ explosionParticles w1 = [].
Proof.
  intros Hok.
  destruct (clearScene_ok Hok) as (Hch & Hli & Hok0).
  destruct (clearScene_collections w) as (Cc & Cp & Ce & _ & Cn & _).
  destruct Hok as (_ & _ & _ & _ & Hone).
  set (w0 := clearScene w) in *. clearbody w0.
  assert (H1 : exists a, is_ambient a = true /\ scene_children (ambientLighting w0) = [a] /\
                 lights (ambientLighting w0) = [a] /\ oid a < nextId (ambientLighting w0) /\
                 cubes (ambientLighting w0) = [] /\
                 particleSystem (ambientLighting w0) = None /\
                 explosionParticles (ambientLighting w0) = []).
  { unfold ambientLighting. rewrite Hli.
    destruct (ambientLights w) as [|a [|b l]] eqn:Ea; cbn in Hone; try lia.
    - cbn. exists {| oid := nextId w0; otype := AmbientLight |}.
      rewrite Hch, Hli, Cc, Cp, Ce. cbn. repeat split; auto.
    - cbn. exists a. rewrite Hch, Hli, Cc, Cp, Ce. repeat split; auto.
      + apply (ambientLights_ambient w). rewrite Ea. now left.
      + destruct Hok0 as (_ & _ & Hid0 & _). apply Hid0. rewrite Hch. now left. }
  split; [|exact H1].
  destruct H1 as (a & Ha & Hs1 & Hl1 & Hi1 & Hc1 & Hp1 & He1).
  unfold scene_ok, owned, particleObjects, ambientLights, pointLights.
  rewrite Hs1, Hl1, Hc1, Hp1, He1. cbn. rewrite Ha. cbn.
  repeat split; auto.
  - constructor; [tauto | constructor].
  - intros o [<- | []]. exact Hi1.
Qed.

(* The loops of setupScene, on a scene that holds one ambient light and
   nothing else: the collections and the scene graph hold the ambient
   light and exactly the objects asked for. *)
Lemma populate_ok (n m k : nat) (w1 : World num) (a : Object3D) :
  is_ambient a = true -> scene_children w1 = [a] -> lights w1 = [a] ->
  oid a < nextId w1 -> cubes w1 = [] -> particleSystem w1 = None ->
  explosionParticles w1 = [] ->
  let w5 := populate Math_random n m k w1 in
  length (cubes w5) = n /\
  particleFieldSize w5 = m /\
  length (pointLights w5) = k /\
  length (ambientLights w5) = 1 /\
  explosionParticles w5 = [] /\
  count_type Mesh (scene_children w5) = n /\
  count_type Points (scene_children w5) = 1 /\
  count_type PointLight (scene_children w5) = k /\
  count_type AmbientLight (scene_children w5) = 1 /\
  length (scene_children w5) = n + k + 2 /\
  scene_ok w5.
Proof.
  intros Ha Hs1 Hl1 Hi1 Hc1 Hp1 He1. unfold populate.
  (* the cubes *)
  destruct (addCubes_spec n w1) as (Hc2 & Hs2 & Hn2 & Hp2 & He2 & Hl2 & _).
  set (w2 := addCubes n w1) in *.
  (* the particle system *)
  destruct (createParticleSystem_spec m w2)
    as (Ho3 & Hlen3 & _ & Hn3 & Hc3 & _ & He3 & Hl3 & Hs3 & _).
  destruct (createParticleSystem Math_random m w2) as [p w3].
  cbn [fst snd] in *.
  (* the lights *)
  set (w4 := scene_add (ps_obj p) (set_particleSystem (Some p) w3)).
  destruct (addLights_spec k w4) as (Hl5 & Hs5 & Hn5 & Hp5 & He5 & Hc5 & _).
  set (w5 := addLights k w4) in *.
  cbn [scene_add set_particleSystem w4 scene_children lights nextId particleSystem
       explosionParticles cubes] in Hl5, Hs5, Hn5, Hp5, He5, Hc5.
  cbn zeta.
  rewrite Hc3, Hc2, Hc1 in Hc5. rewrite Hl3, Hl2, Hl1 in Hl5.
  rewrite Hs3, Hs2, Hs1, Ho3 in Hs5. rewrite He3, He2, He1 in He5.
  rewrite Hn3, Hn2 in Hn5, Hl5, Hs5. rewrite <- app_assoc in Hs5. cbn [app] in *.
  assert (Hamb : ambientLights w5 = [a] /\
                 pointLights w5 = fresh PointLight (S (nextId w1 + n)) k).
  { unfold ambientLights, pointLights. rewrite Hl5.
    apply ambientLights_single; [exact Ha|]. apply fresh_point_lights_not_ambient. }
  destruct Hamb as (Hamb & Hpt).
  assert (Hta : otype a = AmbientLight).
  { unfold is_ambient in Ha. destruct (otype a); congruence. }
  split; [rewrite Hc5; apply fresh_length|].
  split; [unfold particleFieldSize; rewrite Hp5, Hlen3, Nat.mul_comm;
          apply Nat.div_mul; lia|].
  split; [rewrite Hpt; apply fresh_length|].
  split; [now rewrite Hamb|].
  split; [exact He5|].
  rewrite Hs5.
  change (a :: ?l) with ([a] ++ l).
  change (?l ++ {| oid := ?i; otype := Points |} :: ?r)
    with (l ++ fresh Points i 1 ++ r).
  rewrite !count_type_app, !count_type_fresh, !length_app, !fresh_length.
  unfold count_type. cbn [filter]. rewrite Hta. cbn [length].
  repeat (split; [lia|]).
  (* the invariant *)
  unfold scene_ok, owned, particleObjects.
  rewrite Hamb, Hpt, Hc5, Hp5, He5, Hs5, Hl5, Hn5, Ho3, Hn2. cbn [map app length].
  rewrite app_nil_r.
  split; [reflexivity|]. split; [|split; [|split; [reflexivity | lia]]].
  - change (a :: ?l) with ([a] ++ l).
    change (?l ++ {| oid := ?i; otype := Points |} :: ?r)
      with (l ++ fresh Points i 1 ++ r).
    rewrite !map_app, !fresh_oid. cbn [map app].
    replace (S (nextId w1 + n)) with (nextId w1 + n + 1) by lia.
    rewrite <- !seq_app. constructor; [|apply seq_NoDup].
    rewrite in_seq. lia.
  - intros o [<- | Ho]; [lia|].
    apply in_app_or in Ho. destruct Ho as [Ho | [<- | Ho]].
    + apply (in_map oid) in Ho. rewrite fresh_oid, in_seq in Ho. lia.
    + cbn. lia.
    + apply (in_map oid) in Ho. rewrite fresh_oid, in_seq in Ho. lia.
Qed.

(* setupScene keeps the scene graph in step with the collections, whatever
   the lookup of the tier gives. *)
Lemma setupScene_scene_ok (quality : string) (st : State num) :
  scene_ok (world st) ->
  scene_ok (world (state_of (setupScene Math_random quality st))).
Proof.
  intros Hok. unfold setupScene.
  destruct (ambientLighting_ok Hok) as (Hok1 & a & Ha & Hs & Hl & Hi & Hc & Hp & He).
  destruct (qualitySettings quality); cbn [state_of world with_world];
    try exact Hok1;
    now apply (@populate_ok _ _ _ _ a Ha Hs Hl Hi Hc Hp He).
Qed.

(* setupScene on a scene that holds what the collections hold: whatever
   was there, the collections and the scene graph hold the ambient light
   and exactly the objects of the tier. *)
Lemma setupScene_ok (quality : string) (s : Settings) (st : State num) :
  scene_ok (world st) ->
  qualitySettings quality = Own s ->
  exists st',
    setupScene Math_random quality st = Ok st' /\
    length (cubes (world st')) = s_cubes s /\
    particleFieldSize (world st') = s_particles s /\
    length (pointLights (world st')) = s_lights s /\
    length (ambientLights (world st')) = 1 /\
    explosionParticles (world st') = [] /\
    count_type Mesh (scene_children (world st')) = s_cubes s /\
    count_type Points (scene_children (world st')) = 1 /\
    count_type PointLight (scene_children (world st')) = s_lights s /\
    count_type AmbientLight (scene_children (world st')) = 1 /\
    length (scene_children (world st')) = s_cubes s + s_lights s + 2 /\
    scene_ok (world st').
Proof.
  intros Hok Hq. unfold setupScene. rewrite Hq. cbn [field turns].
  destruct (ambientLighting_ok Hok) as (_ & a & Ha & Hs & Hl & Hi & Hc & Hp & He).
  eexists. split; [reflexivity|]. cbn [world].
  now apply (@populate_ok _ _ _ _ a Ha Hs Hl Hi Hc Hp He).
Qed.

Lemma initial_scene_ok (quality : string) : scene_ok (world (initial (num:=num) quality)).
Proof.
  unfold scene_ok, owned. cbn. repeat split; auto; try constructor. tauto.
Qed.

(* setupScene called twice in a row, on a scene that holds what the
   collections hold: what the second call leaves. *)
Lemma populating_twice
    (q1 q2 : string) (s1 s2 : Settings) (st : State num) :
  scene_ok (world st) ->
  qualitySettings q1 = Own s1 ->
  qualitySettings q2 = Own s2 ->
  exists st1 st2,
    setupScene Math_random q1 st = Ok st1 /\
    setupScene Math_random q2 st1 = Ok st2 /\
    length (cubes (world st2)) = s_cubes s2 /\
    particleFieldSize (world st2) = s_particles s2 /\
    length (pointLights (world st2)) = s_lights s2 /\
    length (ambientLights (world st2)) = 1 /\
    explosionParticles (world st2) = [] /\
    count_type Mesh (scene_children (world st2)) = s_cubes s2 /\
    count_type Points (scene_children (world st2)) = 1 /\
    count_type PointLight (scene_children (world st2)) = s_lights s2 /\
    count_type AmbientLight (scene_children (world st2)) = 1 /\
    length (scene_children (world st2)) = s_cubes s2 + s_lights s2 + 2.
Proof.
  intros Hok H1 H2.
  destruct (@setupScene_ok q1 s1 st Hok H1)
    as (st1 & E1 & _ & _ & _ & _ & _ & _ & _ & _ & _ & _ & Hok1).
  destruct (@setupScene_ok q2 s2 st1 Hok1 H2)
    as (st2 & E2 & Hc & Hp & Hl & Ha & He & Hm & Hpt & Hpl & Hal & Hlen & _).
  exists st1, st2. auto 15.
Qed.

End Population.

(** ** The explosion pool *)

Section Pool.

Context {num : Type} `{JSNumber num}.
Variable Math_random : N -> num.

Lemma nth_error_middle {A} (l1 l2 : list A) (x : A) :
  nth_error (l1 ++ x :: l2) (length l1) = Some x.
Proof. induction l1; cbn; auto. Qed.

Lemma splice1_middle {A} (l1 l2 : list A) (x : A) :
  splice1 (length l1) (l1 ++ x :: l2) = l1 ++ l2.
Proof.
  unfold splice1. induction l1 as [|a l1 IH]; cbn; [reflexivity|].
  cbn in IH. now rewrite IH.
Qed.

Lemma store_middle {A} (l1 l2 : list A) (x y : A) :
  store (length l1) y (l1 ++ x :: l2) = l1 ++ y :: l2.
Proof.
  unfold store. induction l1 as [|a l1 IH]; cbn; [reflexivity|].
  cbn in IH. now rewrite IH.
Qed.

(* The loop of updateExplosions over the indices below [length l1], on a
   pool [l1 ++ l2]: the effects of [l1] that expire leave the pool and the
   scene and are disposed of, from the last to the first; the others stay
   in place with their life reduced. *)
Lemma updateExplosions_below_spec (deltaTime : num) (l1 : list (Explosion num)) :
  forall (w : World num) (l2 : list (Explosion num)),
    explosionParticles w = l1 ++ l2 ->
    let w' := updateExplosions_below (length l1) deltaTime w in
    explosionParticles w'
      = map (aged deltaTime) (filter (fun e => negb (expires deltaTime e)) l1) ++ l2 /\
    disposed w'
      = disposed w ++ map (@ex_obj num) (rev (filter (expires deltaTime) l1)) /\
    scene_children w'
      = remove_children (map (@ex_obj num) (rev (filter (expires deltaTime) l1)))
                        (scene_children w) /\
    cubes w' = cubes w /\ particleSystem w' = particleSystem w /\
    lights w' = lights w /\ nextId w' = nextId w /\ draws w' = draws w.
Proof.
  induction l1 as [|e l IH] using rev_ind; intros w l2 Hw.
  - cbn. rewrite app_nil_r. auto 10.
  - rewrite length_app, Nat.add_1_r. cbn [updateExplosions_below].
    rewrite <- app_assoc in Hw. cbn [app] in Hw.
    rewrite Hw, nth_error_middle.
    rewrite !filter_app. cbn [filter].
    destruct (expires deltaTime e) eqn:E; cbn [negb].
    + cbn [explosionParticles dispose scene_remove].
      rewrite Hw, splice1_middle.
      match goal with |- context [updateExplosions_below _ _ ?w1] =>
        destruct (IH w1 l2 eq_refl) as (Hp & Hd & Hs & Hc & Hps & Hl & Hn & Hdr) end.
      rewrite Hp, Hd, Hs, Hc, Hps, Hl, Hn, Hdr. cbn.
      rewrite !app_nil_r, rev_app_distr. cbn. rewrite <- app_assoc. auto 10.
    + rewrite store_middle.
      match goal with |- context [updateExplosions_below _ _ ?w1] =>
        destruct (IH w1 (aged deltaTime e :: l2) eq_refl)
          as (Hp & Hd & Hs & Hc & Hps & Hl & Hn & Hdr) end.
      rewrite Hp, Hd, Hs, Hc, Hps, Hl, Hn, Hdr. cbn.
      rewrite !app_nil_r, map_app, <- app_assoc. cbn. auto 10.
Qed.

Lemma updateExplosions_spec (deltaTime : num) (w : World num) :
  let w' := updateExplosions deltaTime w in
  explosionParticles w'
    = map (aged deltaTime)
          (filter (fun e => negb (expires deltaTime e)) (explosionParticles w)) /\
  disposed w'
    = disposed w
        ++ map (@ex_obj num) (rev (filter (expires deltaTime) (explosionParticles w))) /\
  scene_children w'
    = remove_children
        (map (@ex_obj num) (rev (filter (expires deltaTime) (explosionParticles w))))
        (scene_children w) /\
  cubes w' = cubes w /\ particleSystem w' = particleSystem w /\
  lights w' = lights w /\ nextId w' = nextId w /\ draws w' = draws w.
Proof.
  unfold updateExplosions.
  destruct (updateExplosions_below_spec deltaTime (explosionParticles w) w []
              (eq_sym (app_nil_r _))) as (Hp & Hrest).
  rewrite app_nil_r in Hp. auto.
Qed.

Lemma updateExplosions_length (deltaTime : num) (w : World num) :
  length (explosionParticles (updateExplosions deltaTime w))
    <= length (explosionParticles w).
Proof.
  destruct (updateExplosions_spec deltaTime w) as (Hp & _). rewrite Hp.
  rewrite length_map. apply filter_length_le.
Qed.

Lemma updateParticles_keeps (deltaTime : num) (w : World num) :
  let w' := updateParticles Math_random deltaTime w in
  explosionParticles w' = explosionParticles w /\ cubes w' = cubes w /\
  lights w' = lights w /\ scene_children w' = scene_children w /\
  disposed w' = disposed w /\ nextId w' = nextId w.
Proof. unfold updateParticles. destruct (particleSystem w); cbn; auto 10. Qed.

(* The stochastic trigger tests the cap before it spawns: the loop over
   the cubes never leaves more than [maxExplosions] effects in a pool that
   held no more on entry. *)
Lemma randomExplosions_respect_cap (l : list Object3D) (w : World num) (s : CameraShake num) :
  length (explosionParticles w) <= maxExplosions ->
  length (explosionParticles (fst (fold_left (randomExplosion Math_random) l (w, s))))
    <= maxExplosions.
Proof.
  revert w s. induction l as [|c l IH]; intros w s Hw; cbn [fold_left]; [exact Hw|].
  unfold randomExplosion at 2.
  destruct (_ && _) eqn:E.
  - apply IH. apply andb_true_iff in E. destruct E as [_ E].
    apply Nat.ltb_lt in E. cbn in *. rewrite length_app. cbn. lia.
  - apply IH. exact Hw.
Qed.

(* The scripted burst is pushed whatever the pool holds. *)
Lemma scriptedSpawn_ignores_cap (st : State num) :
  running (run st) = true ->
  length (explosionParticles (world (scriptedSpawn st)))
    = S (length (explosionParticles (world st))).
Proof.
  intros Hrun. unfold scriptedSpawn. rewrite Hrun. cbn.
  rewrite length_app. cbn. lia.
Qed.

End Pool.

(** ** The scene graph follows the collections *)

Section Invariant.

Context {num : Type} `{JSNumber num}.
Variable Math_random : N -> num.

(* [scene_ok] reads the objects of the collections, the children and the
   next identity, and nothing else. *)
Lemma scene_ok_ext (w w' : World num) :
  cubes w' = cubes w -> particleObjects w' = particleObjects w ->
  map (@ex_obj num) (explosionParticles w') = map (@ex_obj num) (explosionParticles w) ->
  lights w' = lights w -> scene_children w' = scene_children w ->
  nextId w' = nextId w ->
  scene_ok w -> scene_ok w'.
Proof.
  intros Hc Hp He Hl Hs Hn.
  unfold scene_ok, owned, ambientLights, pointLights.
  now rewrite Hc, Hp, He, Hl, Hs, Hn.
Qed.

Lemma skip_draws_ok (n : N) (w : World num) : scene_ok w -> scene_ok (skip_draws n w).
Proof. now apply scene_ok_ext. Qed.

Lemma createExplosionEffect_ok (w : World num) :
  scene_ok w -> scene_ok (createExplosionEffect w).
Proof.
  intros (Hc & Hnd & Hid & Hl & Ha).
  set (o := {| oid := nextId w; otype := Points |}).
  assert (Hs : scene_children (createExplosionEffect w) = scene_children w ++ [o])
    by reflexivity.
  assert (Ho : owned (createExplosionEffect w) = owned w ++ [o]).
  { unfold owned, ambientLights, pointLights, particleObjects. cbn.
    rewrite map_app, <- !app_assoc. reflexivity. }
  unfold scene_ok. rewrite Ho, Hs, Hc.
  split; [reflexivity|]. rewrite <- Hc.
  split; [|split; [|split; [exact Hl | exact Ha]]].
  - rewrite map_app. cbn. apply NoDup_app; [exact Hnd | repeat constructor; tauto |].
    intros i Hi [<- | []]. apply in_map_iff in Hi. destruct Hi as (x & Hx & Hin).
    specialize (Hid x Hin). lia.
  - intros x Hx. apply in_app_or in Hx. destruct Hx as [Hx | [<- | []]].
    + specialize (Hid x Hx). cbn. lia.
    + cbn. lia.
Qed.

Lemma randomExplosions_ok (l : list Object3D) :
  forall (w : World num) (s : CameraShake num),
    scene_ok w ->
    scene_ok (fst (fold_left (randomExplosion Math_random) l (w, s))).
Proof.
  induction l as [|c l IH]; intros w s Hok; cbn [fold_left fst]; [exact Hok|].
  destruct (randomExplosion Math_random (w, s) c) as [w1 s1] eqn:E.
  apply IH. unfold randomExplosion in E. destruct (_ && _); inversion E; subst.
  - now apply createExplosionEffect_ok, skip_draws_ok.
  - now apply skip_draws_ok.
Qed.

Lemma updateParticles_ok (deltaTime : num) (w : World num) :
  scene_ok w -> scene_ok (updateParticles Math_random deltaTime w).
Proof.
  unfold updateParticles. destruct (particleSystem w) eqn:E; [|tauto].
  apply scene_ok_ext; try reflexivity.
  unfold particleObjects. cbn. now rewrite E.
Qed.

Lemma updateExplosions_ok (deltaTime : num) (w : World num) :
  scene_ok w -> scene_ok (updateExplosions deltaTime w).
Proof.
  intros (Hc & Hnd & Hid & Hl & Ha).
  destruct (updateExplosions_spec deltaTime w)
    as (Hp & _ & Hs & Hcu & Hps & Hli & Hn & _).
  set (w' := updateExplosions deltaTime w) in *.
  set (gone := map (@ex_obj num) (rev (filter (expires deltaTime) (explosionParticles w)))) in *.
  set (A := ambientLights w ++ cubes w ++ particleObjects w ++ pointLights w).
  assert (Hc' : scene_children w = A ++ map (@ex_obj num) (explosionParticles w)).
  { rewrite Hc. unfold owned, A. now rewrite <- !app_assoc. }
  assert (Hgone : forall x, In x gone <->
            exists e, In e (explosionParticles w) /\ expires deltaTime e = true /\ x = ex_obj e).
  { intros x. unfold gone. rewrite in_map_iff. split.
    - intros (e & <- & He). apply in_rev, filter_In in He. destruct He. eauto.
    - intros (e & He & Hx & ->). exists e. split; [reflexivity|].
      apply in_rev. rewrite rev_involutive. now apply filter_In. }
  assert (Hch : scene_children w'
                = A ++ map (@ex_obj num)
                         (filter (fun e => negb (expires deltaTime e)) (explosionParticles w))).
  { rewrite Hs, remove_children_filter by exact Hnd.
    rewrite Hc', filter_app. f_equal.
    - apply filter_all. intros x Hx. apply negb_true_iff.
      destruct (existsb _ gone) eqn:E; [|reflexivity]. exfalso.
      apply existsb_exists in E. destruct E as (o & Ho & Heq). apply Nat.eqb_eq in Heq.
      apply Hgone in Ho. destruct Ho as (e & He & _ & ->).
      rewrite Hc', map_app in Hnd.
      apply (NoDup_app_disjoint _ _ (oid x) Hnd); [now apply in_map|].
      rewrite Heq. apply in_map. now apply in_map.
    - rewrite filter_map_commute. f_equal. apply filter_ext_in. intros e He.
      destruct (expires deltaTime e) eqn:E; cbn.
      + apply negb_false_iff, existsb_exists. exists (ex_obj e).
        split; [|apply Nat.eqb_refl]. apply Hgone. eauto.
      + apply negb_true_iff. destruct (existsb _ gone) eqn:E'; [|reflexivity]. exfalso.
        apply existsb_exists in E'. destruct E' as (o & Ho & Heq). apply Nat.eqb_eq in Heq.
        apply Hgone in Ho. destruct Ho as (e2 & He2 & Hx2 & ->).
        assert (e = e2).
        { apply (NoDup_map_injective (fun x : Explosion num => oid (ex_obj x))
                   (explosionParticles w)); auto.
          rewrite Hc', map_app in Hnd. apply NoDup_app_remove_l in Hnd.
          now rewrite map_map in Hnd. }
        congruence. }
  assert (Hobj : map (@ex_obj num) (explosionParticles w')
                 = map (@ex_obj num)
                       (filter (fun e => negb (expires deltaTime e)) (explosionParticles w))).
  { rewrite Hp, map_map. reflexivity. }
  unfold scene_ok, owned, ambientLights, pointLights, particleObjects.
  rewrite Hobj, Hcu, Hps, Hli, Hn, Hch.
  split; [unfold A, ambientLights, pointLights, particleObjects; now rewrite <- !app_assoc|].
  split; [|split; [|split; [exact Hl | exact Ha]]].
  - rewrite <- Hch, Hs. now apply remove_children_NoDup.
  - intros o Ho. apply Hid. rewrite <- Hch, Hs in Ho.
    eapply remove_children_incl; eauto.
Qed.

Lemma animate_ok (now : num) (st : State num) :
  scene_ok (world st) ->
  scene_ok (world (state_of (animate Math_random now st))).
Proof.
  intros Hok. unfold animate. destruct (running (run st)); cbn [negb state_of]; [|exact Hok].
  pose proof (@randomExplosions_ok (cubes (world st)) (world st)
                (cameraShake (run st)) Hok) as Hfold.
  destruct (fold_left _ _ _) as [w shake]. cbn [fst] in Hfold.
  assert (Hw : scene_ok (updateExplosions (deltaTime_of (run st) now)
                 (updateParticles Math_random (deltaTime_of (run st) now) w)))
    by now apply updateExplosions_ok, updateParticles_ok.
  unfold shakeCamera.
  destruct (gt _ _); cbn [totalTime running];
    destruct (_ && _); cbn [state_of requestAnimationFrame with_host world];
    try (apply skip_draws_ok; exact Hw); try exact Hw;
    unfold finishBenchmark; cbn [with_run host qualitySelect_value];
    destruct (qualitySettings _); cbn;
    try (apply (skip_draws_ok 2); exact Hw); exact Hw.
Qed.

Lemma step_ok (ev : Event num) (st : State num) :
  scene_ok (world st) -> scene_ok (world (state_of (step Math_random ev st))).
Proof.
  intros Hok. destruct ev as [now currentTime | now | now i | key | quality];
    cbn [step state_of].
  - unfold startBenchmark.
    match goal with |- context [setupScene _ ?q ?s] =>
      pose proof (@setupScene_scene_ok _ _ Math_random q s Hok) as Hs;
      destruct (setupScene Math_random q s) as [st1 | e st1] end;
      cbn [state_of] in *; [|exact Hs].
    now apply animate_ok.
  - unfold animationFrame. destruct (rafQueue (host st)); [exact Hok|].
    now apply animate_ok.
  - unfold timeout. destruct (nth_error _ _) as [t|]; [|exact Hok].
    destruct (le _ _); [|exact Hok].
    destruct (callback t); cbn [runCallback].
    + unfold scriptedSequence. cbn [run set_timers with_host].
      destruct (running (run st)); [|exact Hok].
      cbn [seq fold_left setTimeout with_host world]. exact Hok.
    + unfold scriptedSpawn. cbn [run set_timers with_host world].
      destruct (running (run st)); [|exact Hok].
      cbn [with_world world]. now apply createExplosionEffect_ok, skip_draws_ok.
  - unfold keydown. destruct (_ && _); [|exact Hok].
    unfold finishBenchmark. cbn [with_run host qualitySelect_value].
    destruct (qualitySettings _); exact Hok.
  - exact Hok.
Qed.

(* In every state the page can reach, the scene graph holds exactly the
   objects of the collections. *)
Lemma reachable_scene_ok (quality : string) (evs : list (Event num)) :
  scene_ok (world (run_events Math_random evs (initial quality))).
Proof.
  unfold run_events.
  assert (Hgen : forall st, scene_ok (world st) ->
            scene_ok (world (fold_left (fun st ev => state_of (step Math_random ev st)) evs st))).
  { induction evs as [|ev evs IH]; intros st Hst; cbn [fold_left]; [exact Hst|].
    apply IH. now apply step_ok. }
  apply Hgen. unfold scene_ok, owned. cbn. repeat split; auto; try constructor. tauto.
Qed.

(** C9.  setupScene called twice in a row, from any state the page can
    reach: after the second call the collections and the scene graph hold
    the objects of the second tier and nothing of the first, next to the
    one ambient light: [s_cubes] meshes, one particle system of
    [s_particles] particles, [s_lights] point lights, no explosion. *)
Theorem C9_populating_twice_leaves_one_tier
    (quality : string) (evs : list (Event num))
    (q1 q2 : string) (s1 s2 : Settings) :
  qualitySettings q1 = Own s1 ->
  qualitySettings q2 = Own s2 ->
  let st := run_events Math_random evs (initial quality) in
  exists st1 st2,
    setupScene Math_random q1 st = Ok st1 /\
    setupScene Math_random q2 st1 = Ok st2 /\
    length (cubes (world st2)) = s_cubes s2 /\
    particleFieldSize (world st2) = s_particles s2 /\
    length (pointLights (world st2)) = s_lights s2 /\
    length (ambientLights (world st2)) = 1 /\
    explosionParticles (world st2) = [] /\
    count_type Mesh (scene_children (world st2)) = s_cubes s2 /\
    count_type Points (scene_children (world st2)) = 1 /\
    count_type PointLight (scene_children (world st2)) = s_lights s2 /\
    count_type AmbientLight (scene_children (world st2)) = 1 /\
    length (scene_children (world st2)) = s_cubes s2 + s_lights s2 + 2.
Proof.
  intros H1 H2 st.
  exact (@populating_twice _ _ Math_random q1 q2 s1 s2 st
           (reachable_scene_ok quality evs) H1 H2).
Qed.

End Invariant.

(** ** The frame loop and its entry points *)

Section Driver.

Context {num : Type} `{JSNumber num}.
Variable Math_random : N -> num.

Lemma shakeCamera_run (w : World num) (r : Run num) :
  let r' := snd (shakeCamera Math_random w r) in
  frameCount r' = frameCount r /\ totalTime r' = totalTime r /\
  running r' = running r /\ startTime r' = startTime r /\
  lastTime r' = lastTime r.
Proof.
  unfold shakeCamera.
  destruct (gt (intensity (cameraShake r)) (lit 0)); simpl; auto.
Qed.

(* A frame of a run that goes on: the statistics it leaves and the
   callback it requests. *)
Lemma animate_continues (currentTime : num) (st : State num) :
  running (run st) = true ->
  lt (div (sub currentTime (startTime (run st))) (lit 1000)) maxTime = true ->
  exists st',
    animate Math_random currentTime st = Ok st' /\
    frameCount (run st') = S (frameCount (run st)) /\
    totalTime (run st') = div (sub currentTime (startTime (run st))) (lit 1000) /\
    running (run st') = true /\
    startTime (run st') = startTime (run st) /\
    lastTime (run st') = Some currentTime /\
    host st' = host (requestAnimationFrame st).
Proof.
  intros Hrun Htime. unfold animate. rewrite Hrun. cbn [negb].
  destruct (fold_left _ _ _) as [w shake].
  match goal with |- context [shakeCamera _ ?w0 ?r0] =>
    pose proof (shakeCamera_run w0 r0) as Hs;
    destruct (shakeCamera Math_random w0 r0) as [w' r'] end.
  cbn in Hs. destruct Hs as (Hf & Ht & Hr & Hst & Hl).
  cbn [totalTime running startTime frameCount].
  rewrite Hst, Hr, Htime. cbn [andb].
  eexists. split; [reflexivity|].
  cbn. rewrite ?Hf, ?Hl, ?Hst, ?Hr. repeat split; reflexivity.
Qed.

(* A frame that reaches the time limit finishes the run. *)
Lemma animate_finishes (currentTime : num) (st : State num) :
  running (run st) = true ->
  lt (div (sub currentTime (startTime (run st))) (lit 1000)) maxTime = false ->
  exists w r,
    animate Math_random currentTime st
      = finishBenchmark {| world := w; run := r; host := host st |} /\
    frameCount r = S (frameCount (run st)) /\
    totalTime r = div (sub currentTime (startTime (run st))) (lit 1000).
Proof.
  intros Hrun Htime. unfold animate. rewrite Hrun. cbn [negb].
  destruct (fold_left _ _ _) as [w shake].
  match goal with |- context [shakeCamera _ ?w0 ?r0] =>
    pose proof (shakeCamera_run w0 r0) as Hs;
    destruct (shakeCamera Math_random w0 r0) as [w' r'] end.
  cbn in Hs. destruct Hs as (Hf & Ht & Hr & Hst & Hl).
  cbn [totalTime running startTime frameCount].
  rewrite Hst, Htime. cbn [andb].
  eexists _, _. split; [reflexivity|].
  cbn. rewrite ?Hf, ?Hst. split; reflexivity.
Qed.

Lemma animate_stopped (currentTime : num) (st : State num) :
  running (run st) = false -> animate Math_random currentTime st = Ok st.
Proof. intros Hrun. unfold animate. now rewrite Hrun. Qed.

(* finishBenchmark on a tier the table knows, or inherits. *)
Lemma finishBenchmark_reports (st : State num) :
  qualitySettings (qualitySelect_value (host st)) <> Undefined ->
  finishBenchmark st =
    Ok (with_host
          (show_result
             (report (frameCount (run st)) (totalTime (run st))
                     (qualitySelect_value (host st)))
             (host st))
          (with_run (set_running false (run st)) st)).
Proof.
  intros Hq. unfold finishBenchmark. cbn.
  destruct (qualitySettings (qualitySelect_value (host st))); congruence.
Qed.

Lemma setupScene_unknown (quality : string) (st : State num) :
  qualitySettings quality = Undefined ->
  exists w,
    setupScene Math_random quality st = Uncaught TypeError (with_world w st) /\
    cubes w = [] /\ particleSystem w = None /\ explosionParticles w = [].
Proof.
  intros Hq. unfold setupScene. rewrite Hq.
  eexists. split; [reflexivity|].
  destruct (clearScene_collections (world st)) as (Hc & Hp & He & _).
  unfold ambientLighting.
  destruct (length (lights (clearScene (world st))) =? 0); cbn;
    rewrite ?Hc, ?Hp, ?He; auto.
Qed.

Lemma setupScene_known (quality : string) (st : State num) :
  qualitySettings quality <> Undefined ->
  exists w,
    setupScene Math_random quality st
      = Ok {| world := w; run := set_camera_y (lit 0) (run st); host := host st |}.
Proof.
  intros Hq. unfold setupScene.
  destruct (qualitySettings quality) eqn:E; try congruence;
    eexists; reflexivity.
Qed.

(* startBenchmark has no test of [running]: from every state it resets the
   statistics, rebuilds the scene, arms the scripted sequence and runs a
   first frame, which requests the next one. *)
Lemma startBenchmark_starts (now currentTime : num) (st : State num) :
  qualitySettings (qualitySelect_value (host st)) <> Undefined ->
  lt (div (sub currentTime now) (lit 1000)) maxTime = true ->
  exists st',
    startBenchmark Math_random now currentTime st = Ok st' /\
    running (run st') = true /\
    frameCount (run st') = 1 /\
    totalTime (run st') = div (sub currentTime now) (lit 1000) /\
    startTime (run st') = now /\
    lastTime (run st') = Some currentTime /\
    rafQueue (host st') = S (rafQueue (host st)) /\
    timers (host st') =
      timers (host st) ++ [ {| due := add now (lit 2000); callback := ScriptedSequence |} ] /\
    qualitySelect_value (host st') = qualitySelect_value (host st) /\
    ui_visible (host st') = false.
Proof.
  intros Hq Htime. unfold startBenchmark. cbn [qualitySelect_value].
  match goal with |- context [setupScene _ _ ?s] =>
    destruct (setupScene_known (qualitySelect_value (host st)) s Hq) as [w Hw] end.
  rewrite Hw.
  match goal with |- context [animate _ _ ?s] =>
    destruct (@animate_continues currentTime s) as (st' & Ha & Hf & Ht & Hr & Hs & Hl & Hh)
  end; [reflexivity | exact Htime |].
  exists st'. split; [exact Ha|].
  rewrite Hf, Ht, Hr, Hs, Hl, Hh. cbn. repeat split.
Qed.

Lemma last_cons {A} (x : A) (l : list A) (d : A) : last (x :: l) d = last l x.
Proof.
  revert x d. induction l as [|y l IH]; intros x d; [reflexivity|].
  change (last (y :: l) d = last (y :: l) x). now rewrite !IH.
Qed.

Lemma animationFrame_continues (now : num) (st : State num) (n : nat) :
  running (run st) = true ->
  rafQueue (host st) = S n ->
  lt (div (sub now (startTime (run st))) (lit 1000)) maxTime = true ->
  exists st',
    animationFrame Math_random now st = Ok st' /\
    frameCount (run st') = S (frameCount (run st)) /\
    totalTime (run st') = div (sub now (startTime (run st))) (lit 1000) /\
    running (run st') = true /\
    startTime (run st') = startTime (run st) /\
    host st' = host st.
Proof.
  intros Hrun Hq Htime. unfold animationFrame. rewrite Hq.
  match goal with |- context [animate _ _ ?s] =>
    destruct (@animate_continues now s) as (st' & Ha & Hf & Ht & Hr & Hs & Hl & Hh)
  end; [exact Hrun | exact Htime |].
  exists st'. split; [exact Ha|].
  rewrite Hf, Ht, Hr, Hs, Hh. cbn. repeat split.
  destruct st as [w r [a b c d e f]]. cbn in *. now subst.
Qed.

(* Frames of a run that goes on: every frame counts, the elapsed time is
   that of the last one. *)
Lemma frames_accumulate (ts : list num) (st : State num) (n : nat) :
  running (run st) = true ->
  rafQueue (host st) = S n ->
  Forall (fun t => lt (div (sub t (startTime (run st))) (lit 1000)) maxTime = true) ts ->
  let st' := run_events Math_random (map (@AnimationFrame num) ts) st in
  running (run st') = true /\
  frameCount (run st') = frameCount (run st) + length ts /\
  totalTime (run st') =
    last (map (fun t => div (sub t (startTime (run st))) (lit 1000)) ts)
         (totalTime (run st)) /\
  startTime (run st') = startTime (run st) /\
  host st' = host st.
Proof.
  revert st. induction ts as [|t ts IH]; intros st Hrun Hq Hts; cbn.
  - repeat split; auto.
  - inversion Hts as [|? ? Ht Hts']; subst.
    destruct (animationFrame_continues t st Hrun Hq Ht)
      as (st1 & Ha & Hf & Htt & Hr & Hs & Hh).
    unfold run_events in IH. rewrite Ha. cbn [state_of].
    destruct (IH st1) as (Hr' & Hf' & Htt' & Hs' & Hh'); auto.
    + now rewrite Hh.
    + now rewrite Hs.
    + rewrite Hr', Hf', Htt', Hs', Hh', Hf, Hs, Htt, Hh.
      repeat split; [lia|].
      destruct ts as [|t' ts']; [reflexivity|].
      cbn [map]. now rewrite !last_cons.
Qed.

(* A frame leaves no more than [maxExplosions] effects in a pool that held
   no more: the random trigger is the only source of effects in animate. *)
Lemma animate_respects_cap (now : num) (st : State num) :
  length (explosionParticles (world st)) <= maxExplosions ->
  length (explosionParticles (world (state_of (animate Math_random now st))))
    <= maxExplosions.
Proof.
  intros Hcap. unfold animate. destruct (running (run st)); cbn [negb state_of]; [|exact Hcap].
  pose proof (randomExplosions_respect_cap Math_random (cubes (world st)) (world st)
                (cameraShake (run st)) Hcap) as Hfold.
  destruct (fold_left _ _ _) as [w shake]. cbn [fst] in Hfold.
  assert (Hw : length (explosionParticles
                 (updateExplosions (deltaTime_of (run st) now)
                    (updateParticles Math_random (deltaTime_of (run st) now) w)))
               <= maxExplosions).
  { etransitivity; [apply updateExplosions_length|].
    destruct (updateParticles_keeps Math_random (deltaTime_of (run st) now) w) as (-> & _).
    exact Hfold. }
  unfold shakeCamera.
  destruct (gt _ _); cbn [totalTime running];
    destruct (_ && _); cbn [state_of requestAnimationFrame with_host world];
    try exact Hw;
    unfold finishBenchmark; cbn [with_run host qualitySelect_value];
    destruct (qualitySettings _); cbn; exact Hw.
Qed.

(** C3 (amended).  When [qualitySettings[quality]] is undefined,
    startBenchmark does not reject the request before acting: it sets
    [running], resets the statistics, hides the panel and clears the
    scene, and then setupScene throws a TypeError, which reaches the
    caller.  No frame is requested and no timer is armed, but the driver
    is left with [running = true]. *)
Theorem C3_unknown_tier_throws_after_running_is_set
    (now currentTime : num) (st : State num) :
  qualitySettings (qualitySelect_value (host st)) = Undefined ->
  exists st',
    startBenchmark Math_random now currentTime st = Uncaught TypeError st' /\
    running (run st') = true /\
    frameCount (run st') = 0 /\
    rafQueue (host st') = rafQueue (host st) /\
    timers (host st') = timers (host st) /\
    ui_visible (host st') = false /\
    cubes (world st') = [] /\
    particleSystem (world st') = None /\
    explosionParticles (world st') = [].
Proof.
  intros Hq. unfold startBenchmark. cbn [qualitySelect_value].
  match goal with |- context [setupScene _ _ ?s] =>
    destruct (setupScene_unknown (qualitySelect_value (host st)) s Hq)
      as (w & Hw & Hc & Hp & He) end.
  rewrite Hw. eexists. split; [reflexivity|]. cbn. auto 10.
Qed.

(** C4 (amended).  startBenchmark does not look at [running].  Called
    while a run is in progress it restarts it: the statistics are reset,
    the scene is rebuilt, a further scripted sequence is armed and a
    further frame callback is requested, so the pending callbacks of the
    interrupted run and of the new one are scheduled side by side; each
    of them, when it runs, requests its successor. *)
Theorem C4_start_while_running_restarts
    (now currentTime next : num) (st : State num) :
  running (run st) = true ->
  qualitySettings (qualitySelect_value (host st)) <> Undefined ->
  lt (div (sub currentTime now) (lit 1000)) maxTime = true ->
  lt (div (sub next now) (lit 1000)) maxTime = true ->
  exists st' st'',
    startBenchmark Math_random now currentTime st = Ok st' /\
    running (run st') = true /\
    frameCount (run st') = 1 /\
    startTime (run st') = now /\
    rafQueue (host st') = S (rafQueue (host st)) /\
    length (timers (host st')) = S (length (timers (host st))) /\
    animationFrame Math_random next st' = Ok st'' /\
    rafQueue (host st'') = S (rafQueue (host st)) /\
    frameCount (run st'') = 2.
Proof.
  intros _ Hq Ht Hn.
  destruct (startBenchmark_starts now currentTime st Hq Ht)
    as (st' & Hs & Hr & Hf & Htt & Hst & Hl & Hraf & Htm & Hqs & Hui).
  destruct (animationFrame_continues next st' Hr Hraf)
    as (st'' & Ha & Hf' & _ & _ & _ & Hh); [now rewrite Hst|].
  exists st', st''. rewrite Hh, Hf', Hf, Hraf, Htm, length_app. cbn.
  repeat split; auto. lia.
Qed.


End Driver.

(** ** The classifier in binary64 *)

Section Classifier.

Local Open Scope float_scope.

(* A quotient by zero is never a finite number. *)
Lemma div_zero (x : float) :
  x / 0 = nan \/ x / 0 = infinity \/ x / 0 = neg_infinity.
Proof.
  pose proof (FloatAxioms.div_spec x 0) as Hd.
  rewrite <- (SF2Prim_Prim2SF (x / 0)), Hd.
  change (Prim2SF 0) with (S754_zero false).
  destruct (Prim2SF x) as [s|s| |s m e]; cbn.
  - left. reflexivity.
  - destruct s; [right; right | right; left]; reflexivity.
  - left. reflexivity.
  - destruct s; [right; right | right; left]; reflexivity.
Qed.

Lemma classify_nan : classify nan = (TOASTER, Fire).
Proof. reflexivity. Qed.

Lemma classify_infinity : classify infinity = (BEAST_MODE, Rocket).
Proof. reflexivity. Qed.

Lemma classify_neg_infinity : classify neg_infinity = (TOASTER, Fire).
Proof. reflexivity. Qed.

(** C8.  The classifier divides the frame count by the elapsed seconds
    and reads the quotient against 55, 40, 25 and 15 in that order, each
    with a strict [>]; 1800 frames in 30 seconds give exactly 60.0 and the
    label of the first bucket. *)
Theorem C8_classifier_divides_and_buckets :
  (forall frames seconds quality,
      rep_avgFPS (report frames seconds quality) = of_nat frames / seconds /\
      rep_performance (report frames seconds quality)
        = fst (classify (of_nat frames / seconds))) /\
  (forall avgFPS : float,
      (fst (classify avgFPS) = BEAST_MODE <-> (55 <? avgFPS) = true) /\
      (fst (classify avgFPS) = HIGH_END
         <-> (55 <? avgFPS) = false /\ (40 <? avgFPS) = true) /\
      (fst (classify avgFPS) = MID_RANGE
         <-> (55 <? avgFPS) = false /\ (40 <? avgFPS) = false /\ (25 <? avgFPS) = true) /\
      (fst (classify avgFPS) = BUDGET
         <-> (55 <? avgFPS) = false /\ (40 <? avgFPS) = false /\
             (25 <? avgFPS) = false /\ (15 <? avgFPS) = true) /\
      (fst (classify avgFPS) = TOASTER
         <-> (55 <? avgFPS) = false /\ (40 <? avgFPS) = false /\
             (25 <? avgFPS) = false /\ (15 <? avgFPS) = false)) /\
  rep_avgFPS (report 1800 30 "insane") = 60 /\
  rep_performance (report 1800 30 "insane") = BEAST_MODE /\
  rep_emoji (report 1800 30 "insane") = Rocket.
Proof.
  split; [|split].
  - intros. split; reflexivity.
  - intros x. unfold classify, gt. cbn [lt binary64].
    change (lit 55) with 55. change (lit 40) with 40.
    change (lit 25) with 25. change (lit 15) with 15.
    destruct (55 <? x), (40 <? x), (25 <? x), (15 <? x); cbn;
      repeat split; intros; try discriminate; try tauto;
      repeat match goal with H : _ /\ _ |- _ => destruct H end;
      try discriminate.
  - vm_compute. repeat split.
Qed.

(** C2 (amended).  finishBenchmark has no guard on the elapsed time.
    With [totalTime = 0] it raises no exception, but it forms the quotient
    [frameCount / 0] and writes it to the report: the value is NaN or an
    infinity, never a finite number or a sentinel.  With no frame counted
    it is NaN, which fails every comparison and is reported as TOASTER;
    with one frame counted it is +Infinity, reported as BEAST MODE. *)
Theorem C2_quotient_by_zero_reaches_the_report (st : State float) :
  qualitySettings (qualitySelect_value (host st)) <> Undefined ->
  totalTime (run st) = 0 ->
  exists st' r,
    finishBenchmark st = Ok st' /\
    resultBox_visible (host st') = true /\
    resultBox_innerHTML (host st') = Some r /\
    rep_avgFPS r = of_nat (frameCount (run st)) / 0 /\
    (rep_avgFPS r = nan \/ rep_avgFPS r = infinity \/ rep_avgFPS r = neg_infinity) /\
    (frameCount (run st) = 0%nat ->
       rep_avgFPS r = nan /\ rep_performance r = TOASTER) /\
    (frameCount (run st) = 1%nat ->
       rep_avgFPS r = infinity /\ rep_performance r = BEAST_MODE).
Proof.
  intros Hq Ht. rewrite (finishBenchmark_reports st Hq).
  eexists _, _. split; [reflexivity|]. cbn.
  split; [reflexivity|]. split; [reflexivity|].
  unfold average. rewrite Ht. cbn [div binary64].
  split; [reflexivity|]. split; [apply div_zero|].
  split; intros ->; split; reflexivity.
Qed.

(* The claim fails at its own example: no frame, no elapsed time. *)
Lemma C2_no_frames_no_time_reports_NaN :
  exists st' r,
    le (totalTime (run (initial (num:=float) "insane"))) 0 = true /\
    frameCount (run (initial (num:=float) "insane")) = 0%nat /\
    finishBenchmark (initial "insane") = Ok st' /\
    resultBox_innerHTML (host st') = Some r /\
    PrimFloat.is_nan (rep_avgFPS r) = true.
Proof.
  eexists _, _. split; [reflexivity|]. split; [reflexivity|].
  split; [reflexivity|]. split; reflexivity.
Qed.

End Classifier.

(** ** Integration over exact arithmetic *)

Section Exact.

Local Open Scope Q_scope.

Lemma expires_iff (deltaTime : Q) (e : Explosion Q) :
  expires deltaTime e = true <-> life (aged deltaTime e) <= 0.
Proof. unfold expires. cbn. apply Qle_bool_iff. Qed.

Lemma stays_iff (deltaTime : Q) (e : Explosion Q) :
  negb (expires deltaTime e) = true <-> 0 < life (aged deltaTime e).
Proof.
  rewrite negb_true_iff, <- not_true_iff_false, expires_iff.
  split; [apply Qnot_le_lt | apply Qlt_not_le].
Qed.


(** *** The ambient field *)

Variable Math_random : N -> Q.

Lemma list_ind3 {A} (P : list A -> Prop) :
  P [] -> (forall a, P [a]) -> (forall a b, P [a; b]) ->
  (forall a b c l, P l -> P (a :: b :: c :: l)) ->
  forall l, P l.
Proof.
  intros H0 H1 H2 H3. fix IH 1.
  intros [|a [|b [|c l]]];
    [exact H0 | apply H1 | apply H2 | apply H3; apply IH].
Qed.

Lemma ltb_iff (x y : Q) : ExactQ.ltb x y = true <-> x < y.
Proof.
  unfold ExactQ.ltb. rewrite negb_true_iff, <- not_true_iff_false, Qle_bool_iff.
  split; [apply Qnot_le_lt | apply Qlt_not_le].
Qed.

Lemma outside_iff (x y z : Q) :
  outside x y z = true <-> 150 < Qabs x \/ 150 < Qabs y \/ 150 < Qabs z.
Proof.
  unfold outside, gt. cbn. rewrite !orb_true_iff, !ltb_iff.
  unfold wrapRadius. tauto.
Qed.

Lemma centred_50_bound (r : Q) : 0 <= r < 1 -> Qabs (centred 50 r) <= 25.
Proof.
  intros Hr. change (Qabs ((r - (5 # 10)) * 50) <= 25).
  apply Qabs_Qle_condition. lra.
Qed.

Lemma updateParticles_loop_step (deltaTime p0 p1 p2 v0 v1 v2 : Q) (ps vs : list Q) (d : N) :
  fst (updateParticles_loop Math_random deltaTime
         (p0 :: p1 :: p2 :: ps) (v0 :: v1 :: v2 :: vs) d)
  = if outside (p0 + v0 * deltaTime) (p1 + v1 * deltaTime) (p2 + v2 * deltaTime)
    then centred 50 (Math_random d) :: centred 50 (Math_random (d + 1)%N)
           :: centred 50 (Math_random (d + 2)%N)
           :: fst (updateParticles_loop Math_random deltaTime ps vs (d + 3)%N)
    else (p0 + v0 * deltaTime) :: (p1 + v1 * deltaTime) :: (p2 + v2 * deltaTime)
           :: fst (updateParticles_loop Math_random deltaTime ps vs d).
Proof.
  cbn [updateParticles_loop]. cbn [fround exactQ add mul].
  destruct (outside _ _ _);
    destruct (updateParticles_loop Math_random deltaTime ps vs _); reflexivity.
Qed.

Lemma updateParticles_loop_length (deltaTime : Q) (ps : list Q) :
  forall vs d,
    length (fst (updateParticles_loop Math_random deltaTime ps vs d)) = length ps.
Proof.
  induction ps as [| | |p0 p1 p2 ps IH] using list_ind3; intros vs d;
    try reflexivity.
  destruct vs as [|v0 [|v1 [|v2 vs]]]; try reflexivity.
  rewrite updateParticles_loop_step. destruct (outside _ _ _); cbn; now rewrite IH.
Qed.



End Exact.

(** ** The camera shake *)

Section Shake.

Context {num : Type} `{JSNumber num}.
Variable Math_random : N -> num.

(* What a frame does to the shake, given the intensity the loop over the
   cubes leaves. *)
Lemma animate_shake (now : num) (st : State num) :
  running (run st) = true ->
  let i := intensity (snd (fold_left (randomExplosion Math_random) (cubes (world st))
                                     (world st, cameraShake (run st)))) in
  let st' := state_of (animate Math_random now st) in
  (gt i (lit 0) = true ->
     intensity (cameraShake (run st')) = mul i (lit (95 # 100)) /\
     shakes (run st') = S (shakes (run st))) /\
  (gt i (lit 0) = false ->
     intensity (cameraShake (run st')) = i /\
     shakes (run st') = shakes (run st)).
Proof.
  intros Hrun. unfold animate. rewrite Hrun. cbn [negb].
  destruct (fold_left _ _ _) as [w shake]. cbn [snd].
  unfold shakeCamera. cbn [cameraShake].
  destruct (gt (intensity shake) (lit 0)) eqn:E; cbn [totalTime running].
  all: destruct (_ && _); cbn [state_of requestAnimationFrame with_host run];
    [| unfold finishBenchmark; cbn [with_run host qualitySelect_value];
       destruct (qualitySettings _); cbn ];
    split; intros; try discriminate; split; reflexivity.
Qed.

(* The loop over the cubes leaves the intensity it found, or the maximum
   of an intensity and 0.5. *)
Lemma randomExplosions_intensity (a : num) (l : list Object3D) :
  Math_max a (lit (5 # 10)) = lit (5 # 10) ->
  Math_max (lit (5 # 10)) (lit (5 # 10)) = lit (5 # 10) ->
  forall (w : World num) (s : CameraShake num),
    intensity s = a \/ intensity s = lit (5 # 10) ->
    let i := intensity (snd (fold_left (randomExplosion Math_random) l (w, s))) in
    i = a \/ i = lit (5 # 10).
Proof.
  intros Ha Hb. induction l as [|c l IH]; intros w s Hs; cbn [fold_left snd];
    [exact Hs|].
  destruct (randomExplosion Math_random (w, s) c) as [w1 s1] eqn:E.
  apply IH. unfold randomExplosion in E. destruct (_ && _).
  - inversion E; subst. right. cbn. destruct Hs as [-> | ->]; assumption.
  - inversion E; subst. exact Hs.
Qed.

(* Without a draw below the chance the loop changes no intensity. *)
Lemma randomExplosions_none (l : list Object3D) :
  (forall n, lt (Math_random n) (lit explosionChance) = false) ->
  forall (w : World num) (s : CameraShake num),
    snd (fold_left (randomExplosion Math_random) l (w, s)) = s.
Proof.
  intros Hno. induction l as [|c l IH]; intros w s; cbn [fold_left snd];
    [reflexivity|].
  destruct (randomExplosion Math_random (w, s) c) as [w1 s1] eqn:E.
  unfold randomExplosion in E. rewrite Hno in E. cbn [andb] in E.
  inversion E; subst. apply IH.
Qed.

(* Without a draw below the chance from the current position of the random
   stream on, the loop over the cubes spawns nothing. *)
Lemma randomExplosions_quiet (l : list Object3D) :
  forall (w : World num) (s : CameraShake num),
    (forall n, (draws w <= n)%N -> lt (Math_random n) (lit explosionChance) = false) ->
    fold_left (randomExplosion Math_random) l (w, s)
      = (skip_draws (N.of_nat (length l)) w, s).
Proof.
  induction l as [|c l IH]; intros w s Hq; cbn [fold_left length].
  - unfold skip_draws. cbn. rewrite N.add_0_r. now destruct w.
  - unfold randomExplosion at 2. rewrite (Hq (draws w)) by lia. cbn [andb].
    rewrite IH.
    + f_equal. unfold skip_draws. cbn. f_equal. lia.
    + intros n Hn. apply Hq. cbn in Hn. lia.
Qed.

Lemma updateParticles_draws (deltaTime : num) (w : World num) :
  (draws w <= draws (updateParticles Math_random deltaTime w))%N.
Proof. unfold updateParticles. destruct (particleSystem w); cbn; lia. Qed.

(* A frame without a draw below the chance, in a run that goes on: the
   shake decays by one step if it is on, and the random stream only moves
   forward. *)
Lemma animationFrame_quiet (now : num) (st : State num) (q : nat) :
  running (run st) = true ->
  rafQueue (host st) = S q ->
  lt (div (sub now (startTime (run st))) (lit 1000)) maxTime = true ->
  gt (intensity (cameraShake (run st))) (lit 0) = true ->
  (forall n, (draws (world st) <= n)%N -> lt (Math_random n) (lit explosionChance) = false) ->
  exists st',
    animationFrame Math_random now st = Ok st' /\
    running (run st') = true /\
    startTime (run st') = startTime (run st) /\
    rafQueue (host st') = S q /\
    totalTime (run st') = div (sub now (startTime (run st))) (lit 1000) /\
    intensity (cameraShake (run st'))
      = mul (intensity (cameraShake (run st))) (lit (95 # 100)) /\
    shakes (run st') = S (shakes (run st)) /\
    (draws (world st) <= draws (world st'))%N.
Proof.
  intros Hrun Hq Htime Hpos Hquiet.
  unfold animationFrame. rewrite Hq. unfold animate.
  cbn [with_host run world host]. rewrite Hrun. cbn [negb].
  rewrite (randomExplosions_quiet (cubes (world st)) (world st) (cameraShake (run st)) Hquiet).
  unfold shakeCamera. cbn [cameraShake]. rewrite Hpos.
  cbn [totalTime running startTime]. rewrite Htime. cbn [andb].
  eexists. split; [reflexivity|]. cbn.
  repeat split; auto.
  destruct (updateExplosions_spec (deltaTime_of (run st) now)
              (updateParticles Math_random (deltaTime_of (run st) now)
                 (skip_draws (N.of_nat (length (cubes (world st)))) (world st))))
    as (_ & _ & _ & _ & _ & _ & _ & ->).
  pose proof (updateParticles_draws (deltaTime_of (run st) now)
                (skip_draws (N.of_nat (length (cubes (world st)))) (world st))) as Hd.
  cbn in Hd. lia.
Qed.

End Shake.

Section ShakeBinary64.

Local Open Scope float_scope.

Lemma decays_shake_after (k j : nat) :
  decays k (shake_after j) = shake_after (k + j).
Proof.
  revert j. induction k as [|k IH]; intros j; cbn [decays]; [reflexivity|].
  change (shake_after j * 0.95) with (shake_after (S j)).
  rewrite IH. f_equal. lia.
Qed.

Lemma orbit_ok_spec (n : nat) :
  forall x, orbit_ok n x = true ->
  forall k, (k < n)%nat ->
    (0 <? decays k x) = true /\
    (decays k x * 0.95 <? decays k x) = true /\
    Binary64.max (decays k x) 0.5 = 0.5.
Proof.
  induction n as [|n IH]; intros x Hx k Hk; [lia|].
  cbn [orbit_ok] in Hx. apply andb_true_iff in Hx. destruct Hx as [Hx Hrest].
  apply andb_true_iff in Hx. destruct Hx as [Hx Hmax].
  apply andb_true_iff in Hx. destruct Hx as [Hpos Hdec].
  destruct k as [|k]; cbn [decays].
  - repeat split; auto. now apply FloatAxioms.Leibniz.eqb_spec.
  - apply IH; [exact Hrest | lia].
Qed.

Lemma orbit_ok_plateau : orbit_ok shake_plateau 0.5 = true.
Proof. vm_compute. reflexivity. Qed.

Lemma shake_after_plateau : shake_after shake_plateau = shake_floor.
Proof. vm_compute. reflexivity. Qed.

Lemma shake_floor_fixed :
  shake_floor * 0.95 = shake_floor /\ (0 <? shake_floor) = true /\
  (shake_floor * 0.95 <? shake_floor) = false /\
  Binary64.max shake_floor 0.5 = 0.5.
Proof. vm_compute. repeat split. Qed.

Lemma shake_after_floor (k : nat) :
  (shake_plateau <= k)%nat -> shake_after k = shake_floor.
Proof.
  intros Hk. rewrite <- (Nat.sub_add _ _ Hk).
  generalize (k - shake_plateau)%nat. intros j. induction j as [|j IH].
  - apply shake_after_plateau.
  - cbn [Nat.add shake_after]. rewrite IH. apply shake_floor_fixed.
Qed.

Lemma shake_after_early (k : nat) :
  (k < shake_plateau)%nat ->
  (0 <? shake_after k) = true /\
  (shake_after (S k) <? shake_after k) = true /\
  Binary64.max (shake_after k) 0.5 = 0.5.
Proof.
  intros Hk.
  pose proof (@orbit_ok_spec shake_plateau 0.5 orbit_ok_plateau k Hk) as Ho.
  assert (Hd : decays k 0.5 = shake_after k).
  { change (decays k (shake_after 0) = shake_after k).
    rewrite decays_shake_after. f_equal. lia. }
  rewrite !Hd in Ho. exact Ho.
Qed.

Lemma shake_after_positive (k : nat) : (0 <? shake_after k) = true.
Proof.
  destruct (Nat.lt_ge_cases k shake_plateau) as [Hk | Hk].
  - now apply shake_after_early.
  - rewrite (shake_after_floor Hk). apply shake_floor_fixed.
Qed.

Lemma shake_after_max (k : nat) : Binary64.max (shake_after k) 0.5 = 0.5.
Proof.
  destruct (Nat.lt_ge_cases k shake_plateau) as [Hk | Hk].
  - now apply shake_after_early.
  - rewrite (shake_after_floor Hk). apply shake_floor_fixed.
Qed.

End ShakeBinary64.

Section ShakeOfTheProgram.

Local Open Scope float_scope.

(** C10 (amended).  Once the shake has been triggered its intensity is a
    value of the sequence 0.5, 0.5 * 0.95, ... computed in binary64, and
    on every later frame of the run the shake branch is taken and moves
    the intensity to the next value of the sequence (or to the second
    one, after a new trigger).  Every value of the sequence is strictly
    positive.  The sequence is strictly decreasing for its first 14453
    steps; from there on it is constant, at 9 * 2^-1074, the product
    rounding back to the value itself. *)
Theorem C10_shake_stays_positive_and_settles
    (Math_random : N -> float) (now : float) (st : State float) (k : nat) :
  running (run st) = true ->
  intensity (cameraShake (run st)) = shake_after k ->
  let st' := state_of (animate Math_random now st) in
  shakes (run st') = S (shakes (run st)) /\
  (intensity (cameraShake (run st')) = shake_after (S k) \/
   intensity (cameraShake (run st')) = shake_after 1) /\
  ((forall n, lt (Math_random n) (lit explosionChance) = false) ->
   intensity (cameraShake (run st')) = shake_after (S k)) /\
  (0 <? shake_after (S k)) = true /\
  ((k < shake_plateau)%nat -> (shake_after (S k) <? shake_after k) = true) /\
  ((shake_plateau <= k)%nat ->
   shake_after (S k) = shake_after k /\ shake_after k = shake_floor).
Proof.
  intros Hrun Hi st'.
  destruct (animate_shake Math_random now st Hrun) as (Hyes & _).
  fold st' in Hyes.
  pose proof (@randomExplosions_intensity float _ Math_random (shake_after k)
                (cubes (world st)) (shake_after_max k) eq_refl
                (world st) (cameraShake (run st)) (or_introl Hi)) as Hcase.
  cbn zeta in Hcase, Hyes.
  assert (Hstep : forall i, (0 <? i) = true ->
            intensity (snd (fold_left (randomExplosion Math_random) (cubes (world st))
                                      (world st, cameraShake (run st)))) = i ->
            shakes (run st') = S (shakes (run st)) /\
            intensity (cameraShake (run st')) = i * 0.95).
  { intros i Hpos Heq. rewrite Heq in Hyes.
    destruct (Hyes Hpos) as (Hint & Hsh). split; [exact Hsh | exact Hint]. }
  split; [|split; [|split; [|split; [|split]]]].
  - destruct Hcase as [Hc | Hc].
    + now apply (Hstep _ (shake_after_positive k) Hc).
    + now apply (Hstep 0.5 eq_refl Hc).
  - destruct Hcase as [Hc | Hc].
    + left. now apply (Hstep _ (shake_after_positive k) Hc).
    + right. now apply (Hstep 0.5 eq_refl Hc).
  - intros Hno.
    rewrite (randomExplosions_none Math_random (cubes (world st)) Hno) in Hstep.
    now apply (Hstep _ (shake_after_positive k) Hi).
  - apply shake_after_positive.
  - intros Hk. now apply shake_after_early.
  - intros Hk. split; [|now apply shake_after_floor].
    cbn [shake_after]. rewrite (shake_after_floor Hk). apply shake_floor_fixed.
Qed.

(* Frames without a draw below the chance, in a run that goes on, from a
   value of the sequence: every frame takes the shake branch and moves to
   the next value. *)
Lemma frames_decay (Math_random : N -> float) (ts : list float) :
  forall (st : State float) (k q : nat),
    running (run st) = true ->
    rafQueue (host st) = S q ->
    intensity (cameraShake (run st)) = shake_after k ->
    (forall n, (draws (world st) <= n)%N ->
               lt (Math_random n) (lit explosionChance) = false) ->
    Forall (fun t => lt (div (sub t (startTime (run st))) (lit 1000)) maxTime = true) ts ->
    let st' := run_events Math_random (map (@AnimationFrame float) ts) st in
    running (run st') = true /\
    rafQueue (host st') = S q /\
    startTime (run st') = startTime (run st) /\
    intensity (cameraShake (run st')) = shake_after (k + length ts) /\
    shakes (run st') = (shakes (run st) + length ts)%nat /\
    (draws (world st) <= draws (world st'))%N.
Proof.
  induction ts as [|t ts IH]; intros st k q Hrun Hq Hi Hquiet Hts; cbn [map length].
  - cbn. rewrite !Nat.add_0_r. repeat split; auto. lia.
  - inversion Hts as [|? ? Ht Hts']; subst.
    destruct (@animationFrame_quiet float _ Math_random t st q Hrun Hq Ht)
      as (st1 & Ha & Hr1 & Hs1 & Hq1 & _ & Hi1 & Hsh1 & Hd1); auto.
    { rewrite Hi. apply shake_after_positive. }
    unfold run_events in *. cbn [fold_left step]. rewrite Ha. cbn [state_of].
    destruct (IH st1 (S k) q) as (Hr' & Hq' & Hs' & Hi' & Hsh' & Hd'); auto.
    + rewrite Hi1, Hi. reflexivity.
    + intros n Hn. apply Hquiet. lia.
    + now rewrite Hs1.
    + rewrite Hr', Hq', Hs', Hi', Hsh', Hs1, Hsh1.
      repeat split; auto; try lia.
Qed.

(* The claim fails at the plateau: a frame takes the shake branch and
   leaves the intensity where it was. *)
Lemma C10_intensity_stops_decreasing :
  let st := shaking (shake_after shake_plateau) in
  let st' := state_of (animate always_half 16.67 st) in
  running (run st) = true /\
  (0 <? intensity (cameraShake (run st))) = true /\
  shakes (run st') = S (shakes (run st)) /\
  intensity (cameraShake (run st')) = intensity (cameraShake (run st)) /\
  (intensity (cameraShake (run st')) <? intensity (cameraShake (run st))) = false.
Proof. vm_compute. repeat split. Qed.

Lemma C10_witness :
  running (run (shaking (shake_after 3))) = true /\
  intensity (cameraShake (run (shaking (shake_after 3)))) = shake_after 3 /\
  let st' := state_of (animate always_half 16.67 (shaking (shake_after 3))) in
  shakes (run st') = S (shakes (run (shaking (shake_after 3)))) /\
  (intensity (cameraShake (run st')) = shake_after 4 \/
   intensity (cameraShake (run st')) = shake_after 1) /\
  ((forall n, lt (always_half n) (lit explosionChance) = false) ->
   intensity (cameraShake (run st')) = shake_after 4) /\
  (0 <? shake_after 4) = true /\
  ((3 < shake_plateau)%nat -> (shake_after 4 <? shake_after 3) = true) /\
  ((shake_plateau <= 3)%nat ->
   shake_after 4 = shake_after 3 /\ shake_after 3 = shake_floor).
Proof.
  split; [reflexivity|]. split; [reflexivity|].
  apply (@C10_shake_stays_positive_and_settles always_half 16.67
           (shaking (shake_after 3)) 3); reflexivity.
Defined.

End ShakeOfTheProgram.

(** ** Runs of the page *)

Section Runs.

Local Open Scope float_scope.

(* The literals of the program, as the parser reads them. *)
Example literals_binary64 :
  lit (2 # 100) = 0.02 /\ lit (1667 # 100) = 16.67 /\ lit (95 # 100) = 0.95 /\
  lit (1 # 10000) = 0.0001 /\ lit (5 # 10) = 0.5 /\ lit 150 = 150 /\
  of_nat 1800 = 1800.
Proof. vm_compute. repeat split. Qed.

Example fround_binary64 :
  fround 0.1 = 0.10000000149011612 /\ fround 16777217 = 16777216 /\
  fround 1e39 = infinity /\ fround 25 = 25.
Proof. vm_compute. repeat split. Qed.

(* The restart position in binary64, at the ends of the range of
   Math.random(): 0 and the largest double below 1. *)
Example centred_extremes_binary64 :
  centred 50 0 = -25 /\ centred 50 0x1.fffffffffffffp-1 = 25 /\
  centred 50 0.5 = 0.
Proof. vm_compute. repeat split. Qed.

(* One frame at the nominal rate takes 0.02 from a fresh effect, in
   binary64 as over the rationals. *)
Example aged_binary64 :
  life (aged 1 {| ex_obj := {| oid := 0; otype := Points |};
                  life := 1; maxLife := 60; opacity := 1 |}) = 0.98 /\
  expires 2 {| ex_obj := {| oid := 0; otype := Points |};
               life := 0.04; maxLife := 60; opacity := 0.04 |} = true.
Proof. vm_compute. repeat split. Qed.

(* A tier name inherited from Object.prototype is not undefined: the run
   starts, on a scene without objects of a tier. *)
Example inherited_tier_starts :
  qualitySettings "constructor" = Inherited /\
  let st := state_of (step always_half (Click 5000 5000) (initial "constructor")) in
  running (run st) = true /\ rafQueue (host st) = 1%nat /\
  cubes (world st) = [] /\ particleFieldSize (world st) = 0%nat.
Proof. vm_compute. repeat split. Qed.

(** C1 (the code departs from the claim).  The random trigger of animate
    tests the cap, the scripted burst of startBenchmark does not: with
    five effects in the pool, the callback armed by the scripted sequence
    pushes a sixth. *)
Theorem C1_scripted_burst_exceeds_the_cap :
  running (run pool_full) = true /\
  length (explosionParticles (world pool_full)) = maxExplosions /\
  map (@callback float) (timers (host pool_full)) = [ScriptedSequence] /\
  let st := run_events always_zero [Timeout 7000 0; Timeout 7000 0] pool_full in
  length (explosionParticles (world st)) = 6%nat /\
  (maxExplosions < length (explosionParticles (world st)))%nat.
Proof. lazy. repeat split; lia. Qed.

(* The claim of C3 fails on a tier the table does not know: the click
   leaves the driver running. *)
Lemma C3_unknown_tier_leaves_running_set :
  qualitySettings "ultra" = Undefined /\
  exists st',
    step always_half (Click 5000 5000) (initial "ultra") = Uncaught TypeError st' /\
    running (run st') = true.
Proof. split; [reflexivity|]. eexists. split; reflexivity. Qed.

Lemma C3_witness :
  qualitySettings (qualitySelect_value (host (initial (num:=float) "ultra"))) = Undefined /\
  exists st',
    startBenchmark always_half 5000 5000 (initial "ultra") = Uncaught TypeError st' /\
    running (run st') = true /\
    frameCount (run st') = 0%nat /\
    rafQueue (host st') = rafQueue (host (initial (num:=float) "ultra")) /\
    timers (host st') = timers (host (initial "ultra")) /\
    ui_visible (host st') = false /\
    cubes (world st') = [] /\
    particleSystem (world st') = None /\
    explosionParticles (world st') = [].
Proof.
  split; [reflexivity|].
  apply (@C3_unknown_tier_throws_after_running_is_set float _ always_half
           5000 5000 (initial "ultra")).
  reflexivity.
Defined.

(* The claim of C4 fails: a second click while the run is in progress
   restarts the statistics and leaves two frame callbacks pending. *)
Lemma C4_second_click_restarts :
  running (run started) = true /\
  rafQueue (host started) = 1%nat /\
  exists st',
    step always_half (Click 5500 5500) started = Ok st' /\
    running (run st') = true /\
    frameCount (run st') = 1%nat /\
    startTime (run st') = 5500 /\
    rafQueue (host st') = 2%nat.
Proof.
  assert (Hq : rafQueue (host started) = 1%nat) by (vm_compute; reflexivity).
  split; [vm_compute; reflexivity|]. split; [exact Hq|].
  destruct (@startBenchmark_starts float _ always_half 5500 5500 started)
    as (st' & Hs & Hr & Hf & _ & Hst & _ & Hraf & _).
  - replace (qualitySelect_value (host started)) with "insane"%string
      by (vm_compute; reflexivity).
    discriminate.
  - vm_compute. reflexivity.
  - exists st'. cbn [step]. rewrite Hs, Hr, Hf, Hst, Hraf, Hq.
    repeat split.
Qed.

Lemma C4_witness :
  running (run started) = true /\
  qualitySettings (qualitySelect_value (host started)) <> Undefined /\
  lt (div (sub 5500 5500) (lit 1000)) maxTime = true /\
  lt (div (sub 5517 5500) (lit 1000)) maxTime = true /\
  exists st' st'',
    startBenchmark always_half 5500 5500 started = Ok st' /\
    running (run st') = true /\
    frameCount (run st') = 1%nat /\
    startTime (run st') = 5500 /\
    rafQueue (host st') = S (rafQueue (host started)) /\
    length (timers (host st')) = S (length (timers (host started))) /\
    animationFrame always_half 5517 st' = Ok st'' /\
    rafQueue (host st'') = S (rafQueue (host started)) /\
    frameCount (run st'') = 2%nat.
Proof.
  assert (H1 : running (run started) = true) by (vm_compute; reflexivity).
  assert (H2 : qualitySettings (qualitySelect_value (host started)) <> Undefined).
  { replace (qualitySelect_value (host started)) with "insane"%string
      by (vm_compute; reflexivity).
    discriminate. }
  assert (H3 : lt (div (sub 5500 5500) (lit 1000)) maxTime = true)
    by (vm_compute; reflexivity).
  assert (H4 : lt (div (sub 5517 5500) (lit 1000)) maxTime = true)
    by (vm_compute; reflexivity).
  repeat (split; [assumption|]).
  exact (@C4_start_while_running_restarts float _ always_half 5500 5500 5517
           started H1 H2 H3 H4).
Defined.

Lemma C2_witness :
  qualitySettings (qualitySelect_value (host (initial (num:=float) "insane")))
    <> Undefined /\
  totalTime (run (initial (num:=float) "insane")) = 0 /\
  exists st' r,
    finishBenchmark (initial "insane") = Ok st' /\
    resultBox_visible (host st') = true /\
    resultBox_innerHTML (host st') = Some r /\
    rep_avgFPS r = of_nat (frameCount (run (initial (num:=float) "insane"))) / 0 /\
    (rep_avgFPS r = nan \/ rep_avgFPS r = infinity \/ rep_avgFPS r = neg_infinity) /\
    (frameCount (run (initial (num:=float) "insane")) = 0%nat ->
       rep_avgFPS r = nan /\ rep_performance r = TOASTER) /\
    (frameCount (run (initial (num:=float) "insane")) = 1%nat ->
       rep_avgFPS r = infinity /\ rep_performance r = BEAST_MODE).
Proof.
  assert (H1 : qualitySettings (qualitySelect_value (host (initial (num:=float) "insane")))
               <> Undefined) by (cbn; discriminate).
  split; [exact H1|]. split; [reflexivity|].
  exact (@C2_quotient_by_zero_reaches_the_report (initial "insane") H1 eq_refl).
Defined.

(* Ten frames, then Escape: what the report shows. *)
Example ten_frames_then_escape :
  frameCount (run ten_frames_in) = 10%nat /\
  totalTime (run ten_frames_in) = 0.15 /\
  let st := run_events always_half [Keydown "Escape"] ten_frames_in in
  running (run st) = false /\
  option_map (@rep_avgFPS float) (resultBox_innerHTML (host st)) = Some (10 / 0.15) /\
  option_map (@rep_duration float) (resultBox_innerHTML (host st)) = Some 0.15 /\
  option_map (@rep_performance float) (resultBox_innerHTML (host st)) = Some BEAST_MODE.
Proof. vm_compute. repeat split. Qed.


Lemma C9_witness :
  qualitySettings "insane" = Own insane /\
  let st := run_events always_zero [Click 5000 5000; AnimationFrame 5017] (initial "insane") in
  exists st1 st2,
    setupScene always_zero "insane" st = Ok st1 /\
    setupScene always_zero "insane" st1 = Ok st2 /\
    length (cubes (world st2)) = s_cubes insane /\
    particleFieldSize (world st2) = s_particles insane /\
    length (pointLights (world st2)) = s_lights insane /\
    length (ambientLights (world st2)) = 1%nat /\
    explosionParticles (world st2) = [] /\
    count_type Mesh (scene_children (world st2)) = s_cubes insane /\
    count_type Points (scene_children (world st2)) = 1%nat /\
    count_type PointLight (scene_children (world st2)) = s_lights insane /\
    count_type AmbientLight (scene_children (world st2)) = 1%nat /\
    length (scene_children (world st2)) = (s_cubes insane + s_lights insane + 2)%nat.
Proof.
  split; [reflexivity|].
  exact (@C9_populating_twice_leaves_one_tier float _ always_zero "insane"
           [Click 5000 5000; AnimationFrame 5017]
           "insane" "insane" insane insane eq_refl eq_refl).
Defined.

End Runs.

Section ExactRuns.

Local Open Scope Q_scope.


(* The first particle of the small field is restarted, the second moves
   on. *)
Example small_field_after_one_unit :
  option_map (@positions Q) (particleSystem (updateParticles always_half_exact 1 small_world))
    = Some [ ((1 # 2) - (5 # 10)) * 50; ((1 # 2) - (5 # 10)) * 50;
             ((1 # 2) - (5 # 10)) * 50;
             (10 # 1) + (1 # 1) * 1; (20 # 1) + (1 # 1) * 1; (30 # 1) + (1 # 1) * 1 ].
Proof. reflexivity. Qed.


(* Of the two explosions of the small world, one stays and one is
   retired. *)
Example small_world_after_one_unit :
  map (fun e => oid (ex_obj e)) (explosionParticles (updateExplosions 1 small_world)) = [1%nat] /\
  map oid (disposed (updateExplosions 1 small_world)) = [2%nat] /\
  map oid (scene_children (updateExplosions 1 small_world)) = [0%nat; 1%nat].
Proof. repeat split. Qed.

End ExactRuns.

(** * Further properties of the program *)

(** ** Teardown *)

Section Teardown.

Context {num : Type} `{JSNumber num}.
Variable Math_random : N -> num.




Lemma ambient_lights_stay (l : list Object3D) (w : World num) :
  (forall o, In o l -> is_ambient o = true) ->
  fold_left (fun w light => if is_ambient light then w else scene_remove light w) l w = w.
Proof.
  revert w. induction l as [|o l IH]; intros w Hl; cbn [fold_left]; [reflexivity|].
  rewrite (Hl o) by now left. apply IH. intros o' Ho'. apply Hl. now right.
Qed.


(** X2.  clearScene is idempotent: a second call in a row finds nothing
    to remove and nothing to dispose of, and leaves the world as the
    first call left it. *)
Theorem clearScene_twice (w : World num) :
  clearScene (clearScene w) = clearScene w.
Proof.
  destruct (clearScene_collections w) as (Hc & Hp & He & Hl & _).
  destruct (clearScene w) as [c p e l s d n dr]. cbn in Hc, Hp, He, Hl. subst c p e.
  unfold clearScene. cbn.
  rewrite ambient_lights_stay.
  - unfold set_lights. cbn. f_equal. rewrite Hl. apply filter_all.
    intros x Hx. now apply filter_In in Hx.
  - intros o Ho. rewrite Hl in Ho. now apply filter_In in Ho.
Qed.

(** X3.  In every state the page can reach from its initial state, by
    any sequence of clicks, frames, timers, key presses and selections,
    the scene graph holds exactly the objects of the collections (the
    ambient light, the cubes, the particle system, the point lights and
    the explosions), every one once, and there is at most one ambient
    light: nothing leaks into the scene and nothing is lost from it. *)
Theorem scene_graph_mirrors_the_collections
    (quality : string) (evs : list (Event num)) :
  let w := world (run_events Math_random evs (initial quality)) in
  scene_children w
    = ambientLights w ++ cubes w ++ particleObjects w ++ pointLights w
        ++ map (@ex_obj num) (explosionParticles w) /\
  NoDup (map oid (scene_children w)) /\
  length (ambientLights w) <= 1.
Proof.
  destruct (reachable_scene_ok Math_random quality evs) as (Hc & Hn & _ & _ & Ha).
  cbn zeta. auto.
Qed.

(** X4.  updateExplosions, for any numbers (NaN included): the loop from
    the last index down with its splice visits every effect exactly once.
    The pool afterwards is the effects that do not expire, in their
    order, each with its life reduced and its opacity set to it; the
    expired ones are disposed of and removed from the scene, from the last
    to the first; cubes, particle system, lights and the random stream are
    untouched. *)
Theorem updateExplosions_keeps_the_survivors_in_order
    (deltaTime : num) (w : World num) :
  let w' := updateExplosions deltaTime w in
  explosionParticles w'
    = map (aged deltaTime)
          (filter (fun e => negb (expires deltaTime e)) (explosionParticles w)) /\
  disposed w'
    = disposed w
        ++ map (@ex_obj num) (rev (filter (expires deltaTime) (explosionParticles w))) /\
  scene_children w'
    = remove_children
        (map (@ex_obj num) (rev (filter (expires deltaTime) (explosionParticles w))))
        (scene_children w) /\
  length (explosionParticles w') <= length (explosionParticles w) /\
  cubes w' = cubes w /\ particleSystem w' = particleSystem w /\
  lights w' = lights w /\ draws w' = draws w.
Proof.
  destruct (updateExplosions_spec deltaTime w) as (Hp & Hd & Hs & Hc & Hps & Hl & _ & Hdr).
  cbn zeta. repeat split; auto. apply updateExplosions_length.
Qed.

End Teardown.

(** ** Bounds on the pool and on the pending callbacks *)

Section Bounds.

Context {num : Type} `{JSNumber num}.
Variable Math_random : N -> num.

Lemma randomExplosions_bound (m : nat) (l : list Object3D) (w : World num)
    (s : CameraShake num) :
  maxExplosions <= m ->
  length (explosionParticles w) <= m ->
  length (explosionParticles (fst (fold_left (randomExplosion Math_random) l (w, s)))) <= m.
Proof.
  intros Hm. revert w s. induction l as [|c l IH]; intros w s Hw; cbn [fold_left]; [exact Hw|].
  unfold randomExplosion at 2.
  destruct (_ && _) eqn:E.
  - apply IH. apply andb_true_iff in E. destruct E as [_ E].
    apply Nat.ltb_lt in E. cbn in *. rewrite length_app. cbn. lia.
  - apply IH. exact Hw.
Qed.

Lemma animate_pool_bound (m : nat) (now : num) (st : State num) :
  maxExplosions <= m ->
  length (explosionParticles (world st)) <= m ->
  length (explosionParticles (world (state_of (animate Math_random now st)))) <= m.
Proof.
  intros Hm Hcap. unfold animate.
  destruct (running (run st)); cbn [negb state_of]; [|exact Hcap].
  pose proof (@randomExplosions_bound m (cubes (world st)) (world st)
                (cameraShake (run st)) Hm Hcap) as Hfold.
  destruct (fold_left _ _ _) as [w shake]. cbn [fst] in Hfold.
  assert (Hw : length (explosionParticles
                 (updateExplosions (deltaTime_of (run st) now)
                    (updateParticles Math_random (deltaTime_of (run st) now) w)))
               <= m).
  { etransitivity; [apply updateExplosions_length|].
    destruct (updateParticles_keeps Math_random (deltaTime_of (run st) now) w) as (-> & _).
    exact Hfold. }
  unfold shakeCamera.
  destruct (gt _ _); cbn [totalTime running];
    destruct (_ && _); cbn [state_of requestAnimationFrame with_host world];
    try exact Hw;
    unfold finishBenchmark; cbn [with_run host qualitySelect_value];
    destruct (qualitySettings _); cbn; exact Hw.
Qed.

(* What a call of animate does to the page: it arms no timer, requests at
   most one frame and leaves the selector alone. *)
Lemma animate_host (now : num) (st : State num) :
  let st' := state_of (animate Math_random now st) in
  timers (host st') = timers (host st) /\
  rafQueue (host st') <= S (rafQueue (host st)) /\
  qualitySelect_value (host st') = qualitySelect_value (host st).
Proof.
  unfold animate. destruct (running (run st)); cbn [negb state_of]; [|auto].
  destruct (fold_left _ _ _) as [w shake].
  unfold shakeCamera.
  destruct (gt _ _); cbn [totalTime running];
    destruct (_ && _); cbn;
    try (repeat split; auto; fail);
    unfold finishBenchmark; cbn [with_run host qualitySelect_value];
    destruct (qualitySettings _); cbn; auto.
Qed.

Lemma populate_pool (n m k : nat) (w : World num) :
  explosionParticles (populate Math_random n m k w) = explosionParticles w.
Proof.
  unfold populate.
  destruct (addCubes_spec n w) as (_ & _ & _ & _ & He & _).
  destruct (createParticleSystem_spec Math_random m (addCubes n w))
    as (_ & _ & _ & _ & _ & _ & He' & _).
  destruct (createParticleSystem Math_random m (addCubes n w)) as [p w'].
  cbn [fst snd] in He'.
  match goal with |- context [addLights k ?w1] =>
    destruct (addLights_spec k w1) as (_ & _ & _ & _ & He'' & _) end.
  rewrite He''. cbn. now rewrite He', He.
Qed.

(* setupScene leaves an empty pool, whether it returns or throws, and
   touches neither the page nor [running]. *)
Lemma setupScene_pool (quality : string) (st : State num) :
  let st' := state_of (setupScene Math_random quality st) in
  explosionParticles (world st') = [] /\ host st' = host st /\
  running (run st') = running (run st).
Proof.
  assert (He : explosionParticles (ambientLighting (clearScene (world st))) = []).
  { destruct (clearScene_collections (world st)) as (_ & _ & He & _).
    unfold ambientLighting. destruct (_ =? _); cbn; exact He. }
  unfold setupScene.
  destruct (qualitySettings quality); cbn [state_of world host run with_world];
    rewrite ?populate_pool; auto.
Qed.

Lemma armed_app (l1 l2 : list (Timer num)) : armed (l1 ++ l2) = armed l1 + armed l2.
Proof. unfold armed. now rewrite map_app, list_sum_app. Qed.

Lemma armed_splice1 (i : nat) (l : list (Timer num)) (t : Timer num) :
  nth_error l i = Some t ->
  armed l = armed (splice1 i l) + bursts (callback t).
Proof.
  intros Ht. destruct (nth_error_split l i Ht) as (l1 & l2 & -> & <-).
  rewrite splice1_middle, !armed_app.
  change (armed (t :: l2)) with (bursts (callback t) + armed l2). lia.
Qed.

Lemma splice1_length {A} (i : nat) (l : list A) : length (splice1 i l) <= length l.
Proof.
  unfold splice1. rewrite length_app, length_firstn, length_skipn. lia.
Qed.

(* startBenchmark: the scripted sequence it arms, the frame it requests,
   and the effects its first frame can spawn into the emptied pool. *)
Lemma startBenchmark_bounds (now currentTime : num) (st : State num) :
  let st' := state_of (startBenchmark Math_random now currentTime st) in
  armed (timers (host st')) <= armed (timers (host st)) + 3 /\
  rafQueue (host st') <= S (rafQueue (host st)) /\
  length (explosionParticles (world st')) <= maxExplosions.
Proof.
  unfold startBenchmark. cbn [qualitySelect_value].
  match goal with |- context [setupScene _ ?q ?s] =>
    destruct (setupScene_pool q s) as (Hp & Hh & _);
    destruct (setupScene Math_random q s) as [st1 | e st1] end;
    cbn [state_of] in *.
  - match goal with |- context [animate _ _ ?s] =>
      destruct (animate_host currentTime s) as (Ht & Hr & _);
      pose proof (@animate_pool_bound maxExplosions currentTime s (le_n _)) as Hb end.
    cbn zeta in Ht, Hr. rewrite Ht. cbn [setTimeout with_host host timers rafQueue] in *.
    rewrite Hh in *. cbn [timers rafQueue] in *. rewrite armed_app.
    match goal with |- context [armed [?t]] => change (armed [t]) with 3 end.
    split; [lia|]. split; [exact Hr|].
    apply Hb. cbn [world setTimeout with_host]. rewrite Hp. cbn. lia.
  - rewrite Hh, Hp. cbn [host timers rafQueue length]. unfold maxExplosions. lia.
Qed.

Ltac page :=
  cbn [state_of set_timers selectQuality with_host with_world with_run show_result
       host world timers rafQueue];
  repeat split; try lia; try discriminate.

(* One event: the bursts still armed, the pending frames, and the pool
   against the bursts that fired. *)
Lemma step_bounds (ev : Event num) (st : State num) :
  let st' := state_of (step Math_random ev st) in
  let k := if is_click ev then 1 else 0 in
  armed (timers (host st')) <= armed (timers (host st)) + 3 * k /\
  rafQueue (host st') <= rafQueue (host st) + k /\
  (is_click ev = true -> length (explosionParticles (world st')) <= maxExplosions) /\
  (is_click ev = false ->
   length (explosionParticles (world st')) + armed (timers (host st'))
     <= Nat.max maxExplosions (length (explosionParticles (world st)))
        + armed (timers (host st))).
Proof.
  destruct ev as [now currentTime | now | now i | key | quality];
    cbn [step state_of is_click].
  - destruct (startBenchmark_bounds now currentTime st) as (Ha & Hr & Hp).
    cbn zeta in *. repeat split; try lia; try discriminate.
  - unfold animationFrame. destruct (rafQueue (host st)) as [|n] eqn:En.
    + rewrite ?En. page.
    + match goal with |- context [animate _ _ ?s] =>
        destruct (animate_host now s) as (Ht & Hr & _);
        pose proof (@animate_pool_bound
                      (Nat.max maxExplosions (length (explosionParticles (world st))))
                      now s (Nat.le_max_l _ _) (Nat.le_max_r _ _)) as Hb end.
      cbn zeta in *. cbn [with_host host timers rafQueue world] in *.
      rewrite Ht. page.
  - unfold timeout. destruct (nth_error _ _) as [t|] eqn:Et; [|page].
    destruct (le _ _); [|page].
    pose proof (armed_splice1 _ _ Et) as Hs.
    destruct (callback t); cbn [runCallback bursts] in *.
    + unfold scriptedSequence. cbn [run set_timers with_host].
      destruct (running (run st)); [|page].
      cbn [seq fold_left setTimeout with_host host timers rafQueue world].
      rewrite !armed_app.
      repeat match goal with |- context [armed [?x]] => change (armed [x]) with 1 end.
      page.
    + unfold scriptedSpawn. cbn [run set_timers with_host].
      destruct (running (run st)); [|page].
      cbn [with_world world createExplosionEffect construct scene_add skip_draws
           set_explosionParticles explosionParticles].
      rewrite length_app. cbn [length]. page.
  - unfold keydown. destruct (_ && _); [|page].
    unfold finishBenchmark. cbn [with_run host qualitySelect_value].
    destruct (qualitySettings _); page.
  - page.
Qed.

Lemma clicks_cons (ev : Event num) (evs : list (Event num)) :
  clicks (ev :: evs) = (if is_click ev then 1 else 0) + clicks evs.
Proof. unfold clicks. cbn. now destruct (is_click ev). Qed.

Lemma run_bounds (evs : list (Event num)) :
  forall (st : State num) (c : nat),
    armed (timers (host st)) <= 3 * c ->
    rafQueue (host st) <= c ->
    length (explosionParticles (world st)) + armed (timers (host st))
      <= maxExplosions + 3 * c ->
    let st' := run_events Math_random evs st in
    armed (timers (host st')) <= 3 * (c + clicks evs) /\
    rafQueue (host st') <= c + clicks evs /\
    length (explosionParticles (world st')) + armed (timers (host st'))
      <= maxExplosions + 3 * (c + clicks evs).
Proof.
  unfold run_events.
  induction evs as [|ev evs IH]; intros st c Ha Hr Hp; cbn [fold_left].
  - unfold clicks. cbn. rewrite Nat.add_0_r. auto.
  - rewrite clicks_cons.
    destruct (step_bounds ev st) as (Sa & Sr & Sc & Sn). cbn zeta in *.
    replace (c + ((if is_click ev then 1 else 0) + clicks evs))
      with ((c + (if is_click ev then 1 else 0)) + clicks evs) by lia.
    apply IH; destruct (is_click ev);
      try specialize (Sc eq_refl); try specialize (Sn eq_refl); lia.
Qed.

(** X5.  In every state the page can reach, the pool holds at most five
    effects plus three for every click on the start button: the random
    trigger respects the cap of five, and every start arms one scripted
    sequence of three bursts, which are pushed without a test of the
    cap. *)
Theorem pool_holds_five_and_three_per_start
    (quality : string) (evs : list (Event num)) :
  length (explosionParticles (world (run_events Math_random evs (initial quality))))
    <= maxExplosions + 3 * clicks evs.
Proof.
  destruct (@run_bounds evs (initial quality) 0) as (_ & _ & Hp); [cbn; lia ..|].
  cbn [Nat.add] in Hp. lia.
Qed.

(** X6.  In every state the page can reach, the number of pending frame
    callbacks is at most the number of clicks on the start button: a
    frame callback requests at most one successor, so the callbacks of a
    run never multiply by themselves. *)
Theorem pending_frames_bounded_by_starts
    (quality : string) (evs : list (Event num)) :
  rafQueue (host (run_events Math_random evs (initial quality))) <= clicks evs.
Proof.
  destruct (@run_bounds evs (initial quality) 0) as (_ & Hr & _); [cbn; lia ..|].
  exact Hr.
Qed.

End Bounds.

(** ** The end of a run *)

Section EndOfRun.

Context {num : Type} `{JSNumber num}.
Variable Math_random : N -> num.

(* An event other than a click, on a page that is not running. *)
Lemma step_stopped (ev : Event num) (st : State num) :
  running (run st) = false ->
  is_click ev = false ->
  let st' := state_of (step Math_random ev st) in
  world st' = world st /\ run st' = run st /\
  resultBox_visible (host st') = resultBox_visible (host st) /\
  resultBox_innerHTML (host st') = resultBox_innerHTML (host st) /\
  rafQueue (host st') <= rafQueue (host st) /\
  length (timers (host st')) <= length (timers (host st)).
Proof.
  intros Hrun Hev.
  destruct ev as [now currentTime | now | now i | key | quality];
    try discriminate; cbn [step state_of].
  - unfold animationFrame. destruct (rafQueue (host st)) as [|n] eqn:En.
    + cbn. repeat split; auto; lia.
    + rewrite animate_stopped by exact Hrun. cbn. repeat split; auto; lia.
  - unfold timeout. destruct (nth_error _ _) as [t|]; [|cbn; auto 10].
    destruct (le _ _); [|cbn; auto 10].
    assert (Hlen := splice1_length i (timers (host st))).
    destruct (callback t); cbn [runCallback].
    + unfold scriptedSequence. cbn [run set_timers with_host]. rewrite Hrun.
      cbn. auto 10.
    + unfold scriptedSpawn. cbn [run set_timers with_host]. rewrite Hrun.
      cbn. auto 10.
  - unfold keydown. rewrite Hrun, andb_false_r. cbn. auto 10.
  - cbn. auto 10.
Qed.

(** X7.  Once [running] is false, only a click on the start button
    changes the benchmark: whatever frame callbacks and timers are still
    pending, whatever keys are pressed and whatever the selector is set
    to, the scene, the statistics and the result box stay as they are;
    the callbacks are consumed without effect and none is added. *)
Theorem stopped_page_changes_only_by_a_click
    (st : State num) (evs : list (Event num)) :
  running (run st) = false ->
  clicks evs = 0 ->
  let st' := run_events Math_random evs st in
  world st' = world st /\ run st' = run st /\
  resultBox_visible (host st') = resultBox_visible (host st) /\
  resultBox_innerHTML (host st') = resultBox_innerHTML (host st) /\
  rafQueue (host st') <= rafQueue (host st) /\
  length (timers (host st')) <= length (timers (host st)).
Proof.
  unfold run_events. revert st.
  induction evs as [|ev evs IH]; intros st Hrun Hevs; cbn [fold_left].
  - auto 10.
  - rewrite clicks_cons in Hevs.
    assert (Hev : is_click ev = false) by (destruct (is_click ev); [lia | reflexivity]).
    rewrite Hev in Hevs. cbn [Nat.add] in Hevs.
    destruct (step_stopped ev st Hrun Hev) as (Hw & Hr & Hv & Hi & Hq & Ht).
    cbn zeta in *.
    destruct (IH (state_of (step Math_random ev st))) as (Hw' & Hr' & Hv' & Hi' & Hq' & Ht');
      [now rewrite Hr | exact Hevs |].
    cbn zeta in *.
    rewrite Hw', Hr', Hv', Hi', Hw, Hr, Hv, Hi. repeat split; lia.
Qed.


(** X9.  Frames of a run that goes on: [n] frame callbacks whose clock
    readings are all less than [maxTime] seconds after the start add [n]
    to the frame count, leave the run running with one callback pending,
    and leave as elapsed time the reading of the last frame against the
    start (it is not a sum of frame intervals). *)
Theorem frames_of_a_run_accumulate (ts : list num) (st : State num) (n : nat) :
  running (run st) = true ->
  rafQueue (host st) = S n ->
  Forall (fun t => lt (div (sub t (startTime (run st))) (lit 1000)) maxTime = true) ts ->
  let st' := run_events Math_random (map (@AnimationFrame num) ts) st in
  running (run st') = true /\
  frameCount (run st') = frameCount (run st) + length ts /\
  totalTime (run st') =
    last (map (fun t => div (sub t (startTime (run st))) (lit 1000)) ts)
         (totalTime (run st)) /\
  startTime (run st') = startTime (run st) /\
  rafQueue (host st') = S n.
Proof.
  intros Hrun Hq Hts.
  destruct (@frames_accumulate _ _ Math_random ts st n Hrun Hq Hts)
    as (Hr & Hf & Ht & Hs & Hh).
  cbn zeta. rewrite Hh. auto.
Qed.

(** X10.  finishBenchmark reads the selector again.  If the selector is
    moved to a name the table does not know while a run is in progress,
    the run still ends, by Escape or at the time limit, with [running]
    false, but the template throws a TypeError on [settings.cubes] and
    the result box is never written or shown; the scene stays as the run
    left it. *)
Theorem unknown_tier_at_the_finish_shows_no_result
    (quality : string) (currentTime : num) (st : State num) :
  running (run st) = true ->
  qualitySettings quality = Undefined ->
  lt (div (sub currentTime (startTime (run st))) (lit 1000)) maxTime = false ->
  let st1 := selectQuality quality st in
  (exists st2,
     keydown "Escape" st1 = Uncaught TypeError st2 /\
     running (run st2) = false /\ world st2 = world st /\
     resultBox_visible (host st2) = resultBox_visible (host st) /\
     resultBox_innerHTML (host st2) = resultBox_innerHTML (host st)) /\
  (exists st3,
     animate Math_random currentTime st1 = Uncaught TypeError st3 /\
     running (run st3) = false /\
     frameCount (run st3) = S (frameCount (run st)) /\
     rafQueue (host st3) = rafQueue (host st) /\
     resultBox_visible (host st3) = resultBox_visible (host st) /\
     resultBox_innerHTML (host st3) = resultBox_innerHTML (host st)).
Proof.
  intros Hrun Hq Htime st1. subst st1. split.
  - unfold keydown. cbn [selectQuality with_host run]. rewrite Hrun.
    replace (String.eqb "Escape" "Escape") with true by reflexivity. cbn [andb].
    unfold finishBenchmark. cbn [with_run with_host host qualitySelect_value].
    change (qualitySelect_value (host (selectQuality quality st))) with quality.
    rewrite Hq. eexists. split; [reflexivity|]. cbn. auto.
  - destruct (animate_finishes Math_random currentTime (selectQuality quality st)
                Hrun Htime) as (w & r & Ha & Hf & Ht).
    rewrite Ha. unfold finishBenchmark.
    cbn [with_run with_host host qualitySelect_value].
    change (qualitySelect_value (host (selectQuality quality st))) with quality.
    rewrite Hq. eexists. split; [reflexivity|]. cbn. rewrite Hf. auto 10.
Qed.

Lemma ambientLighting_lights (w : World num) :
  forall o, In o (lights (ambientLighting (clearScene w))) -> is_ambient o = true.
Proof.
  destruct (clearScene_collections w) as (_ & _ & _ & Hl & _).
  intros o. unfold ambientLighting.
  destruct (_ =? _); cbn [construct scene_add set_lights lights]; rewrite Hl.
  - intros Ho. apply in_app_or in Ho. destruct Ho as [Ho | [<- | []]]; [|reflexivity].
    now apply filter_In in Ho.
  - intros Ho. now apply filter_In in Ho.
Qed.

(** X11.  A selector value that names a property [qualitySettings]
    inherits from Object.prototype (constructor, toString, ...) is not
    rejected: every count of the tier reads as undefined, so setupScene
    returns with no cube, a particle system with empty buffers and no
    point light, and the report prints the counts as undefined. *)
Theorem prototype_key_gives_an_empty_tier
    (quality : string) (st : State num) (frames : nat) (seconds : num) :
  qualitySettings quality = Inherited ->
  (exists st' p,
     setupScene Math_random quality st = Ok st' /\
     cubes (world st') = [] /\
     particleSystem (world st') = Some p /\
     positions p = [] /\ velocities p = [] /\
     pointLights (world st') = [] /\
     explosionParticles (world st') = []) /\
  rep_cubes (report frames seconds quality) = None /\
  rep_particles (report frames seconds quality) = None /\
  rep_lights (report frames seconds quality) = None.
Proof.
  intros Hq. split; [|unfold report; rewrite Hq; auto].
  unfold setupScene. rewrite Hq. cbn [field turns].
  pose proof (ambientLighting_lights (world st)) as Hl.
  destruct (clearScene_collections (world st)) as (Hc & _ & He & _).
  assert (Hc' : cubes (ambientLighting (clearScene (world st))) = [])
    by (unfold ambientLighting; destruct (_ =? _); cbn; exact Hc).
  assert (He' : explosionParticles (ambientLighting (clearScene (world st))) = [])
    by (unfold ambientLighting; destruct (_ =? _); cbn; exact He).
  set (w := ambientLighting (clearScene (world st))) in *. clearbody w.
  eexists _, _. split; [reflexivity|].
  cbn. rewrite Hc', He'. repeat split.
  unfold pointLights. cbn. apply filter_none.
  intros o Ho. now rewrite (Hl o Ho).
Qed.

End EndOfRun.

(** ** What a frame and a run keep *)

Section Keeps.

Context {num : Type} `{JSNumber num}.
Variable Math_random : N -> num.



(* The run statistics and the page after a timer. *)
Lemma timeout_run (now : num) (i : nat) (st : State num) :
  run (timeout now i st) = run st /\
  rafQueue (host (timeout now i st)) = rafQueue (host st) /\
  qualitySelect_value (host (timeout now i st)) = qualitySelect_value (host st).
Proof.
  unfold timeout. destruct (nth_error _ _) as [t|]; [|auto].
  destruct (le _ _); [|auto].
  destruct (callback t); cbn [runCallback].
  - unfold scriptedSequence. cbn [run set_timers with_host].
    destruct (running (run st)); cbn; auto.
  - unfold scriptedSpawn. cbn [run set_timers with_host].
    destruct (running (run st)); cbn; auto.
Qed.

(* A call of animate on a tier the table knows or inherits: the run goes
   on with a frame pending, or it is over. *)
Lemma animate_pending (now : num) (st : State num) :
  qualitySettings (qualitySelect_value (host st)) <> Undefined ->
  let st' := state_of (animate Math_random now st) in
  qualitySelect_value (host st') = qualitySelect_value (host st) /\
  (running (run st') = true -> 1 <= rafQueue (host st')).
Proof.
  intros Hq. destruct (animate_host Math_random now st) as (_ & _ & Hsel).
  cbn zeta in *. split; [exact Hsel|].
  destruct (running (run st)) eqn:Hrun.
  - destruct (lt (div (sub now (startTime (run st))) (lit 1000)) maxTime) eqn:Ht.
    + destruct (animate_continues Math_random now st Hrun Ht)
        as (st' & -> & _ & _ & _ & _ & _ & Hh).
      cbn [state_of]. rewrite Hh. cbn. lia.
    + destruct (animate_finishes Math_random now st Hrun Ht) as (w & r & -> & _).
      rewrite finishBenchmark_reports by exact Hq. cbn. discriminate.
  - rewrite animate_stopped by exact Hrun. cbn [state_of]. congruence.
Qed.

Lemma step_pending (quality : string) (ev : Event num) (st : State num) :
  qualitySettings quality <> Undefined ->
  is_select ev = false ->
  qualitySelect_value (host st) = quality ->
  (running (run st) = true -> 1 <= rafQueue (host st)) ->
  let st' := state_of (step Math_random ev st) in
  qualitySelect_value (host st') = quality /\
  (running (run st') = true -> 1 <= rafQueue (host st')).
Proof.
  intros Hq Hev Hsel Hinv.
  destruct ev as [now currentTime | now | now i | key | quality'];
    try discriminate; cbn [step state_of].
  - unfold startBenchmark. cbn [qualitySelect_value].
    rewrite Hsel.
    match goal with |- context [setupScene _ _ ?s] =>
      destruct (setupScene_known Math_random quality s Hq) as [w Hw] end.
    rewrite Hw.
    match goal with |- context [animate _ _ ?s] =>
      destruct (@animate_pending currentTime s) as (Hs & Hp) end.
    { cbn. rewrite ?Hsel. exact Hq. }
    cbn zeta in *. rewrite Hs. cbn. auto.
  - unfold animationFrame. destruct (rafQueue (host st)) as [|n] eqn:En.
    + cbn [state_of]. rewrite En. auto.
    + match goal with |- context [animate _ _ ?s] =>
        destruct (@animate_pending now s) as (Hs & Hp) end.
      { cbn. rewrite ?Hsel. exact Hq. }
      cbn zeta in *. rewrite Hs. cbn. auto.
  - destruct (timeout_run now i st) as (-> & -> & ->). auto.
  - unfold keydown. destruct (_ && _); [|auto].
    rewrite finishBenchmark_reports by now rewrite Hsel.
    cbn. split; [exact Hsel | discriminate].
Qed.

(** X23.  A run does not stall.  On a page whose selector shows a name
    the table knows or inherits and is not changed, in every state
    reached by clicks, frames, timers and key presses: while [running] is
    true a frame callback is pending. *)
Theorem running_page_has_a_frame_pending
    (quality : string) (evs : list (Event num)) :
  qualitySettings quality <> Undefined ->
  selections evs = 0 ->
  let st := run_events Math_random evs (initial quality) in
  running (run st) = true -> 1 <= rafQueue (host st).
Proof.
  intros Hq Hevs. unfold run_events.
  assert (Hgen : forall st,
            qualitySelect_value (host st) = quality ->
            (running (run st) = true -> 1 <= rafQueue (host st)) ->
            let st' := fold_left (fun st ev => state_of (step Math_random ev st)) evs st in
            qualitySelect_value (host st') = quality /\
            (running (run st') = true -> 1 <= rafQueue (host st'))).
  { induction evs as [|ev evs IH]; intros st Hsel Hinv; cbn [fold_left]; [auto|].
    unfold selections in Hevs. cbn [filter] in Hevs.
    destruct (is_select ev) eqn:Hev; [discriminate|].
    destruct (@step_pending quality ev st Hq Hev Hsel Hinv) as (Hsel' & Hinv').
    now apply IH. }
  apply Hgen; [reflexivity | discriminate].
Qed.

End Keeps.

Section KeepsBinary64.

Local Open Scope float_scope.

Variable Math_random : N -> float.

Lemma animate_below_the_limit (now : float) (st : State float) :
  (running (run st) = true -> lt (totalTime (run st)) maxTime = true) ->
  let st' := state_of (animate Math_random now st) in
  running (run st') = true -> lt (totalTime (run st')) maxTime = true.
Proof.
  intros Hinv. cbn zeta.
  destruct (running (run st)) eqn:Hrun.
  - destruct (lt (div (sub now (startTime (run st))) (lit 1000)) maxTime) eqn:Ht.
    + destruct (animate_continues Math_random now st Hrun Ht)
        as (st' & -> & _ & Htt & _). cbn [state_of]. now rewrite Htt.
    + destruct (animate_finishes Math_random now st Hrun Ht) as (w & r & -> & _).
      unfold finishBenchmark. cbn [with_run host qualitySelect_value].
      destruct (qualitySettings _); cbn; discriminate.
  - rewrite animate_stopped by exact Hrun. cbn [state_of]. congruence.
Qed.

Lemma step_below_the_limit (ev : Event float) (st : State float) :
  (running (run st) = true -> lt (totalTime (run st)) maxTime = true) ->
  let st' := state_of (step Math_random ev st) in
  running (run st') = true -> lt (totalTime (run st')) maxTime = true.
Proof.
  intros Hinv. destruct ev as [now currentTime | now | now i | key | quality];
    cbn [step state_of].
  - unfold startBenchmark. cbn [qualitySelect_value].
    match goal with |- context [setupScene _ ?q ?s] =>
      destruct (qualitySettings q) eqn:Eq;
      [ destruct (@setupScene_known float _ Math_random q s) as [w Hw]; [congruence|]
      | destruct (@setupScene_known float _ Math_random q s) as [w Hw]; [congruence|]
      | destruct (@setupScene_unknown float _ Math_random q s Eq) as (w & Hw & _) ]
    end; rewrite Hw; cbn [state_of].
    + apply animate_below_the_limit. cbn. reflexivity.
    + apply animate_below_the_limit. cbn. reflexivity.
    + cbn. reflexivity.
  - unfold animationFrame. destruct (rafQueue (host st)); [exact Hinv|].
    now apply animate_below_the_limit.
  - destruct (timeout_run now i st) as (-> & _). exact Hinv.
  - unfold keydown. destruct (_ && _); [|exact Hinv].
    unfold finishBenchmark. cbn [with_run host qualitySelect_value].
    destruct (qualitySettings _); cbn; discriminate.
  - exact Hinv.
Qed.

(** X24.  In binary64, in every state the page can reach: while
    [running] is true the elapsed time recorded is less than [maxTime],
    30 seconds; the frame that reaches the limit is the one that ends the
    run. *)
Theorem running_time_is_below_the_limit
    (quality : string) (evs : list (Event float)) :
  let st := run_events Math_random evs (initial quality) in
  running (run st) = true -> lt (totalTime (run st)) maxTime = true.
Proof.
  unfold run_events.
  assert (Hgen : forall st,
            (running (run st) = true -> lt (totalTime (run st)) maxTime = true) ->
            let st' := fold_left (fun st ev => state_of (step Math_random ev st)) evs st in
            running (run st') = true -> lt (totalTime (run st')) maxTime = true).
  { induction evs as [|ev evs IH]; intros st Hinv; cbn [fold_left]; [exact Hinv|].
    apply IH. now apply step_below_the_limit. }
  apply Hgen. discriminate.
Qed.

End KeepsBinary64.

(** ** Colours, over exact arithmetic *)

Section ExactColour.

Local Open Scope Q_scope.

Lemma ltb_false_iff (x y : Q) : ExactQ.ltb x y = false <-> y <= x.
Proof. unfold ExactQ.ltb. now rewrite negb_false_iff, Qle_bool_iff. Qed.

(* Case analysis on every comparison of the goal whose operands are free
   of comparisons, dropping the cases that contradict the context. *)
Ltac compare_all :=
  repeat match goal with
  | |- context [ExactQ.ltb ?a ?b] =>
      lazymatch a with context [ExactQ.ltb _ _] => fail | _ => idtac end;
      let E := fresh "E" in
      destruct (ExactQ.ltb a b) eqn:E;
      [apply ltb_iff in E | apply ltb_false_iff in E];
      try (exfalso; lra)
  end.

(* The quotients of literals in hue2rgb and hslToRgb. *)
Ltac constants :=
  change (1 / 6) with (1 # 6) in *; change (1 / 2) with (1 # 2) in *;
  change (2 / 3) with (2 # 3) in *; change (1 / 3) with (1 # 3) in *.

(* A point between p and q, k of the way from p. *)
Lemma between (p q k : Q) : p <= q -> 0 <= k <= 1 -> p <= p + (q - p) * k <= q.
Proof.
  intros Hpq [Hk0 Hk1].
  assert (H0 : 0 <= (q - p) * k) by (apply Qmult_le_0_compat; lra).
  assert (H1 : 0 <= (q - p) * (1 - k)) by (apply Qmult_le_0_compat; lra).
  lra.
Qed.

Lemma hue2rgb_range (p q t : Q) :
  p <= q -> -1 <= t ->
  p <= hue2rgb p q t <= q.
Proof.
  intros Hpq Ht. unfold hue2rgb, gt. cbn [lit add sub mul div lt exactQ].
  constants.
  compare_all; try lra;
    match goal with
    | |- _ <= _ + _ * 6 * ?k <= _ =>
        destruct (@between p q (6 * k) Hpq); [lra | lra]
    | |- _ <= _ + _ * ?k * 6 <= _ =>
        destruct (@between p q (k * 6) Hpq); [lra | lra]
    end.
Qed.

(* For a hue of [0, 1], one of the three channels is q and one is p. *)
Lemma hue2rgb_reaches_q (p q h : Q) :
  0 <= h <= 1 ->
  hue2rgb p q (h + 1 / 3) = q \/ hue2rgb p q h = q \/ hue2rgb p q (h - 1 / 3) = q.
Proof.
  intros Hh. unfold hue2rgb, gt. cbn [lit add sub mul div lt exactQ].
  constants.
  compare_all; tauto.
Qed.

Lemma hue2rgb_reaches_p (p q h : Q) :
  0 <= h <= 1 ->
  hue2rgb p q (h + 1 / 3) = p \/ hue2rgb p q h = p \/ hue2rgb p q (h - 1 / 3) = p.
Proof.
  intros Hh. unfold hue2rgb, gt. cbn [lit add sub mul div lt exactQ].
  constants.
  compare_all; tauto.
Qed.

(* q and p of hslToRgb *)
Lemma chroma_range (s l : Q) :
  0 <= s <= 1 -> 0 <= l <= 1 ->
  let q := if ExactQ.ltb l (5 # 10) then l * (1 + s) else l + s - l * s in
  let p := 2 * l - q in
  0 <= p /\ p <= q /\ q <= 1 /\ p + q == 2 * l /\
  q - p == s * (1 - Qabs (2 * l - 1)).
Proof.
  intros Hs Hl.
  assert (H0 : 0 <= l * s) by (apply Qmult_le_0_compat; lra).
  assert (H1 : 0 <= l * (1 - s)) by (apply Qmult_le_0_compat; lra).
  assert (H2 : 0 <= (1 - l) * s) by (apply Qmult_le_0_compat; lra).
  assert (H3 : 0 <= (1 - l) * (1 - s)) by (apply Qmult_le_0_compat; lra).
  destruct (ExactQ.ltb l (5 # 10)) eqn:E;
    [apply ltb_iff in E | apply ltb_false_iff in E]; cbn zeta.
  - rewrite (Qabs_neg (2 * l - 1)) by lra. repeat split; lra.
  - rewrite (Qabs_pos (2 * l - 1)) by lra. repeat split; lra.
Qed.

Lemma strictEquals_iff (x y : Q) : strictEquals x y = true <-> x == y.
Proof.
  unfold strictEquals. cbn [le exactQ].
  rewrite andb_true_iff, !Qle_bool_iff. split; [intros []; lra | intros ->; lra].
Qed.

Lemma hslToRgb_range (h s l : Q) :
  0 <= h <= 1 -> 0 <= s <= 1 -> 0 <= l <= 1 ->
  0 <= rgb_r (hslToRgb h s l) <= 1 /\
  0 <= rgb_g (hslToRgb h s l) <= 1 /\
  0 <= rgb_b (hslToRgb h s l) <= 1.
Proof.
  intros Hh Hs Hl. unfold hslToRgb.
  destruct (strictEquals s (lit 0)); cbn [rgb_r rgb_g rgb_b]; [lra|].
  cbn [lit add sub mul div lt exactQ].
  destruct (chroma_range Hs Hl) as (Hp & Hpq & Hq & _). cbn zeta in *.
  constants.
  match goal with |- context [hue2rgb ?p ?q _] =>
    pose proof (@hue2rgb_range p q (h + (1 # 3)) Hpq) as Hr;
    pose proof (@hue2rgb_range p q h Hpq) as Hg;
    pose proof (@hue2rgb_range p q (h - (1 # 3)) Hpq) as Hb end.
  destruct Hr; [lra|]. destruct Hg; [lra|]. destruct Hb; [lra|].
  repeat split; lra.
Qed.

(** X12.  hslToRgb over exact arithmetic: for a hue, a saturation and a
    lightness of [0, 1], the three channels returned are in [0, 1]. *)
Theorem hslToRgb_channels_are_in_range (h s l : Q) :
  0 <= h <= 1 -> 0 <= s <= 1 -> 0 <= l <= 1 ->
  0 <= rgb_r (hslToRgb h s l) <= 1 /\
  0 <= rgb_g (hslToRgb h s l) <= 1 /\
  0 <= rgb_b (hslToRgb h s l) <= 1.
Proof.
  intros Hh Hs Hl. unfold hslToRgb.
  destruct (strictEquals s (lit 0)); cbn [rgb_r rgb_g rgb_b]; [lra|].
  cbn [lit add sub mul div lt exactQ].
  destruct (chroma_range Hs Hl) as (Hp & Hpq & Hq & _). cbn zeta in *.
  constants.
  match goal with |- context [hue2rgb ?p ?q _] =>
    pose proof (@hue2rgb_range p q (h + (1 # 3)) Hpq) as Hr;
    pose proof (@hue2rgb_range p q h Hpq) as Hg;
    pose proof (@hue2rgb_range p q (h - (1 # 3)) Hpq) as Hb end.
  destruct Hr; [lra|]. destruct Hg; [lra|]. destruct Hb; [lra|].
  repeat split; lra.
Qed.

Lemma max3_of (a b c m : Q) :
  a <= m -> b <= m -> c <= m -> a = m \/ b = m \/ c = m ->
  ExactQ.max a (ExactQ.max b c) == m.
Proof.
  intros Ha Hb Hc Hm. unfold ExactQ.max.
  repeat match goal with |- context [Qle_bool ?x ?y] =>
    lazymatch y with context [Qle_bool _ _] => fail | _ => idtac end;
    let E := fresh "E" in
    destruct (Qle_bool x y) eqn:E;
    [apply Qle_bool_iff in E
    | apply not_true_iff_false in E; rewrite Qle_bool_iff in E; apply Qnot_le_lt in E]
  end; destruct Hm as [<- | [<- | <-]]; lra.
Qed.

Lemma min3_of (a b c m : Q) :
  m <= a -> m <= b -> m <= c -> a = m \/ b = m \/ c = m ->
  ExactQ.min a (ExactQ.min b c) == m.
Proof.
  intros Ha Hb Hc Hm. unfold ExactQ.min.
  repeat match goal with |- context [Qle_bool ?x ?y] =>
    lazymatch y with context [Qle_bool _ _] => fail | _ => idtac end;
    let E := fresh "E" in
    destruct (Qle_bool x y) eqn:E;
    [apply Qle_bool_iff in E
    | apply not_true_iff_false in E; rewrite Qle_bool_iff in E; apply Qnot_le_lt in E]
  end; destruct Hm as [<- | [<- | <-]]; lra.
Qed.

(** X13.  hslToRgb over exact arithmetic inverts on lightness and on
    chroma: for a hue, a saturation and a lightness of [0, 1], the
    greatest and the least of the three channels returned add up to
    twice the lightness and differ by [s * (1 - |2 l - 1|)], which are
    the two equations that define the lightness and the saturation of an
    RGB colour. *)
Theorem hslToRgb_keeps_lightness_and_chroma (h s l : Q) :
  0 <= h <= 1 -> 0 <= s <= 1 -> 0 <= l <= 1 ->
  let c := hslToRgb h s l in
  let greatest := ExactQ.max (rgb_r c) (ExactQ.max (rgb_g c) (rgb_b c)) in
  let least := ExactQ.min (rgb_r c) (ExactQ.min (rgb_g c) (rgb_b c)) in
  greatest + least == 2 * l /\
  greatest - least == s * (1 - Qabs (2 * l - 1)).
Proof.
  intros Hh Hs Hl. unfold hslToRgb.
  destruct (strictEquals s (lit 0)) eqn:Es; cbn [rgb_r rgb_g rgb_b].
  - apply strictEquals_iff in Es. cbn [lit exactQ] in Es. cbn zeta.
    rewrite (@max3_of l l l l), (@min3_of l l l l) by (auto; lra).
    rewrite Es. split; ring.
  - cbn [lit add sub mul div lt exactQ].
    destruct (chroma_range Hs Hl) as (Hp & Hpq & Hq & Hsum & Hdiff). cbn zeta in *.
    constants.
    match goal with |- context [hue2rgb ?p ?q _] =>
      pose proof (@hue2rgb_range p q (h + (1 # 3)) Hpq) as Hr;
      pose proof (@hue2rgb_range p q h Hpq) as Hg;
      pose proof (@hue2rgb_range p q (h - (1 # 3)) Hpq) as Hb;
      pose proof (@hue2rgb_reaches_q p q h Hh) as Htop;
      pose proof (@hue2rgb_reaches_p p q h Hh) as Hbot
    end.
    constants.
    destruct Hr as [Hr0 Hr1]; [lra|]. destruct Hg as [Hg0 Hg1]; [lra|].
    destruct Hb as [Hb0 Hb1]; [lra|].
    rewrite (max3_of Hr1 Hg1 Hb1 Htop), (min3_of Hr0 Hg0 Hb0 Hbot).
    split; [rewrite <- Hsum; ring | exact Hdiff].
Qed.

End ExactColour.

(** ** The ambient field, over exact arithmetic *)

Section ExactField.

Local Open Scope Q_scope.

Variable Math_random : N -> Q.
Hypothesis Math_random_range : forall n, 0 <= Math_random n < 1.

Lemma particleColour_range (d : N) :
  let c := particleColour Math_random d in
  0 <= rgb_r c <= 1 /\ 0 <= rgb_g c <= 1 /\ 0 <= rgb_b c <= 1.
Proof.
  unfold particleColour. cbn [lit add mul exactQ].
  pose proof (Math_random_range (d + 6)%N).
  pose proof (Math_random_range (d + 7)%N).
  pose proof (Math_random_range (d + 8)%N).
  apply hslToRgb_range; lra.
Qed.

Lemma createColours_range (count : nat) :
  forall d, length (createColours Math_random count d) = (3 * count)%nat /\
            Forall (fun c => 0 <= c <= 1) (createColours Math_random count d).
Proof.
  induction count as [|k IH]; intros d; cbn [createColours]; [split; [reflexivity|constructor]|].
  destruct (IH (d + 9)%N) as (Hlen & Hall).
  destruct (particleColour_range d) as (Hr & Hg & Hb). cbn zeta in *.
  cbn [fround exactQ length]. split; [lia|].
  repeat constructor; tauto.
Qed.

Lemma centred_bound (spread r : Q) :
  0 <= spread -> 0 <= r < 1 -> Qabs (centred spread r) <= spread * (1 # 2).
Proof.
  intros Hs Hr. change (Qabs ((r - (5 # 10)) * spread) <= spread * (1 # 2)).
  assert (H0 : 0 <= r * spread) by (apply Qmult_le_0_compat; lra).
  assert (H1 : 0 <= (1 - r) * spread) by (apply Qmult_le_0_compat; lra).
  apply Qabs_Qle_condition. lra.
Qed.

Lemma createBuffers_range (count : nat) :
  forall d,
    Forall (fun x => Qabs x <= 100) (fst (createBuffers Math_random count d)) /\
    Forall (fun v => Qabs v <= 1) (snd (createBuffers Math_random count d)).
Proof.
  induction count as [|k IH]; intros d; cbn [createBuffers]; [split; constructor|].
  destruct (IH (d + 9)%N) as (Hp & Hv).
  destruct (createBuffers Math_random k (d + 9)%N) as [ps vs]. cbn [fst snd] in *.
  split; repeat constructor; auto;
    match goal with |- Qabs (centred ?s ?r) <= _ =>
      eapply Qle_trans;
        [apply (@centred_bound s r); [lra | apply Math_random_range] | lra]
    end.
Qed.

(** X14.  The colours written to the colour buffers are in range, over
    exact arithmetic and for Math.random() in [0, 1): createParticleSystem
    writes three channels per particle, every one in [0, 1]; the colour
    updateParticles computes for a hue of [0, 1], at saturation 0.8 and
    lightness 0.6, has its channels in [0.28, 0.92]. *)
Theorem colours_written_are_in_range (count : nat) (d : N) (hue : Q) :
  0 <= hue <= 1 ->
  length (createColours Math_random count d) = (3 * count)%nat /\
  Forall (fun c => 0 <= c <= 1) (createColours Math_random count d) /\
  (28 # 100) <= rgb_r (rainbow hue) <= (92 # 100) /\
  (28 # 100) <= rgb_g (rainbow hue) <= (92 # 100) /\
  (28 # 100) <= rgb_b (rainbow hue) <= (92 # 100).
Proof.
  intros Hh. destruct (createColours_range count d) as (Hlen & Hall).
  split; [exact Hlen|]. split; [exact Hall|].
  unfold rainbow, hslToRgb. cbn [lit exactQ].
  replace (strictEquals (8 # 10) 0) with false by reflexivity.
  cbn [lit add sub mul div lt exactQ].
  replace (ExactQ.ltb (6 # 10) (5 # 10)) with false by reflexivity.
  cbn [rgb_r rgb_g rgb_b].
  change (1 / 3) with (1 # 3).
  match goal with |- context [hue2rgb ?p ?q _] =>
    assert (Hpq : p <= q) by lra;
    pose proof (@hue2rgb_range p q (hue + (1 # 3)) Hpq) as Hr;
    pose proof (@hue2rgb_range p q hue Hpq) as Hg;
    pose proof (@hue2rgb_range p q (hue - (1 # 3)) Hpq) as Hb end.
  destruct Hr; [lra|]. destruct Hg; [lra|]. destruct Hb; [lra|].
  repeat split; lra.
Qed.

Lemma createParticleSystem_range (count : nat) (w : World Q) :
  let p := fst (createParticleSystem Math_random count w) in
  length (positions p) = (3 * count)%nat /\
  length (velocities p) = (3 * count)%nat /\
  Forall (fun x => Qabs x <= 100) (positions p) /\
  Forall (fun v => Qabs v <= 1) (velocities p).
Proof.
  unfold createParticleSystem.
  destruct (createBuffers_length Math_random count (draws w)) as (Hlp & Hlv).
  destruct (createBuffers_range count (draws w)) as (Hp & Hv).
  destruct (createBuffers Math_random count (draws w)) as [ps vs].
  cbn in *. auto.
Qed.

(** X15.  createParticleSystem, over exact arithmetic and for
    Math.random() in [0, 1): the position and the velocity buffer hold
    three numbers per particle, every initial coordinate is within 100
    of the origin and every velocity component within 1. *)
Theorem createParticleSystem_starts_within_bounds (count : nat) (w : World Q) :
  let p := fst (createParticleSystem Math_random count w) in
  length (positions p) = (3 * count)%nat /\
  length (velocities p) = (3 * count)%nat /\
  Forall (fun x => Qabs x <= 100) (positions p) /\
  Forall (fun v => Qabs v <= 1) (velocities p).
Proof.
  unfold createParticleSystem.
  destruct (createBuffers_length Math_random count (draws w)) as (Hlp & Hlv).
  destruct (createBuffers_range count (draws w)) as (Hp & Hv).
  destruct (createBuffers Math_random count (draws w)) as [ps vs].
  cbn in *. auto.
Qed.

(* Every coordinate the loop of updateParticles leaves is within the wrap
   radius, whatever it found. *)
Lemma updateParticles_loop_bound (deltaTime : Q) (ps : list Q) :
  forall vs d,
    length vs = length ps -> (exists n, length ps = (3 * n)%nat) ->
    Forall (fun x => Qabs x <= wrapRadius)
           (fst (updateParticles_loop Math_random deltaTime ps vs d)).
Proof.
  induction ps as [| | |p0 p1 p2 ps IH] using list_ind3; intros vs d Hlen [n Hn];
    cbn in Hn; try (exfalso; lia).
  - constructor.
  - destruct vs as [|v0 [|v1 [|v2 vs]]]; try discriminate.
    rewrite updateParticles_loop_step.
    assert (Hrest : forall d', Forall (fun x => Qabs x <= wrapRadius)
              (fst (updateParticles_loop Math_random deltaTime ps vs d'))).
    { intros d'. apply IH; [cbn in Hlen; lia|].
      exists (n - 1)%nat. lia. }
    destruct (outside _ _ _) eqn:E.
    + repeat constructor; try apply Hrest;
        (eapply Qle_trans; [apply centred_50_bound, Math_random_range|]);
        unfold wrapRadius; lra.
    + assert (Hin : ~ (150 < Qabs (p0 + v0 * deltaTime) \/
                       150 < Qabs (p1 + v1 * deltaTime) \/
                       150 < Qabs (p2 + v2 * deltaTime))).
      { intros Hout. apply outside_iff in Hout. congruence. }
      repeat constructor; try apply Hrest;
        apply Qnot_lt_le; intros Hc; apply Hin; unfold wrapRadius in Hc; tauto.
Qed.

Lemma updateParticles_field_ok (deltaTime : Q) (w : World Q) :
  field_ok w -> field_ok (updateParticles Math_random deltaTime w).
Proof.
  unfold field_ok, updateParticles.
  destruct (particleSystem w) as [p|] eqn:E; [|rewrite E; auto].
  intros (Hlen & Hn & _). cbn [particleSystem set_particleSystem positions velocities fst].
  rewrite updateParticles_loop_length. split; [exact Hlen|]. split; [exact Hn|].
  apply updateParticles_loop_bound; assumption.
Qed.

Lemma field_ok_ext (w w' : World Q) :
  particleSystem w' = particleSystem w -> field_ok w -> field_ok w'.
Proof. unfold field_ok. now intros ->. Qed.

Lemma randomExplosions_particleSystem (l : list Object3D) :
  forall (w : World Q) (s : CameraShake Q),
    particleSystem (fst (fold_left (randomExplosion Math_random) l (w, s)))
      = particleSystem w.
Proof.
  induction l as [|c l IH]; intros w s; cbn [fold_left]; [reflexivity|].
  unfold randomExplosion at 2. destruct (_ && _); rewrite IH; reflexivity.
Qed.

Lemma animate_field_ok (now : Q) (st : State Q) :
  field_ok (world st) -> field_ok (world (state_of (animate Math_random now st))).
Proof.
  intros Hok. unfold animate. destruct (running (run st)); cbn [negb state_of]; [|exact Hok].
  pose proof (randomExplosions_particleSystem (cubes (world st)) (world st)
                (cameraShake (run st))) as Hfold.
  destruct (fold_left _ _ _) as [w shake]. cbn [fst] in Hfold.
  assert (Hw : field_ok (updateExplosions (deltaTime_of (run st) now)
                 (updateParticles Math_random (deltaTime_of (run st) now) w))).
  { eapply field_ok_ext;
      [|apply updateParticles_field_ok, (@field_ok_ext _ _ Hfold), Hok].
    destruct (updateExplosions_spec (deltaTime_of (run st) now)
                (updateParticles Math_random (deltaTime_of (run st) now) w))
      as (_ & _ & _ & _ & Hp & _).
    exact Hp. }
  unfold shakeCamera.
  destruct (gt _ _); cbn [totalTime running];
    destruct (_ && _); cbn [state_of requestAnimationFrame with_host world];
    try exact Hw;
    unfold finishBenchmark; cbn [with_run host qualitySelect_value];
    destruct (qualitySettings _); cbn; exact Hw.
Qed.

Lemma setupScene_field_ok (quality : string) (st : State Q) :
  field_ok (world (state_of (setupScene Math_random quality st))).
Proof.
  assert (Hnone : particleSystem (ambientLighting (clearScene (world st))) = None).
  { destruct (clearScene_collections (world st)) as (_ & Hp & _).
    unfold ambientLighting. destruct (_ =? _)%nat; cbn; exact Hp. }
  assert (Hsome : forall n m k w,
            field_ok (populate Math_random n m k w)).
  { intros n m k w. unfold populate, field_ok.
    pose proof (createParticleSystem_range m (addCubes n w)) as Hb.
    destruct (createParticleSystem Math_random m (addCubes n w)) as [p w'].
    cbn [fst] in Hb. destruct Hb as (Hlp & Hlv & Hp & _).
    match goal with |- context [addLights k ?w1] =>
      destruct (addLights_spec k w1) as (_ & _ & _ & -> & _) end.
    cbn. split; [lia|]. split; [now exists m|].
    eapply Forall_impl; [|exact Hp]. intros x Hx. cbn beta in Hx.
    unfold wrapRadius. lra. }
  unfold setupScene.
  destruct (qualitySettings quality); cbn [state_of world with_world];
    try apply Hsome.
  unfold field_ok. now rewrite Hnone.
Qed.

Lemma step_field_ok (ev : Event Q) (st : State Q) :
  field_ok (world st) -> field_ok (world (state_of (step Math_random ev st))).
Proof.
  intros Hok. destruct ev as [now currentTime | now | now i | key | quality];
    cbn [step state_of].
  - unfold startBenchmark.
    match goal with |- context [setupScene _ ?q ?s] =>
      pose proof (setupScene_field_ok q s) as Hs;
      destruct (setupScene Math_random q s) as [st1 | e st1] end;
      cbn [state_of] in *; [|exact Hs].
    now apply animate_field_ok.
  - unfold animationFrame. destruct (rafQueue (host st)); [exact Hok|].
    now apply animate_field_ok.
  - unfold timeout. destruct (nth_error _ _) as [t|]; [|exact Hok].
    destruct (le _ _); [|exact Hok].
    destruct (callback t); cbn [runCallback].
    + unfold scriptedSequence. cbn [run set_timers with_host].
      destruct (running (run st)); exact Hok.
    + unfold scriptedSpawn. cbn [run set_timers with_host world].
      destruct (running (run st)); exact Hok.
  - unfold keydown. destruct (_ && _); [|exact Hok].
    unfold finishBenchmark. cbn [with_run host qualitySelect_value].
    destruct (qualitySettings _); exact Hok.
  - exact Hok.
Qed.

(** X16.  Over exact arithmetic and for Math.random() in [0, 1): in every
    state the page can reach, the position and velocity buffers of the
    ambient field are parallel and hold whole particles, and every
    coordinate is within the wrap radius of 150: no particle is ever left
    outside the cube that updateParticles tests. *)
Theorem ambient_field_stays_within_the_wrap_radius
    (quality : string) (evs : list (Event Q)) :
  field_ok (world (run_events Math_random evs (initial quality))).
Proof.
  unfold run_events.
  assert (Hgen : forall st, field_ok (world st) ->
            field_ok (world (fold_left (fun st ev => state_of (step Math_random ev st)) evs st))).
  { induction evs as [|ev evs IH]; intros st Hst; cbn [fold_left]; [exact Hst|].
    apply IH. now apply step_field_ok. }
  apply Hgen. exact I.
Qed.

End ExactField.

(** ** Frame time, effects and shake, over exact arithmetic *)

Section ExactFrame.

Local Open Scope Q_scope.

Variable Math_random : N -> Q.

Lemma min_le_r (x y : Q) : ExactQ.min x y <= y.
Proof.
  unfold ExactQ.min. destruct (Qle_bool x y) eqn:E; [|lra].
  now apply Qle_bool_iff.
Qed.

Lemma min_l (x y : Q) : x <= y -> ExactQ.min x y = x.
Proof.
  intros Hxy. unfold ExactQ.min. apply Qle_bool_iff in Hxy. now rewrite Hxy.
Qed.

(** X17.  The frame time of animate, over exact arithmetic: deltaTime is
    never more than 2.  It is 0 on the first frame, when
    [animate.lastTime] is still undefined, and also when the previous
    frame read a clock of 0, which [animate.lastTime || currentTime]
    takes for undefined.  After a frame at a time other than 0 it is the
    interval in units of 16.67 ms, as long as that is at most two
    units. *)
Theorem deltaTime_is_clamped (r : Run Q) (currentTime : Q) :
  deltaTime_of r currentTime <= 2 /\
  (lastTime r = None \/ (exists t, lastTime r = Some t /\ t == 0) ->
   deltaTime_of r currentTime == 0) /\
  (forall t, lastTime r = Some t -> ~ t == 0 ->
             currentTime - t <= 2 * (1667 # 100) ->
             deltaTime_of r currentTime == (currentTime - t) / (1667 # 100)).
Proof.
  unfold deltaTime_of. cbn [Math_min lit sub div exactQ]. split; [apply min_le_r|].
  unfold previousTime, frameInterval. split.
  - intros Hl.
    assert (Hprev : match lastTime r with
                    | Some t => if truthy t then t else currentTime
                    | None => currentTime
                    end = currentTime).
    { destruct Hl as [-> | (t & -> & Ht)]; [reflexivity|].
      cbn [truthy exactQ]. apply Qeq_bool_iff in Ht. now rewrite Ht. }
    rewrite Hprev, min_l; unfold Qdiv; [ring|].
    change (/ (1667 # 100)) with (100 # 1667). lra.
  - intros t Hl Ht Hint. rewrite Hl. cbn [truthy exactQ].
    destruct (Qeq_bool t 0) eqn:E; [apply Qeq_bool_iff in E; contradiction|].
    cbn [negb]. rewrite min_l; [reflexivity|].
    unfold Qdiv. change (/ (1667 # 100)) with (100 # 1667). lra.
Qed.

Lemma steps_succ (n : nat) : inject_Z (Z.of_nat (S n)) == inject_Z (Z.of_nat n) + 1.
Proof. rewrite Nat2Z.inj_succ. unfold Z.succ. rewrite inject_Z_plus. reflexivity. Qed.

(* An effect whose life outlasts the frames to come, at no more than 0.04
   a frame, is in the pool after them. *)
Lemma effect_outlives (deltaTimes : list Q) :
  forall (w : World Q) (e : Explosion Q),
    In e (explosionParticles w) ->
    Forall (fun deltaTime => deltaTime <= 2) deltaTimes ->
    (4 # 100) * inject_Z (Z.of_nat (length deltaTimes)) < life e ->
    exists e',
      In e' (explosionParticles (updateExplosions_frames deltaTimes w)) /\
      ex_obj e' = ex_obj e /\
      life e - (4 # 100) * inject_Z (Z.of_nat (length deltaTimes)) <= life e'.
Proof.
  unfold updateExplosions_frames.
  induction deltaTimes as [|dt dts IH]; intros w e He Hdts Hlife; cbn [fold_left length].
  - exists e. repeat split; auto.
    change (inject_Z (Z.of_nat 0)) with 0. lra.
  - inversion Hdts as [|? ? Hdt Hdts']; subst.
    cbn [length] in Hlife. pose proof (steps_succ (length dts)) as Hs.
    assert (H0 : 0 <= inject_Z (Z.of_nat (length dts))).
    { change 0 with (inject_Z 0). rewrite <- Zle_Qle. lia. }
    assert (Hl : life (aged dt e) == life e - dt * (2 # 100)) by reflexivity.
    destruct (IH (updateExplosions dt w) (aged dt e)) as (e' & Hin & Hobj & Hle); auto.
    + destruct (updateExplosions_spec dt w) as (Hp & _). rewrite Hp.
      apply in_map, filter_In. split; [exact He|].
      apply stays_iff. lra.
    + lra.
    + exists e'. repeat split; auto. lra.
Qed.

(** X18.  A new effect lasts at least 25 frames, over exact arithmetic:
    with deltaTime at most 2 on every frame, which is what animate
    passes, an effect whose life is 1 or more is still in the pool, with a
    positive life, after any 24 calls of updateExplosions or fewer. *)
Theorem new_effect_outlives_24_frames
    (deltaTimes : list Q) (w : World Q) (e : Explosion Q) :
  In e (explosionParticles w) ->
  1 <= life e ->
  Forall (fun deltaTime => deltaTime <= 2) deltaTimes ->
  (length deltaTimes <= 24)%nat ->
  exists e',
    In e' (explosionParticles (updateExplosions_frames deltaTimes w)) /\
    ex_obj e' = ex_obj e /\ 0 < life e'.
Proof.
  intros He Hlife Hdts Hlen.
  assert (Hn : inject_Z (Z.of_nat (length deltaTimes)) <= 24).
  { change 24 with (inject_Z 24). rewrite <- Zle_Qle. lia. }
  destruct (@effect_outlives deltaTimes w e He Hdts) as (e' & Hin & Hobj & Hle); [lra|].
  exists e'. repeat split; auto. lra.
Qed.

(** X19.  The camera shake of a frame, over exact arithmetic and for
    Math.random() in [0, 1): with a positive intensity the two offsets
    drawn are at most half the intensity in absolute value, the camera
    moves by the vertical one, the intensity is multiplied by 0.95 and
    two draws are made; with an intensity of 0 or less nothing is drawn
    and nothing moves. *)
Theorem shake_offsets_are_within_half_the_intensity (w : World Q) (r : Run Q) :
  (forall n, 0 <= Math_random n < 1) ->
  let w' := fst (shakeCamera Math_random w r) in
  let r' := snd (shakeCamera Math_random w r) in
  (0 < intensity (cameraShake r) ->
   Qabs (shake_x (cameraShake r')) <= intensity (cameraShake r) * (1 # 2) /\
   Qabs (shake_y (cameraShake r')) <= intensity (cameraShake r) * (1 # 2) /\
   camera_y r' = camera_y r + shake_y (cameraShake r') /\
   intensity (cameraShake r') = intensity (cameraShake r) * (95 # 100) /\
   draws w' = (draws w + 2)%N) /\
  (intensity (cameraShake r) <= 0 -> w' = w /\ r' = r).
Proof.
  intros Hrand. unfold shakeCamera, gt. cbn [lt lit exactQ].
  destruct (ExactQ.ltb 0 (intensity (cameraShake r))) eqn:E;
    [apply ltb_iff in E | apply ltb_false_iff in E];
    cbn [fst snd cameraShake shake_x shake_y intensity camera_y draws skip_draws
         add sub mul lit exactQ];
    split; try lra; auto.
  intros _.
  assert (Hb : forall x, 0 <= x < 1 ->
             Qabs ((x - (5 # 10)) * intensity (cameraShake r))
               <= intensity (cameraShake r) * (1 # 2)).
  { intros x Hx.
    assert (H0 : 0 <= x * intensity (cameraShake r)) by (apply Qmult_le_0_compat; lra).
    assert (H1 : 0 <= (1 - x) * intensity (cameraShake r))
      by (apply Qmult_le_0_compat; lra).
    apply Qabs_Qle_condition. lra. }
  repeat split; auto; apply Hb, Hrand.
Qed.

(** X20.  The classifier is monotone, over exact arithmetic: a higher
    average never falls into a lower bucket (TOASTER, BUDGET, MID-RANGE,
    HIGH-END, BEAST MODE, in that order), and the emoji is the one of the
    bucket. *)
Theorem classify_is_monotone (x y : Q) :
  x <= y ->
  (rank (fst (classify x)) <= rank (fst (classify y)))%nat /\
  (fst (classify x) = fst (classify y) -> snd (classify x) = snd (classify y)).
Proof.
  intros Hxy. unfold classify, gt. cbn [lt lit exactQ].
  repeat match goal with
  | |- context [ExactQ.ltb ?a ?b] =>
      let E := fresh "E" in
      destruct (ExactQ.ltb a b) eqn:E;
      [apply ltb_iff in E | apply ltb_false_iff in E];
      try (exfalso; lra)
  end; cbn; split; try lia; congruence.
Qed.

End ExactFrame.

(** ** The shake of a run, in binary64 *)

Section ShakeOfARun.

Local Open Scope float_scope.

(** X21.  Frames of a run that goes on, in binary64, with no draw below
    the explosion chance: from an intensity that is [k] steps after a
    trigger, [n] frames take the shake branch [n] times and leave the
    intensity [k + n] steps after the trigger, that is 0.5 multiplied
    [k + n] times by 0.95 with the rounding of every product. *)
Theorem shake_decays_frame_by_frame
    (Math_random : N -> float) (ts : list float) (st : State float) (k q : nat) :
  running (run st) = true ->
  rafQueue (host st) = S q ->
  intensity (cameraShake (run st)) = shake_after k ->
  (forall n, (draws (world st) <= n)%N ->
             lt (Math_random n) (lit explosionChance) = false) ->
  Forall (fun t => lt (div (sub t (startTime (run st))) (lit 1000)) maxTime = true) ts ->
  let st' := run_events Math_random (map (@AnimationFrame float) ts) st in
  running (run st') = true /\
  intensity (cameraShake (run st')) = shake_after (k + length ts) /\
  shakes (run st') = (shakes (run st) + length ts)%nat /\
  (0 <? intensity (cameraShake (run st'))) = true.
Proof.
  intros Hrun Hq Hi Hquiet Hts.
  destruct (@frames_decay Math_random ts st k q Hrun Hq Hi Hquiet Hts)
    as (Hr & _ & _ & Hint & Hsh & _).
  cbn zeta. rewrite Hint. repeat split; auto. apply shake_after_positive.
Qed.

End ShakeOfARun.

(** ** Instances of the properties with hypotheses *)

Section Instances.

Local Open Scope float_scope.

Lemma stopped_page_witness :
  running (run finished) = false /\
  clicks stale_events = 0%nat /\
  let st' := run_events always_half stale_events finished in
  world st' = world finished /\ run st' = run finished /\
  resultBox_visible (host st') = resultBox_visible (host finished) /\
  resultBox_innerHTML (host st') = resultBox_innerHTML (host finished) /\
  (rafQueue (host st') <= rafQueue (host finished))%nat /\
  (length (timers (host st')) <= length (timers (host finished)))%nat.
Proof.
  split; [reflexivity|]. split; [reflexivity|].
  apply (@stopped_page_changes_only_by_a_click float _ always_half finished stale_events);
    reflexivity.
Defined.


Lemma frames_of_a_run_witness :
  running (run under_way) = true /\
  rafQueue (host under_way) = 1%nat /\
  Forall (fun t => lt (div (sub t (startTime (run under_way))) (lit 1000)) maxTime = true)
         [16; 33; 50] /\
  let st' := run_events always_half (map (@AnimationFrame float) [16; 33; 50]) under_way in
  running (run st') = true /\
  frameCount (run st') = (frameCount (run under_way) + length [16; 33; 50])%nat /\
  totalTime (run st') =
    last (map (fun t => div (sub t (startTime (run under_way))) (lit 1000)) [16; 33; 50])
         (totalTime (run under_way)) /\
  startTime (run st') = startTime (run under_way) /\
  rafQueue (host st') = 1%nat.
Proof.
  assert (H3 : Forall (fun t => lt (div (sub t (startTime (run under_way))) (lit 1000))
                                   maxTime = true) [16; 33; 50])
    by (repeat constructor).
  split; [reflexivity|]. split; [reflexivity|]. split; [exact H3|].
  exact (@frames_of_a_run_accumulate float _ always_half [16; 33; 50] under_way 0
           eq_refl eq_refl H3).
Defined.

Lemma unknown_tier_at_the_finish_witness :
  running (run under_way) = true /\
  qualitySettings "ultra" = Undefined /\
  lt (div (sub 30000 (startTime (run under_way))) (lit 1000)) maxTime = false /\
  let st1 := selectQuality "ultra" under_way in
  (exists st2,
     keydown "Escape" st1 = Uncaught TypeError st2 /\
     running (run st2) = false /\ world st2 = world under_way /\
     resultBox_visible (host st2) = resultBox_visible (host under_way) /\
     resultBox_innerHTML (host st2) = resultBox_innerHTML (host under_way)) /\
  (exists st3,
     animate always_half 30000 st1 = Uncaught TypeError st3 /\
     running (run st3) = false /\
     frameCount (run st3) = S (frameCount (run under_way)) /\
     rafQueue (host st3) = rafQueue (host under_way) /\
     resultBox_visible (host st3) = resultBox_visible (host under_way) /\
     resultBox_innerHTML (host st3) = resultBox_innerHTML (host under_way)).
Proof.
  split; [reflexivity|]. split; [reflexivity|]. split; [reflexivity|].
  exact (@unknown_tier_at_the_finish_shows_no_result float _ always_half "ultra" 30000
           under_way eq_refl eq_refl eq_refl).
Defined.

Lemma prototype_key_witness :
  qualitySettings "toString" = Inherited /\
  (exists st' p,
     setupScene always_half "toString" (initial "toString") = Ok st' /\
     cubes (world st') = [] /\
     particleSystem (world st') = Some p /\
     positions p = [] /\ velocities p = [] /\
     pointLights (world st') = [] /\
     explosionParticles (world st') = []) /\
  rep_cubes (report 0 0 "toString") = None /\
  rep_particles (report 0 0 "toString") = None /\
  rep_lights (report 0 0 "toString") = None.
Proof.
  split; [reflexivity|].
  exact (@prototype_key_gives_an_empty_tier float _ always_half "toString"
           (initial "toString") 0 0 eq_refl).
Defined.

Lemma shake_decays_witness :
  running (run under_way) = true /\
  rafQueue (host under_way) = 1%nat /\
  intensity (cameraShake (run under_way)) = shake_after 0 /\
  (forall n, (draws (world under_way) <= n)%N ->
             lt (always_half n) (lit explosionChance) = false) /\
  Forall (fun t => lt (div (sub t (startTime (run under_way))) (lit 1000)) maxTime = true)
         [16; 33] /\
  let st' := run_events always_half (map (@AnimationFrame float) [16; 33]) under_way in
  running (run st') = true /\
  intensity (cameraShake (run st')) = shake_after (0 + length [16; 33]) /\
  shakes (run st') = (shakes (run under_way) + length [16; 33])%nat /\
  (0 <? intensity (cameraShake (run st'))) = true.
Proof.
  assert (H4 : forall n, (draws (world under_way) <= n)%N ->
                         lt (always_half n) (lit explosionChance) = false)
    by (intros n _; reflexivity).
  assert (H5 : Forall (fun t => lt (div (sub t (startTime (run under_way))) (lit 1000))
                                   maxTime = true) [16; 33])
    by (repeat constructor).
  split; [reflexivity|]. split; [reflexivity|]. split; [reflexivity|].
  split; [exact H4|]. split; [exact H5|].
  exact (@shake_decays_frame_by_frame always_half [16; 33] under_way 0 0
           eq_refl eq_refl eq_refl H4 H5).
Defined.

End Instances.

Section ExactInstances.

Local Open Scope Q_scope.

Lemma always_half_exact_range : forall n, 0 <= always_half_exact n < 1.
Proof. intros n. unfold always_half_exact. split; [discriminate | reflexivity]. Qed.

Lemma hslToRgb_range_witness :
  0 <= (1 # 4) <= 1 /\ 0 <= (8 # 10) <= 1 /\ 0 <= (6 # 10) <= 1 /\
  0 <= rgb_r (hslToRgb (1 # 4) (8 # 10) (6 # 10)) <= 1 /\
  0 <= rgb_g (hslToRgb (1 # 4) (8 # 10) (6 # 10)) <= 1 /\
  0 <= rgb_b (hslToRgb (1 # 4) (8 # 10) (6 # 10)) <= 1.
Proof.
  assert (H1 : 0 <= (1 # 4) <= 1) by (split; discriminate).
  assert (H2 : 0 <= (8 # 10) <= 1) by (split; discriminate).
  assert (H3 : 0 <= (6 # 10) <= 1) by (split; discriminate).
  split; [exact H1|]. split; [exact H2|]. split; [exact H3|].
  exact (@hslToRgb_channels_are_in_range (1 # 4) (8 # 10) (6 # 10) H1 H2 H3).
Defined.

Lemma hslToRgb_lightness_witness :
  0 <= (1 # 4) <= 1 /\ 0 <= (8 # 10) <= 1 /\ 0 <= (6 # 10) <= 1 /\
  let c := hslToRgb (1 # 4) (8 # 10) (6 # 10) in
  let greatest := ExactQ.max (rgb_r c) (ExactQ.max (rgb_g c) (rgb_b c)) in
  let least := ExactQ.min (rgb_r c) (ExactQ.min (rgb_g c) (rgb_b c)) in
  greatest + least == 2 * (6 # 10) /\
  greatest - least == (8 # 10) * (1 - Qabs (2 * (6 # 10) - 1)).
Proof.
  assert (H1 : 0 <= (1 # 4) <= 1) by (split; discriminate).
  assert (H2 : 0 <= (8 # 10) <= 1) by (split; discriminate).
  assert (H3 : 0 <= (6 # 10) <= 1) by (split; discriminate).
  split; [exact H1|]. split; [exact H2|]. split; [exact H3|].
  exact (@hslToRgb_keeps_lightness_and_chroma (1 # 4) (8 # 10) (6 # 10) H1 H2 H3).
Defined.

Lemma colours_written_witness :
  (forall n, 0 <= always_half_exact n < 1) /\
  0 <= (1 # 4) <= 1 /\
  length (createColours always_half_exact 2 0) = (3 * 2)%nat /\
  Forall (fun c => 0 <= c <= 1) (createColours always_half_exact 2 0) /\
  (28 # 100) <= rgb_r (rainbow (1 # 4)) <= (92 # 100) /\
  (28 # 100) <= rgb_g (rainbow (1 # 4)) <= (92 # 100) /\
  (28 # 100) <= rgb_b (rainbow (1 # 4)) <= (92 # 100).
Proof.
  assert (H2 : 0 <= (1 # 4) <= 1) by (split; discriminate).
  split; [exact always_half_exact_range|]. split; [exact H2|].
  exact (@colours_written_are_in_range always_half_exact always_half_exact_range
           2 0%N (1 # 4) H2).
Defined.

Lemma createParticleSystem_witness :
  (forall n, 0 <= always_half_exact n < 1) /\
  let p := fst (createParticleSystem always_half_exact 2 small_world) in
  length (positions p) = (3 * 2)%nat /\
  length (velocities p) = (3 * 2)%nat /\
  Forall (fun x => Qabs x <= 100) (positions p) /\
  Forall (fun v => Qabs v <= 1) (velocities p).
Proof.
  split; [exact always_half_exact_range|].
  exact (@createParticleSystem_starts_within_bounds always_half_exact
           always_half_exact_range 2 small_world).
Defined.

Lemma ambient_field_witness :
  (forall n, 0 <= always_half_exact n < 1) /\
  field_ok (world (run_events always_half_exact
                     [Click 5000 5000; AnimationFrame 5016; Timeout 7000 0%nat;
                      AnimationFrame 5033]
                     (initial "insane"))).
Proof.
  split; [exact always_half_exact_range|].
  exact (@ambient_field_stays_within_the_wrap_radius always_half_exact
           always_half_exact_range "insane" _).
Defined.

Lemma new_effect_witness :
  In {| ex_obj := {| oid := 1; otype := Points |};
        life := 1; maxLife := 60; opacity := 1 |} (explosionParticles small_world) /\
  1 <= life {| ex_obj := {| oid := 1; otype := Points |};
               life := 1; maxLife := 60; opacity := 1 |} /\
  Forall (fun deltaTime => deltaTime <= 2) [1; 2; 2] /\
  (length [1; 2; 2] <= 24)%nat /\
  exists e',
    In e' (explosionParticles (updateExplosions_frames [1; 2; 2] small_world)) /\
    ex_obj e' = {| oid := 1; otype := Points |} /\ 0 < life e'.
Proof.
  assert (H1 : In {| ex_obj := {| oid := 1; otype := Points |};
                     life := 1; maxLife := 60; opacity := 1 |}
                  (explosionParticles small_world)) by (left; reflexivity).
  assert (H2 : 1 <= life {| ex_obj := {| oid := 1; otype := Points |};
                            life := 1; maxLife := 60; opacity := 1 |}) by discriminate.
  assert (H3 : Forall (fun deltaTime => deltaTime <= 2) [1; 2; 2])
    by (repeat constructor; discriminate).
  assert (H4 : (length [1; 2; 2] <= 24)%nat) by (simpl; lia).
  split; [exact H1|]. split; [exact H2|]. split; [exact H3|]. split; [exact H4|].
  exact (@new_effect_outlives_24_frames [1; 2; 2] small_world _ H1 H2 H3 H4).
Defined.

Lemma shake_offsets_witness :
  (forall n, 0 <= always_half_exact n < 1) /\
  let w' := fst (shakeCamera always_half_exact small_world shaken) in
  let r' := snd (shakeCamera always_half_exact small_world shaken) in
  (0 < intensity (cameraShake shaken) ->
   Qabs (shake_x (cameraShake r')) <= intensity (cameraShake shaken) * (1 # 2) /\
   Qabs (shake_y (cameraShake r')) <= intensity (cameraShake shaken) * (1 # 2) /\
   camera_y r' = camera_y shaken + shake_y (cameraShake r') /\
   intensity (cameraShake r') = intensity (cameraShake shaken) * (95 # 100) /\
   draws w' = (draws small_world + 2)%N) /\
  (intensity (cameraShake shaken) <= 0 -> w' = small_world /\ r' = shaken).
Proof.
  split; [exact always_half_exact_range|].
  exact (@shake_offsets_are_within_half_the_intensity always_half_exact small_world shaken
           always_half_exact_range).
Defined.

Lemma classify_witness :
  30 <= 60 /\
  (rank (fst (classify 30%Q)) <= rank (fst (classify 60%Q)))%nat /\
  (fst (classify 30) = fst (classify 60) -> snd (classify 30) = snd (classify 60)).
Proof.
  assert (H1 : 30 <= 60) by discriminate.
  split; [exact H1|].
  exact (@classify_is_monotone 30 60 H1).
Defined.

End ExactInstances.

Section MoreInstances.

Local Open Scope float_scope.

Lemma running_page_witness :
  qualitySettings "toString" <> Undefined /\
  selections [Click 5000 5000; AnimationFrame 5016; Timeout 7000 0%nat] = 0%nat /\
  let st := run_events always_half
              [Click 5000 5000; AnimationFrame 5016; Timeout 7000 0%nat]
              (initial "toString") in
  running (run st) = true /\ (1 <= rafQueue (host st))%nat.
Proof.
  assert (H1 : qualitySettings "toString" <> Undefined) by discriminate.
  assert (H3 : running (run (run_events always_half
                 [Click 5000 5000; AnimationFrame 5016; Timeout 7000 0%nat]
                 (initial "toString"))) = true) by reflexivity.
  split; [exact H1|]. split; [reflexivity|]. split; [exact H3|].
  exact (@running_page_has_a_frame_pending float _ always_half "toString"
           [Click 5000 5000; AnimationFrame 5016; Timeout 7000 0%nat]
           H1 eq_refl H3).
Defined.

Lemma running_time_witness :
  let st := run_events always_half [Click 5000 5016] (initial "toString") in
  running (run st) = true /\ lt (totalTime (run st)) maxTime = true.
Proof.
  assert (H1 : running (run (run_events always_half [Click 5000 5016]
                              (initial "toString"))) = true) by reflexivity.
  split; [exact H1|].
  exact (@running_time_is_below_the_limit always_half "toString" _ H1).
Defined.

End MoreInstances.

(** ** The vertices of an explosion, over exact arithmetic *)

Section ExactVertices.

Local Open Scope Q_scope.

Lemma moveVertices_step (deltaTime p0 p1 p2 v0 v1 v2 : Q) (ps vs : list Q) :
  moveVertices deltaTime (p0 :: p1 :: p2 :: ps) (v0 :: v1 :: v2 :: vs)
  = (p0 + v0 * deltaTime :: p1 + v1 * deltaTime :: p2 + v2 * deltaTime
       :: fst (moveVertices deltaTime ps vs),
     v0 :: v1 - gravity * deltaTime :: v2 :: snd (moveVertices deltaTime ps vs)).
Proof.
  cbn [moveVertices]. cbn [fround exactQ add sub mul lit].
  destruct (moveVertices deltaTime ps vs); reflexivity.
Qed.

Lemma moveVertices_length (deltaTime : Q) (ps : list Q) :
  forall vs,
    length (fst (moveVertices deltaTime ps vs)) = length ps /\
    length (snd (moveVertices deltaTime ps vs)) = length vs.
Proof.
  induction ps as [| | |p0 p1 p2 ps IH] using list_ind3; intros vs;
    try (split; reflexivity).
  destruct vs as [|v0 [|v1 [|v2 vs]]]; try (split; reflexivity).
  rewrite moveVertices_step. cbn [fst snd length].
  destruct (IH vs) as (-> & ->). split; reflexivity.
Qed.

(* Vertex [k] after one call of the loop. *)
Lemma moveVertices_vertex (deltaTime : Q) (k : nat) :
  forall ps vs,
    length vs = length ps ->
    (3 * k + 3 <= length ps)%nat ->
    let '(x, y, z) := coordinates 0 k ps in
    let '(vx, vy, vz) := coordinates 0 k vs in
    coordinates 0 k (fst (moveVertices deltaTime ps vs))
      = (x + vx * deltaTime, y + vy * deltaTime, z + vz * deltaTime) /\
    coordinates 0 k (snd (moveVertices deltaTime ps vs))
      = (vx, vy - gravity * deltaTime, vz).
Proof.
  induction k as [|k IH]; intros ps vs Hlen Hk;
    destruct ps as [|p0 [|p1 [|p2 ps]]]; cbn in Hk; try lia;
    destruct vs as [|v0 [|v1 [|v2 vs]]]; cbn in Hlen; try lia.
  - unfold coordinates. rewrite moveVertices_step. cbn. split; reflexivity.
  - specialize (IH ps vs).
    unfold coordinates in *. rewrite moveVertices_step.
    replace (3 * S k)%nat with (S (S (S (3 * k)))) by lia.
    cbn [nth Nat.add fst snd]. apply IH; lia.
Qed.

(** X25.  The vertices of an explosion follow a parabola, over exact
    arithmetic: after [n] calls of the inner loop of updateExplosions
    with the same deltaTime [dt], a vertex that started at (x, y, z) with
    velocity (vx, vy, vz) has kept its horizontal velocity, has the
    vertical velocity [vy - 0.5 n dt], and is at
    (x + n vx dt, y + n vy dt - 0.25 n (n - 1) dt^2, z + n vz dt): the
    position is advanced by the velocity of the previous frame, and
    gravity acts on the vertical velocity only.  The buffers keep their
    length. *)
Theorem explosion_vertices_follow_a_parabola
    (n : nat) (dt : Q) (k : nat) (ps vs : list Q) :
  length vs = length ps ->
  (3 * k + 3 <= length ps)%nat ->
  let '(x, y, z) := coordinates 0 k ps in
  let '(vx, vy, vz) := coordinates 0 k vs in
  let '(x', y', z') := coordinates 0 k (fst (moveVertices_frames n dt ps vs)) in
  let '(vx', vy', vz') := coordinates 0 k (snd (moveVertices_frames n dt ps vs)) in
  let steps := inject_Z (Z.of_nat n) in
  length (fst (moveVertices_frames n dt ps vs)) = length ps /\
  length (snd (moveVertices_frames n dt ps vs)) = length vs /\
  vx' == vx /\ vz' == vz /\
  vy' == vy - (5 # 10) * steps * dt /\
  x' == x + steps * vx * dt /\
  z' == z + steps * vz * dt /\
  y' == y + steps * vy * dt - (25 # 100) * steps * (steps - 1) * dt * dt.
Proof.
  revert ps vs. induction n as [|n IH]; intros ps vs Hlen Hk.
  - cbn [moveVertices_frames fst snd].
    destruct (coordinates 0 k ps) as [[x y] z].
    destruct (coordinates 0 k vs) as [[vx vy] vz].
    change (inject_Z (Z.of_nat 0)) with 0.
    repeat split; ring.
  - cbn [moveVertices_frames].
    pose proof (moveVertices_vertex dt k ps vs Hlen Hk) as Hstep.
    destruct (moveVertices_length dt ps vs) as (Hlp & Hlv).
    destruct (moveVertices dt ps vs) as [ps1 vs1]. cbn [fst snd] in *.
    specialize (IH ps1 vs1).
    destruct (coordinates 0 k ps) as [[x y] z].
    destruct (coordinates 0 k vs) as [[vx vy] vz].
    destruct Hstep as (Hp1 & Hv1). rewrite Hp1, Hv1 in IH.
    destruct (coordinates 0 k (fst (moveVertices_frames n dt ps1 vs1))) as [[x' y'] z'].
    destruct (coordinates 0 k (snd (moveVertices_frames n dt ps1 vs1))) as [[vx' vy'] vz'].
    destruct IH as (Hl1 & Hl2 & Hvx & Hvz & Hvy & Hx & Hz & Hy); [lia | lia |].
    cbn zeta in *.
    pose proof (steps_succ n) as Hs.
    rewrite Hl1, Hl2, Hvx, Hvz, Hvy, Hx, Hz, Hy, Hs. unfold gravity.
    repeat split; auto; ring.
Qed.

End ExactVertices.

Section VertexInstances.

Local Open Scope Q_scope.

Lemma explosion_vertices_witness :
  length [1; 10; 0; 0; 5; 2] = length [0; 0; 0; 3; 3; 3] /\
  (3 * 1 + 3 <= length [0; 0; 0; 3; 3; 3])%nat /\
  let '(x, y, z) := coordinates 0 1 [0; 0; 0; 3; 3; 3] in
  let '(vx, vy, vz) := coordinates 0 1 [1; 10; 0; 0; 5; 2] in
  let '(x', y', z') :=
    coordinates 0 1 (fst (moveVertices_frames 4 2 [0; 0; 0; 3; 3; 3] [1; 10; 0; 0; 5; 2])) in
  let '(vx', vy', vz') :=
    coordinates 0 1 (snd (moveVertices_frames 4 2 [0; 0; 0; 3; 3; 3] [1; 10; 0; 0; 5; 2])) in
  let steps := inject_Z (Z.of_nat 4) in
  length (fst (moveVertices_frames 4 2 [0; 0; 0; 3; 3; 3] [1; 10; 0; 0; 5; 2]))
    = length [0; 0; 0; 3; 3; 3] /\
  length (snd (moveVertices_frames 4 2 [0; 0; 0; 3; 3; 3] [1; 10; 0; 0; 5; 2]))
    = length [1; 10; 0; 0; 5; 2] /\
  vx' == vx /\ vz' == vz /\
  vy' == vy - (5 # 10) * steps * 2 /\
  x' == x + steps * vx * 2 /\
  z' == z + steps * vz * 2 /\
  y' == y + steps * vy * 2 - (25 # 100) * steps * (steps - 1) * 2 * 2.
Proof.
  assert (H1 : length [1; 10; 0; 0; 5; 2] = length [0; 0; 0; 3; 3; 3]) by reflexivity.
  assert (H2 : (3 * 1 + 3 <= length [0; 0; 0; 3; 3; 3])%nat) by (simpl; lia).
  split; [exact H1|]. split; [exact H2|].
  exact (@explosion_vertices_follow_a_parabola 4 2 1 [0; 0; 0; 3; 3; 3]
           [1; 10; 0; 0; 5; 2] H1 H2).
Defined.

End VertexInstances.
